(** * seispy.image: reading SW4 image files

    A shallow embedding of [src/seispy/image.py]: the [Image] and [Patch]
    classes, the binary reader ([_read_header], [_read_patches]) and
    [read_SW4_image], together with the part of numpy they rely on
    ([numpy.fromfile], [ndarray.reshape], [ndarray.T], and the reductions
    behind the statistics of a patch).

    Conventions.
    - A Python call either returns or raises: [result].
    - [warnings.warn], [open] and the end of a [with] block are recorded
      as [event]s.
    - The module [seispy.header] (record layouts and lookup tables) and
      [seispy.config.read_input_file] are imported by the source but are
      not part of it: they are the variables of [Section SeisPy].
    - 64-bit floats are Rocq's primitive binary64 floats. *)

From Stdlib Require Import String ZArith Bool Lia Floats PArith List
  Permutation.
Import ListNotations.
Local Open Scope Z_scope.
Local Open Scope list_scope.

Set Implicit Arguments.

(** ** Python results and effects *)

(** What a [ValueError] raised on the paths of this module is about. *)
Inductive value_error : Type :=
| Unrecognized_source_time_function_type (given : option string)
    (* raise ValueError(msg) at the end of Image.__init__ *)
| Reshape_size_mismatch
    (* ndarray.reshape: "cannot reshape array of size n into shape (a,b)" *)
| Reshape_two_unknown
    (* ndarray.reshape: "can only specify one unknown dimension" *)
| Zero_size_reduction.
    (* ndarray.min: "zero-size array to reduction operation minimum" *)

Inductive exception : Type :=
| ValueError (why : value_error)
| KeyError
| IndexError
| AttributeError
| TypeError
| IOError.

Inductive result (A : Type) : Type :=
| Ok (a : A)
| Raise (e : exception).

Arguments Ok {A} a.
Arguments Raise {A} e.

Inductive warning : Type :=
| Overriding_source_time_function_type (user found : string)
| Uncommon_file_extension (filename : string).

Inductive event : Type :=
| Warn (w : warning)
| Open (path : string)
| Close (path : string).

(** ** numpy *)

Definition byte := Byte.byte.

(** One array item of a given dtype, kept as the bytes it occupies in the
    file (a float32 sample is 4 bytes, a float64 sample is 8). *)
Definition item := list byte.

(** The rest of an open binary file, from the cursor on. *)
Definition stream := list byte.

(** [chunks size k s]: the first [k] consecutive [size]-byte items of [s]. *)
Fixpoint chunks (size : nat) (k : nat) (s : list byte) : list item :=
  match k with
  | O => []
  | S k' => firstn size s :: chunks size k' (skipn size s)
  end.

(** [numpy.fromfile(f, dtype, count)] on a binary file, for a dtype of
    [itemsize] bytes.  A negative [count] asks for all the complete items
    that remain; otherwise [count] items are asked for and a short file
    gives the complete items it still holds, without raising.  The items
    come back with the file after the read: a short read has run into the
    end of the file. *)
Definition fromfile (itemsize : positive) (count : Z) (f : stream)
  : list item * stream :=
  let size := Pos.to_nat itemsize in
  let avail := (length f / size)%nat in
  if count <? 0 then
    (chunks size avail f, skipn (avail * size) f)
  else
    let num := Z.to_nat count in
    if (avail <? num)%nat then (chunks size avail f, [])
    else (chunks size num f, skipn (num * size) f).

(** A two-dimensional [ndarray]: its shape [(rows, columns)] and its items
    in row-major (C) order. *)
Record ndarray : Type := {
  shape : nat * nat;
  elems : list item
}.

Definition size (a : ndarray) : nat := length (elems a).


(** [data.reshape(d0, d1)] of a one-dimensional array.  A negative
    dimension is unknown and is inferred from the size; two unknown
    dimensions, or a size that does not fit, raise [ValueError]. *)
Definition reshape (data : list item) (d0 d1 : Z) : result ndarray :=
  let n := length data in
  match d0 <? 0, d1 <? 0 with
  | true, true => Raise (ValueError Reshape_two_unknown)
  | true, false =>
      let c := Z.to_nat d1 in
      if ((c =? 0) || negb (n mod c =? 0))%nat
      then Raise (ValueError Reshape_size_mismatch)
      else Ok {| shape := ((n / c)%nat, c); elems := data |}
  | false, true =>
      let r := Z.to_nat d0 in
      if ((r =? 0) || negb (n mod r =? 0))%nat
      then Raise (ValueError Reshape_size_mismatch)
      else Ok {| shape := (r, (n / r)%nat); elems := data |}
  | false, false =>
      if Z.of_nat n =? d0 * d1
      then Ok {| shape := (Z.to_nat d0, Z.to_nat d1); elems := data |}
      else Raise (ValueError Reshape_size_mismatch)
  end.

(** [a.T]: the array with the two axes swapped, [a.T[i, j] = a[j, i]]. *)
Definition T (a : ndarray) : ndarray :=
  let '(r, c) := shape a in
  {| shape := (c, r);
     elems := flat_map
                (fun i => map (fun j => nth (j * c + i) (elems a) [])
                              (seq 0 r))
                (seq 0 c) |}.


(** [int] to [float64], rounding to nearest. *)
Definition float_of_int (z : Z) : float :=
  SF2Prim (binary_normalize 53 1024 z 0 false).

(** ** Records of the file format and of the configuration *)

(** One record of [SW4_IMAGE_HEADER_DTYPE]. *)
Record ImageHeader : Type := {
  hd_precision : Z;
  hd_number_of_patches : Z;
  hd_time : float;
  hd_plane : Z;
  hd_coordinate : float;
  hd_mode : Z;
  hd_gridinfo : Z;
  hd_creation_time : list byte
}.

(** One record of [SW4_PATCH_HEADER_DTYPE].  The integer fields hold the
    integers of the record, which numpy hands out as [int32] scalars.  The
    product [patch.ni*patch.nj] of two of them is an [int32] again and
    wraps around ([int32_mul]).  [ni - 1] and [nj - 1] are taken in [Z]:
    they differ from a 32-bit difference for the least [int32] only. *)
Record PatchHeader : Type := {
  ph_h : float;
  ph_zmin : float;
  ph_ib : Z;
  ph_ni : Z;
  ph_jb : Z;
  ph_nj : Z
}.

(** The product of two [int32] scalars of numpy: the low 32 bits of the
    product, read as a signed integer. *)
Definition int32_mul (a b : Z) : Z :=
  (a * b + 2147483648) mod 4294967296 - 2147483648.

(** A numpy record dtype: how many bytes one record takes and how they are
    read. *)
Record dtype (A : Type) : Type := {
  itemsize : positive;
  unpack : item -> A
}.

(** An [AttribDict]: attribute names with their values, in insertion
    order.  It is falsy exactly when it is empty.  Reading an attribute
    that is not there raises ([AttributeError]; older versions of obspy
    raise [KeyError]). *)
Definition AttribDict (V : Type) : Type := list (string * V).

Fixpoint getattr {V : Type} (d : AttribDict V) (name : string) : option V :=
  match d with
  | [] => None
  | (k, v) :: d' => if String.eqb k name then Some v else getattr d' name
  end.

(** One line of an SW4 input file ("source", "rec", ...): its attributes. *)
Definition ConfigItem : Type := AttribDict string.

(** A parsed SW4 input file: for each command the list of its lines. *)
Definition Config : Type := AttribDict (list ConfigItem).

(** The [config] argument: an [AttribDict], or anything else, which is
    handed to [read_input_file]. *)
Inductive config_arg : Type :=
| ConfigDict (c : Config)
| ConfigFile (path : string).

(** The two mode tables of [seispy.header]; an image holds one of them. *)
Inductive mode_dict : Type :=
| SW4_IMAGE_MODE_DISPLACEMENT
| SW4_IMAGE_MODE_VELOCITY.

(** ** The classes *)

Module Patch.

(** The attributes of a [Patch].  The back-reference [_image] is not
    stored: [_set_data] receives the image it would point to.  The
    statistics [min], [max], [std] and [rms] are not fields of the
    record: they are functions of the samples of [data] ([Patch_min],
    [Patch_max], [Patch_std], [Patch_rms] below); the raise of
    [data.min()] on an empty grid is kept in [_set_data]. *)
Record t : Type := {
  number : option nat;
  h : option float;
  zmin : option float;
  ib : option Z;
  ni : option Z;
  jb : option Z;
  nj : option Z;
  data : option ndarray;
  extent : option (float * float * float * float)
}.

End Patch.

Module Image.

Record t : Type := {
  patches : list Patch.t;
  _config : option Config;
  _mode_dict : mode_dict;
  filename : option string;
  _precision : option Z;
  _number_of_patches : option Z;
  time : option float;
  _plane : option Z;
  coordinate : option float;
  _mode : option Z;
  gridinfo : option Z;
  creation_time : option (list byte)
}.

End Image.

(** *** Patch *)

(** [Patch.__init__(self, number, image)]. *)
Definition Patch_init (number : option nat) : Patch.t :=
  {| Patch.number := number;
     Patch.h := None; Patch.zmin := None;
     Patch.ib := None; Patch.ni := None;
     Patch.jb := None; Patch.nj := None;
     Patch.data := None; Patch.extent := None |}.

(** [Patch._set_header(self, header)]. *)
Definition _set_header (self : Patch.t) (header : PatchHeader) : Patch.t :=
  {| Patch.number := Patch.number self;
     Patch.h := Some (ph_h header); Patch.zmin := Some (ph_zmin header);
     Patch.ib := Some (ph_ib header); Patch.ni := Some (ph_ni header);
     Patch.jb := Some (ph_jb header); Patch.nj := Some (ph_nj header);
     Patch.data := Patch.data self; Patch.extent := Patch.extent self |}.

(** [Image.is_cross_section]: [Some true] and [Some false] are Python's
    [True] and [False]; [None] is the [None] a Python function returns when
    it falls off its end. *)
Definition is_cross_section (self : Image.t) : option bool :=
  match Image._plane self with
  | Some plane =>
      if (plane =? 0) || (plane =? 1) then Some true
      else if plane =? 2 then Some false
      else None
  | None => None
  end.

(** Truth value of what [is_cross_section] returns, as [if] tests it. *)
Definition truthy (v : option bool) : bool :=
  match v with
  | Some b => b
  | None => false
  end.

(** [Image.type]. *)
Definition type (self : Image.t) : string :=
  if truthy (is_cross_section self) then "cross-section"%string
  else "map"%string.

(** [Image.number_of_patches]. *)
Definition number_of_patches (self : Image.t) : nat :=
  length (Image.patches self).

(** [self.data = d] and [self.extent = e]. *)
Definition with_data_extent (self : Patch.t) (d : ndarray)
    (e : float * float * float * float) : Patch.t :=
  {| Patch.number := Patch.number self;
     Patch.h := Patch.h self; Patch.zmin := Patch.zmin self;
     Patch.ib := Patch.ib self; Patch.ni := Patch.ni self;
     Patch.jb := Patch.jb self; Patch.nj := Patch.nj self;
     Patch.data := Some d; Patch.extent := Some e |}.

(** [Patch._set_data(self, data)], [image] being [self._image].  An
    attribute of the header that is still [None] makes the arithmetic of
    the extent raise [TypeError].  After the extent, [data.min()] raises
    [ValueError] on a grid without samples; the other reductions raise
    nothing further, and what they compute is given by [Patch_min],
    [Patch_max], [Patch_std] and [Patch_rms]. *)
Definition _set_data (image : Image.t) (self : Patch.t) (data : ndarray)
  : result Patch.t :=
  match Patch.h self, Patch.zmin self, Patch.ni self, Patch.nj self with
  | Some h, Some zmin, Some ni, Some nj =>
      let self' :=
        if truthy (is_cross_section image) then
          with_data_extent self data
            (0 - h / 2,
             float_of_int (ni - 1) * h + h / 2,
             zmin - h / 2,
             zmin + float_of_int (nj - 1) * h + h / 2)%float
        else
          with_data_extent self (T data)
            (0 - h / 2,
             float_of_int (nj - 1) * h + h / 2,
             0 - h / 2,
             float_of_int (ni - 1) * h + h / 2)%float
      in
      if (size data =? 0)%nat then Raise (ValueError Zero_size_reduction)
      else Ok self'
  | _, _, _, _ => Raise TypeError
  end.

(** *** State of a read: the image being filled and the open file *)

Record state : Type := {
  st_image : Image.t;
  st_file : stream
}.

(** A method that reads from the file and updates the image; an exception
    leaves the state as it was when it was raised. *)
Definition Py (A : Type) : Type := state -> result A * state.

Definition ret {A : Type} (a : A) : Py A := fun s => (Ok a, s).

Definition raise {A : Type} (e : exception) : Py A := fun s => (Raise e, s).

Definition bind {A B : Type} (m : Py A) (k : A -> Py B) : Py B :=
  fun s =>
    match m s with
    | (Ok a, s') => k a s'
    | (Raise e, s') => (Raise e, s')
    end.

Notation "x <- m ;; k" := (bind m (fun x => k))
  (at level 100, m at next level, right associativity).
Notation "m ;;; k" := (bind m (fun _ => k))
  (at level 100, right associativity).

Definition lift {A : Type} (r : result A) : Py A := fun s => (r, s).

(** Reading an attribute that may still be [None] where a number is
    needed. *)
Definition attr {A : Type} (v : option A) : Py A :=
  match v with
  | Some a => ret a
  | None => raise TypeError
  end.

Definition get_image : Py Image.t := fun s => (Ok (st_image s), s).

Definition update_image (f : Image.t -> Image.t) : Py unit :=
  fun s => (Ok tt, {| st_image := f (st_image s); st_file := st_file s |}).

(** [np.fromfile(f, dtype, count)] on the open file. *)
Definition np_fromfile (itemsize : positive) (count : Z) : Py (list item) :=
  fun s =>
    let '(items, f') := fromfile itemsize count (st_file s) in
    (Ok items, {| st_image := st_image s; st_file := f' |}).

(** The assignment of the eight header fields in [_read_header]. *)
Definition set_header_fields (header : ImageHeader) (self : Image.t)
  : Image.t :=
  {| Image.patches := Image.patches self;
     Image._config := Image._config self;
     Image._mode_dict := Image._mode_dict self;
     Image.filename := Image.filename self;
     Image._precision := Some (hd_precision header);
     Image._number_of_patches := Some (hd_number_of_patches header);
     Image.time := Some (hd_time header);
     Image._plane := Some (hd_plane header);
     Image.coordinate := Some (hd_coordinate header);
     Image._mode := Some (hd_mode header);
     Image.gridinfo := Some (hd_gridinfo header);
     Image.creation_time := Some (hd_creation_time header) |}.

(** [self.patches.append(patch)]. *)
Definition append_patch (patch : Patch.t) (self : Image.t) : Image.t :=
  {| Image.patches := Image.patches self ++ [patch];
     Image._config := Image._config self;
     Image._mode_dict := Image._mode_dict self;
     Image.filename := Image.filename self;
     Image._precision := Image._precision self;
     Image._number_of_patches := Image._number_of_patches self;
     Image.time := Image.time self;
     Image._plane := Image._plane self;
     Image.coordinate := Image.coordinate self;
     Image._mode := Image._mode self;
     Image.gridinfo := Image.gridinfo self;
     Image.creation_time := Image.creation_time self |}.

(** [image.filename = filename]. *)
Definition set_filename (filename : option string) (self : Image.t)
  : Image.t :=
  {| Image.patches := Image.patches self;
     Image._config := Image._config self;
     Image._mode_dict := Image._mode_dict self;
     Image.filename := filename;
     Image._precision := Image._precision self;
     Image._number_of_patches := Image._number_of_patches self;
     Image.time := Image.time self;
     Image._plane := Image._plane self;
     Image.coordinate := Image.coordinate self;
     Image._mode := Image._mode self;
     Image.gridinfo := Image.gridinfo self;
     Image.creation_time := Image.creation_time self |}.

(** A string that is passed as a file name, as an object.  The test
    [filename is 'random'] of [read_SW4_image] compares identities, not
    characters.  It holds for the object that the literal 'random' of the
    module is: the default of the argument, and the same literal in the
    code of a caller, which Python interns.  It fails for every other
    string object, whatever its characters: a string that was built at
    run time (put together, read from a file, returned by [glob]) is not
    that object even when it reads "random". *)
Inductive str : Type :=
| the_literal_random
| Str (s : string).

(** The characters of a string object. *)
Definition chars (o : str) : string :=
  match o with
  | the_literal_random => "random"
  | Str s => s
  end.

(** [o is 'random']. *)
Definition is_random (o : str) : bool :=
  match o with
  | the_literal_random => true
  | Str _ => false
  end.

(** Python's truth value of a string or [None]. *)
Definition nonempty (s : option string) : bool :=
  match s with
  | Some (String _ _) => true
  | _ => false
  end.

(** [s.endswith(suffix)]. *)
Definition endswith (s suffix : string) : bool :=
  let n := String.length s in
  let k := String.length suffix in
  (k <=? n)%nat && String.eqb (String.substring (n - k) k s) suffix.

(** [self.patches.extend(ps)]: what a run of appends amounts to. *)
Definition add_patches (ps : list Patch.t) (self : Image.t) : Image.t :=
  {| Image.patches := Image.patches self ++ ps;
     Image._config := Image._config self;
     Image._mode_dict := Image._mode_dict self;
     Image.filename := Image.filename self;
     Image._precision := Image._precision self;
     Image._number_of_patches := Image._number_of_patches self;
     Image.time := Image.time self;
     Image._plane := Image._plane self;
     Image.coordinate := Image.coordinate self;
     Image._mode := Image._mode self;
     Image.gridinfo := Image.gridinfo self;
     Image.creation_time := Image.creation_time self |}.

(** *** The patches a file describes

    The sample block of a patch is [ni * nj] items, stored row by row as
    [nj] rows of [ni] columns; the blocks follow each other in the order
    of the patch headers. *)

Definition stored_grid (header : PatchHeader) (block : list item)
  : ndarray :=
  {| shape := (Z.to_nat (ph_nj header), Z.to_nat (ph_ni header));
     elems := block |}.


(** The patch of a cross-section: the grid as stored, the extent from
    [ni] across and from [zmin] and [nj] in depth. *)
Definition cross_section_patch (i : nat) (header : PatchHeader)
    (grid : ndarray) : Patch.t :=
  let h := ph_h header in
  let zmin := ph_zmin header in
  {| Patch.number := Some i;
     Patch.h := Some h; Patch.zmin := Some zmin;
     Patch.ib := Some (ph_ib header); Patch.ni := Some (ph_ni header);
     Patch.jb := Some (ph_jb header); Patch.nj := Some (ph_nj header);
     Patch.data := Some grid;
     Patch.extent :=
       Some (0 - h / 2,
             float_of_int (ph_ni header - 1) * h + h / 2,
             zmin - h / 2,
             zmin + float_of_int (ph_nj header - 1) * h + h / 2)%float |}.

(** The patch of a map: the grid transposed, both axes of the extent from
    zero, [nj] first. *)
Definition map_patch (i : nat) (header : PatchHeader) (grid : ndarray)
  : Patch.t :=
  let h := ph_h header in
  {| Patch.number := Some i;
     Patch.h := Some h; Patch.zmin := Some (ph_zmin header);
     Patch.ib := Some (ph_ib header); Patch.ni := Some (ph_ni header);
     Patch.jb := Some (ph_jb header); Patch.nj := Some (ph_nj header);
     Patch.data := Some (T grid);
     Patch.extent :=
       Some (0 - h / 2,
             float_of_int (ph_nj header - 1) * h + h / 2,
             0 - h / 2,
             float_of_int (ph_ni header - 1) * h + h / 2)%float |}.

(** The patch that one turn of the loop appends. *)
Definition view_of (img : Image.t) (i : nat) (header : PatchHeader)
    (g : ndarray) : Patch.t :=
  if truthy (is_cross_section img) then cross_section_patch i header g
  else map_patch i header g.

(** One patch per header and grid, numbered from [i]. *)
Fixpoint build_patches (view : nat -> PatchHeader -> ndarray -> Patch.t)
    (i : nat) (headers : list PatchHeader) (grids : list ndarray)
  : list Patch.t :=
  match headers, grids with
  | header :: headers', grid :: grids' =>
      view i header grid :: build_patches view (S i) headers' grids'
  | _, _ => []
  end.

(** The header record a patch was given by [_set_header]. *)
Definition header_of_patch (p : Patch.t) : option PatchHeader :=
  match Patch.h p, Patch.zmin p, Patch.ib p, Patch.ni p, Patch.jb p,
        Patch.nj p with
  | Some h, Some zmin, Some ib, Some ni, Some jb, Some nj =>
      Some {| ph_h := h; ph_zmin := zmin; ph_ib := ib; ph_ni := ni;
              ph_jb := jb; ph_nj := nj |}
  | _, _, _, _, _, _ => None
  end.



(** The dimensions of a patch are counts. *)
Definition positive_dimensions (header : PatchHeader) : Prop :=
  0 < ph_ni header /\ 0 < ph_nj header.

(** The file ends inside the sample block of one of the patches: the
    blocks before it are whole and fewer than [ni * nj] items are left for
    it. *)
Fixpoint ends_mid_block (dt : positive) (headers : list PatchHeader)
    (f : stream) : Prop :=
  match headers with
  | [] => False
  | header :: rest =>
      let count := ph_ni header * ph_nj header in
      let avail := Z.of_nat (length f / Pos.to_nat dt) in
      avail < count \/
      (0 <= count <= avail /\
       ends_mid_block dt rest (skipn (Z.to_nat count * Pos.to_nat dt) f))
  end.

(** The file holds the whole sample block of every patch, and the size of
    every block is a number that an [int32] holds. *)
Fixpoint whole_blocks (dt : positive) (headers : list PatchHeader)
    (f : stream) : Prop :=
  match headers with
  | [] => True
  | header :: rest =>
      let count := ph_ni header * ph_nj header in
      count < 2147483648 /\
      count <= Z.of_nat (length f / Pos.to_nat dt) /\
      whole_blocks dt rest (skipn (Z.to_nat count * Pos.to_nat dt) f)
  end.

(** The kinds [Image.__init__] accepts. *)
Definition valid_kind (stf : option string) : bool :=
  match stf with
  | Some k => String.eqb k "displacement" || String.eqb k "velocity"
  | None => false
  end.

Section SeisPy.

(** [seispy.header] and [seispy.config], which the source imports. *)
Variable SW4_IMAGE_HEADER_DTYPE : dtype ImageHeader.
Variable SW4_PATCH_HEADER_DTYPE : dtype PatchHeader.
(** The sample dtype of a precision code, given by its item size. *)
Variable SW4_IMAGE_PRECISION : Z -> option positive.
Variable SW4_SOURCE_TIME_FUNCTION_TYPE : string -> option Z.
Variable read_input_file : string -> result Config.
(** The samples of [2 * (np.random.rand(100, 200) - 0.5)], row by row. *)
Variable random_samples : list item.

(** [Image.source_time_function_type], from the stored configuration. *)
Definition source_time_function_type (config : option Config)
  : result (option string) :=
  match config with
  | None | Some [] => Ok None
  | Some c =>
      match getattr c "source" with
      | None => Raise AttributeError
      | Some [] => Raise IndexError
      | Some (source0 :: _) =>
          match getattr source0 "type" with
          | None => Raise AttributeError
          | Some ty =>
              match SW4_SOURCE_TIME_FUNCTION_TYPE ty with
              | None => Raise KeyError
              | Some stf_type =>
                  Ok (if stf_type =? 0 then Some "displacement"%string
                      else if stf_type =? 1 then Some "velocity"%string
                      else None)
              end
          end
      end
  end.

(** The end of [Image.__init__]: the mode table of the kind, or
    [ValueError], and the remaining attributes set to [None]. *)
Definition finish_init (config : option Config) (stf : option string)
  : result Image.t :=
  let new (d : mode_dict) :=
    Ok {| Image.patches := [];
          Image._config := config;
          Image._mode_dict := d;
          Image.filename := None;
          Image._precision := None;
          Image._number_of_patches := None;
          Image.time := None;
          Image._plane := None;
          Image.coordinate := None;
          Image._mode := None;
          Image.gridinfo := None;
          Image.creation_time := None |} in
  match stf with
  | Some k =>
      if String.eqb k "displacement" then new SW4_IMAGE_MODE_DISPLACEMENT
      else if String.eqb k "velocity" then new SW4_IMAGE_MODE_VELOCITY
      else Raise (ValueError (Unrecognized_source_time_function_type stf))
  | None => Raise (ValueError (Unrecognized_source_time_function_type stf))
  end.

(** [if not isinstance(config, AttribDict): config = read_input_file(config)]. *)
Definition parse_config (config : option config_arg)
  : result (option Config) :=
  match config with
  | None => Ok None
  | Some (ConfigDict c) => Ok (Some c)
  | Some (ConfigFile path) =>
      match read_input_file path with
      | Ok c => Ok (Some c)
      | Raise e => Raise e
      end
  end.

(** Truth value of [config]: [None] and the empty [AttribDict] are falsy. *)
Definition config_given (config : option Config) : bool :=
  match config with
  | Some (_ :: _) => true
  | _ => false
  end.

(** [source_time_function_type != source_time_function_type_]. *)
Definition differ (a b : option string) : bool :=
  match a, b with
  | Some x, Some y => negb (String.eqb x y)
  | None, None => false
  | _, _ => true
  end.

(** [Image.__init__(self, config, source_time_function_type)]: the
    warnings issued and the image, or the exception. *)
Definition Image_init (config : option config_arg) (stf : option string)
  : list event * result Image.t :=
  match parse_config config with
  | Raise e => ([], Raise e)
  | Ok config =>
      if config_given config then
        match source_time_function_type config with
        | Raise e => ([], Raise e)
        | Ok stf_ =>
            let warned :=
              match stf, stf_ with
              | Some user, Some found =>
                  if nonempty stf && nonempty stf_ && differ stf stf_
                  then [Warn (Overriding_source_time_function_type
                                user found)]
                  else []
              | _, _ => []
              end in
            (warned, finish_init config stf_)
        end
      else ([], finish_init config stf)
  end.

(** [Image.precision]: [SW4_IMAGE_PRECISION[self._precision]]. *)
Definition precision (self : Image.t) : result positive :=
  match Image._precision self with
  | Some code =>
      match SW4_IMAGE_PRECISION code with
      | Some dt => Ok dt
      | None => Raise KeyError
      end
  | None => Raise KeyError
  end.

(** [Image._read_header(self, f)]: [np.fromfile(...)[0]] raises
    [IndexError] when the file holds less than one header record. *)
Definition _read_header : Py unit :=
  records <- np_fromfile (itemsize SW4_IMAGE_HEADER_DTYPE) 1 ;;
  match records with
  | [] => raise IndexError
  | record :: _ =>
      update_image (set_header_fields (unpack SW4_IMAGE_HEADER_DTYPE record))
  end.

(** The body of the loop of [_read_patches] for the patch header of
    index [i]. *)
Definition read_patch (i : nat) (header : PatchHeader) : Py unit :=
  self <- get_image ;;
  let patch := _set_header (Patch_init (Some i)) header in
  dt <- lift (precision self) ;;
  ni <- attr (Patch.ni patch) ;;
  nj <- attr (Patch.nj patch) ;;
  data <- np_fromfile dt (int32_mul ni nj) ;;
  data <- lift (reshape data nj ni) ;;
  patch <- lift (_set_data self patch data) ;;
  update_image (append_patch patch).

(** [for i, header in enumerate(patch_info)], from index [i] on. *)
Fixpoint for_patch_info (i : nat) (patch_info : list PatchHeader)
  : Py unit :=
  match patch_info with
  | [] => ret tt
  | header :: rest => read_patch i header ;;; for_patch_info (S i) rest
  end.

(** [Image._read_patches(self, f)]. *)
Definition _read_patches : Py unit :=
  self <- get_image ;;
  count <- attr (Image._number_of_patches self) ;;
  patch_info <- np_fromfile (itemsize SW4_PATCH_HEADER_DTYPE) count ;;
  for_patch_info 0 (map (unpack SW4_PATCH_HEADER_DTYPE) patch_info).

(** [_create_random_SW4_patch()]. *)
Definition _create_random_SW4_patch : Patch.t :=
  let ni := 100 in
  let nj := 200 in
  let h := 100%float in
  let zmin := 0%float in
  {| Patch.number := Some O;
     Patch.h := Some h; Patch.zmin := Some zmin;
     Patch.ib := Some 1; Patch.ni := Some ni;
     Patch.jb := Some 1; Patch.nj := Some nj;
     Patch.data :=
       Some {| shape := (Z.to_nat ni, Z.to_nat nj);
               elems := random_samples |};
     Patch.extent :=
       Some (0, float_of_int nj * h, zmin + float_of_int ni * h,
             zmin)%float |}.

(** [_create_random_SW4_image(source_time_function_type)]; the attributes
    [cycle], [min], [max], [std] and [rms] it adds are not modelled. *)
Definition _create_random_SW4_image (stf : option string)
  : list event * result Image.t :=
  match Image_init None stf with
  | (ev, Raise e) => (ev, Raise e)
  | (ev, Ok image) =>
      (ev,
       Ok {| Image.patches := [_create_random_SW4_patch];
             Image._config := Image._config image;
             Image._mode_dict := Image._mode_dict image;
             Image.filename := None;
             Image._precision := Some 4;
             Image._number_of_patches := Some 1;
             Image.time := Some 0%float;
             Image._plane := Image._plane image;
             Image.coordinate := Image.coordinate image;
             Image._mode := Image._mode image;
             Image.gridinfo := Image.gridinfo image;
             Image.creation_time := Image.creation_time image |})
  end.

(** The [with] block of [read_SW4_image] on the content of the file:
    header, then patches. *)
Definition decode (image : Image.t) (content : list byte)
  : result unit * state :=
  (_read_header ;;; _read_patches)
    {| st_image := image; st_file := content |}.

(** [read_SW4_image(filename, config, source_time_function_type)] over a
    file system [fs] (the content of each file that [open] can read).
    The first test, [filename is 'random'], is one of identity: a string
    object that is not the literal goes to the last branch and is opened
    as a file, also when its characters are "random". *)
Definition read_SW4_image (fs : string -> option (list byte))
    (filename : option str) (config : option config_arg)
    (stf : option string) : list event * result Image.t :=
  match Image_init config stf with
  | (ev, Raise e) => (ev, Raise e)
  | (ev, Ok image) =>
      let image := set_filename (option_map chars filename) image in
      match filename with
      | Some the_literal_random =>
          let '(ev', r) := _create_random_SW4_image stf in (ev ++ ev', r)
      | None => (ev, Ok image)
      | Some (Str name) =>
          let ev :=
            if endswith name ".sw4img" then ev
            else ev ++ [Warn (Uncommon_file_extension name)] in
          match fs name with
          | None => (ev, Raise IOError)
          | Some content =>
              match decode image content with
              | (Ok _, s) =>
                  (ev ++ [Open name; Close name], Ok (st_image s))
              | (Raise e, _) =>
                  (ev ++ [Open name; Close name], Raise e)
              end
          end
      end
  end.

(** *** What a file holds

    The records and blocks of a file, as the reader meets them: the image
    header, the patch headers that the one read of [_read_patches] returns,
    and the bytes after them, where the sample blocks are. *)

Definition file_header (content : list byte) : ImageHeader :=
  unpack SW4_IMAGE_HEADER_DTYPE
    (firstn (Pos.to_nat (itemsize SW4_IMAGE_HEADER_DTYPE)) content).

Definition after_header (content : list byte) : stream :=
  skipn (Pos.to_nat (itemsize SW4_IMAGE_HEADER_DTYPE)) content.

Definition file_patch_info (content : list byte) : list PatchHeader :=
  map (unpack SW4_PATCH_HEADER_DTYPE)
    (fst (fromfile (itemsize SW4_PATCH_HEADER_DTYPE)
            (hd_number_of_patches (file_header content))
            (after_header content))).

Definition file_samples (content : list byte) : stream :=
  snd (fromfile (itemsize SW4_PATCH_HEADER_DTYPE)
         (hd_number_of_patches (file_header content))
         (after_header content)).

End SeisPy.

(** ** The SW4 image format *)

Module SW4.

Definition byte_of_Z (z : Z) : byte :=
  match Byte.of_N (Z.to_N (z mod 256)) with
  | Some b => b
  | None => Byte.x00
  end.

(** [n] bytes, least significant first, of the two's complement of [z]. *)
Fixpoint le (n : nat) (z : Z) : list byte :=
  match n with
  | O => []
  | S n' => byte_of_Z z :: le n' (z / 256)
  end.

(** The unsigned value of little-endian bytes. *)
Fixpoint unsigned_le (bs : list byte) : Z :=
  match bs with
  | [] => 0
  | b :: bs' => Z.of_N (Byte.to_N b) + 256 * unsigned_le bs'
  end.

(** A signed 32-bit little-endian integer. *)
Definition int32 (bs : list byte) : Z :=
  let u := unsigned_le (firstn 4 bs) in
  if u <? 2 ^ 31 then u else u - 2 ^ 32.

(** The binary64 float of a 64-bit pattern. *)
Definition float_of_bits (b : Z) : float :=
  let e := (b / 2 ^ 52) mod 2 ^ 11 in
  let m := b mod 2 ^ 52 in
  let magnitude :=
    if e =? 2047 then (if m =? 0 then infinity else nan)
    else if e =? 0 then Z.ldexp (float_of_int m) (-1074)
    else Z.ldexp (float_of_int (m + 2 ^ 52)) (e - 1075) in
  if Z.testbit b 63 then PrimFloat.opp magnitude else magnitude.

(** A little-endian 64-bit float. *)
Definition float64 (bs : list byte) : float :=
  float_of_bits (unsigned_le (firstn 8 bs)).

(** Modelled from the spec: [seispy.header.SW4_IMAGE_HEADER_DTYPE], which
    is not among the sources.  The fields and their order are those of the
    image header record of the spec (precision code, patch count, time,
    plane code, coordinate offset, mode code, grid-info flag, creation
    time); the widths are those SW4 writes: 32-bit integers, 64-bit
    floats and 25 characters of creation time, little-endian. *)
Definition SW4_IMAGE_HEADER_DTYPE : dtype ImageHeader :=
  {| itemsize := 61;
     unpack := fun bs =>
       {| hd_precision := int32 bs;
          hd_number_of_patches := int32 (skipn 4 bs);
          hd_time := float64 (skipn 8 bs);
          hd_plane := int32 (skipn 16 bs);
          hd_coordinate := float64 (skipn 20 bs);
          hd_mode := int32 (skipn 28 bs);
          hd_gridinfo := int32 (skipn 32 bs);
          hd_creation_time := firstn 25 (skipn 36 bs) |} |}.

(** Modelled from the spec: [seispy.header.SW4_PATCH_HEADER_DTYPE], which
    is not among the sources.  The fields [(h, zmin, ib, ni, jb, nj)] in
    the order of the patch header record of the spec: two 64-bit floats
    and four 32-bit integers, little-endian. *)
Definition SW4_PATCH_HEADER_DTYPE : dtype PatchHeader :=
  {| itemsize := 32;
     unpack := fun bs =>
       {| ph_h := float64 bs;
          ph_zmin := float64 (skipn 8 bs);
          ph_ib := int32 (skipn 16 bs);
          ph_ni := int32 (skipn 20 bs);
          ph_jb := int32 (skipn 24 bs);
          ph_nj := int32 (skipn 28 bs) |} |}.

(** Modelled from the spec: [seispy.header.SW4_IMAGE_PRECISION], which is
    not among the sources.  The precision code resolves to a byte width of
    4 (float32) or 8 (float64); any other code is not in the table. *)
Definition SW4_IMAGE_PRECISION (code : Z) : option positive :=
  if code =? 4 then Some 4%positive
  else if code =? 8 then Some 8%positive
  else None.

(** Modelled from the spec: [seispy.header.SW4_SOURCE_TIME_FUNCTION_TYPE],
    which is not among the sources.  The spec only says that the
    configuration supplies an optional hint of the quantity kind.  The
    three entries stand for a source time function that declares a
    displacement (code 0), one that declares a velocity (code 1) and one
    that declares neither (any other code, which the source reads as
    [None]); a name that is not in the table is a [KeyError]. *)
Definition SW4_SOURCE_TIME_FUNCTION_TYPE (name : string) : option Z :=
  if String.eqb name "GaussianInt" then Some 0
  else if String.eqb name "Gaussian" then Some 1
  else if String.eqb name "Dirac" then Some 2
  else None.

(** [seispy.config.read_input_file] where there is no input file to
    read: the examples pass their configuration as an [AttribDict]. *)
Definition read_input_file (path : string) : result Config :=
  Raise IOError.

(** An image header record. *)
Definition image_header (precision count plane mode : Z) : list byte :=
  le 4 precision ++ le 4 count ++ le 8 0 ++ le 4 plane ++ le 8 0
  ++ le 4 mode ++ le 4 0 ++ le 25 0.

(** A patch header record with [h = 100.0] and [zmin = 0.0]. *)
Definition patch_header (ni nj : Z) : list byte :=
  le 8 4636737291354636288 ++ le 8 0 ++ le 4 1 ++ le 4 ni ++ le 4 1
  ++ le 4 nj.

(** float32 samples whose bit patterns are the given integers. *)
Definition samples32 (bits : list Z) : list byte :=
  flat_map (le 4) bits.

(** A file system that holds one file. *)
Definition single_file (name : string) (content : list byte)
  : string -> option (list byte) :=
  fun path => if String.eqb path name then Some content else None.

Definition read (fs : string -> option (list byte))
    (filename : option str) (config : option config_arg)
    (stf : option string) : list event * result Image.t :=
  read_SW4_image SW4_IMAGE_HEADER_DTYPE SW4_PATCH_HEADER_DTYPE
    SW4_IMAGE_PRECISION SW4_SOURCE_TIME_FUNCTION_TYPE read_input_file []
    fs filename config stf.

Definition decode (image : Image.t) (content : list byte)
  : result unit * state :=
  decode SW4_IMAGE_HEADER_DTYPE SW4_PATCH_HEADER_DTYPE
    SW4_IMAGE_PRECISION image content.

(** *** Example files *)

(** The image [Image(source_time_function_type="displacement")]. *)
Definition blank_image : Image.t :=
  {| Image.patches := [];
     Image._config := None;
     Image._mode_dict := SW4_IMAGE_MODE_DISPLACEMENT;
     Image.filename := None;
     Image._precision := None;
     Image._number_of_patches := None;
     Image.time := None;
     Image._plane := None;
     Image.coordinate := None;
     Image._mode := None;
     Image.gridinfo := None;
     Image.creation_time := None |}.

(** One patch of [ni = 3] by [nj = 2] float32 samples, in the given
    plane. *)
Definition one_patch_file (plane : Z) : list byte :=
  image_header 4 1 plane 1 ++ patch_header 3 2
  ++ samples32 [1; 2; 3; 4; 5; 6].

Definition cross_section_file : list byte := one_patch_file 0.


(** The same patch with four of its six samples. *)
Definition truncated_file : list byte :=
  image_header 4 1 0 1 ++ patch_header 3 2 ++ samples32 [1; 2; 3; 4].

(** An image header that announces one patch, and nothing after it. *)
Definition header_only_file : list byte := image_header 4 1 0 1.

(** An image header with the patch count [-1], and nothing after it. *)
Definition negative_count_file : list byte := image_header 4 (-1) 0 1.

(** An image header with the precision code 7 and no patch. *)
Definition unknown_precision_file : list byte := image_header 7 0 0 1.

(** An image header with the precision code 7 and one patch. *)
Definition unknown_precision_patch_file : list byte :=
  image_header 7 1 0 1 ++ patch_header 3 2
  ++ samples32 [1; 2; 3; 4; 5; 6].

(** An image header that announces two patches, followed by one patch
    header and no sample. *)
Definition short_patch_headers_file : list byte :=
  image_header 4 2 0 1 ++ patch_header 3 2.

(** A patch with [ni = 0]. *)
Definition zero_dimension_file : list byte :=
  image_header 4 1 0 1 ++ patch_header 0 2.

(** The same with the precision code 7. *)
Definition zero_dimension_unknown_precision_file : list byte :=
  image_header 7 1 0 1 ++ patch_header 0 2.

(** A patch with [ni = nj = 65536], whose 32-bit product is 0, and three
    samples. *)
Definition wrapping_dimensions_file : list byte :=
  image_header 4 1 0 1 ++ patch_header 65536 65536
  ++ samples32 [1; 2; 3].

(** A patch with [ni = -1] and [nj = 1], and one sample. *)
Definition negative_dimension_file : list byte :=
  image_header 4 1 0 1 ++ patch_header (-1) 1 ++ samples32 [1].

(** A configuration whose first source has a time function that declares
    neither kind. *)
Definition dirac_config : Config :=
  [("source"%string, [[("type"%string, "Dirac"%string)]])].

(** A configuration with a receiver and no source. *)
Definition no_source_config : Config :=
  [("rec"%string, [[("sta"%string, "A"%string)]])].

(** A configuration whose first source declares a velocity. *)
Definition gaussian_config : Config :=
  [("source"%string, [[("type"%string, "Gaussian"%string)]])].

(** An image whose header has been read with the plane code 3. *)
Definition plane_3_image : Image.t :=
  set_header_fields (unpack SW4_IMAGE_HEADER_DTYPE (image_header 4 0 3 1))
    blank_image.

End SW4.

(** * The rest of the module

    The plotting side of [Image] and [Patch], the accessors of the mode
    tables, [image_files_to_movie], and what a writer of the format
    produces.

    Conventions.
    - A method that draws is a [Trace]: the calls it makes on matplotlib
      (or on the operating system), in order, and how it ends.  The calls
      themselves are taken to return.
    - Reading a local variable that no branch has assigned is an
      outcome of its own, [UnboundLocalError].
    - The statistics [patch.min] and [patch.max], which numpy computes,
      are arguments of the functions that read them. *)

(** ** The statistics of a patch

    The last lines of [Patch._set_data],

      self.min = data.min()
      self.max = data.max()
      self.std = data.std()
      self.rms = np.sqrt(np.mean(data**2))

    are reductions of numpy over the samples of [data].  They are given
    here on the samples as binary64 numbers, which is how numpy computes
    them for samples of 64 bits (precision code 8); for samples of 32
    bits numpy works in float32, which is not modelled.

    numpy does not fix the order in which a reduction combines the
    items: it adds by blocks and pairs, several lanes at a time, and a
    loop of a sum starts from a zero.  A reduction therefore takes the
    order as an argument, a tree [order], and the properties are proved
    for every order. *)














(** ** A file as a writer lays it out *)

(** The image header record, the patch header records and, patch by
    patch, the samples of the block. *)
Definition encode_file (header : item) (patch_headers : list item)
    (blocks : list (list item)) : list byte :=
  header ++ concat patch_headers ++ concat (map (@concat byte) blocks).

(** The grid of each patch: its block under the shape of its header. *)
Fixpoint grids_of (headers : list PatchHeader) (blocks : list (list item))
  : list ndarray :=
  match headers, blocks with
  | header :: headers', block :: blocks' =>
      stored_grid header block :: grids_of headers' blocks'
  | _, _ => []
  end.

(** A block fits its patch header: the dimensions are counts, their
    product is a number that an [int32] holds, the block has [ni * nj]
    samples, each of [dt] bytes. *)
Definition block_fits (dt : positive) (header : PatchHeader)
    (block : list item) : Prop :=
  positive_dimensions header /\
  ph_ni header * ph_nj header < 2147483648 /\
  Z.of_nat (length block) = ph_ni header * ph_nj header /\
  Forall (fun sample => length sample = Pos.to_nat dt) block.

(** ** What a Python call can end with, unbound locals included *)

(** Reading a local variable that no branch has assigned raises
    [UnboundLocalError] (a [NameError]) with the name of the variable. *)
Inductive raised : Type :=
| Exception (e : exception)
| UnboundLocalError (name : string)
(* [os.remove] and [subprocess.Popen] that fail *)
| OSError
(* a format specification that the value does not support, as [None] under
   [{:.2f}]: a [ValueError] or a [TypeError], by the version of Python *)
| FormatError.

Inductive outcome (A : Type) : Type :=
| Returns (a : A)
| Raises (r : raised).

Arguments Returns {A} a.
Arguments Raises {A} r.

Definition outcome_of {A : Type} (r : result A) : outcome A :=
  match r with
  | Ok a => Returns a
  | Raise e => Raises (Exception e)
  end.

(** ** Coordinates of the configuration in the plane of an image *)

(** [config.get(key, [])]. *)
Definition get_items (config : Config) (key : string) : list ConfigItem :=
  match getattr config key with
  | Some items => items
  | None => []
  end.

(** [item.name]. *)
Definition item_attr (item : ConfigItem) (name : string) : outcome string :=
  match getattr item name with
  | Some v => Returns v
  | None => Raises (Exception AttributeError)
  end.

(** One turn of the loop of [_get_plot_coordinates_from_config]: the
    values of [x_] and [y_] that are appended.  With a plane code that is
    none of 0, 1 and 2 no branch assigns [x_], and [x.append(x_)] finds it
    unbound. *)
Definition plot_coordinates_of_item (plane : option Z) (item : ConfigItem)
  : outcome (string * string) :=
  let both (first second : string) :=
    match item_attr item first with
    | Raises r => Raises r
    | Returns x_ =>
        match item_attr item second with
        | Raises r => Raises r
        | Returns y_ => Returns (x_, y_)
        end
    end in
  match plane with
  | Some 0 => both "y"%string "z"%string
  | Some 1 => both "x"%string "z"%string
  | Some 2 => both "y"%string "x"%string
  | _ => Raises (UnboundLocalError "x_")
  end.

(** [for item in items], with the lists [x] and [y] built so far. *)
Fixpoint plot_coordinates_loop (plane : option Z) (items : list ConfigItem)
    (x y : list string) : outcome (list string * list string) :=
  match items with
  | [] => Returns (x, y)
  | item :: rest =>
      match plot_coordinates_of_item plane item with
      | Raises r => Raises r
      | Returns (x_, y_) =>
          plot_coordinates_loop plane rest (x ++ [x_]) (y ++ [y_])
      end
  end.

(** [Image._get_plot_coordinates_from_config(self, key)]; [Returns None]
    is Python's [None]. *)
Definition _get_plot_coordinates_from_config (self : Image.t)
    (key : string) : outcome (option (list string * list string)) :=
  match Image._config self with
  | None | Some [] => Returns None
  | Some config =>
      match get_items config key with
      | [] => Returns None
      | items =>
          match plot_coordinates_loop (Image._plane self) items [] [] with
          | Raises r => Raises r
          | Returns ([], _) => Returns None
          | Returns (x, y) => Returns (Some (x, y))
          end
      end
  end.

(** [Image.get_source_coordinates(self)]. *)
Definition get_source_coordinates (self : Image.t)
  : outcome (option (list string * list string)) :=
  _get_plot_coordinates_from_config self "source".

(** The values of one attribute over a list of items, where every item
    has it. *)
Definition attr_values (name : string) (items : list ConfigItem)
  : list (option string) :=
  map (fun item => getattr item name) items.

(** ** The mode tables and the plotting methods *)

Module ModeEntry.

(** One entry of a mode table: the keys that the accessors of [Image]
    read. *)
Record t : Type := {
  name : string;
  symbol : string;
  unit : string;
  cmap_type : string
}.

End ModeEntry.

(** The color maps of [Image.CMAP] (each is [None] when obspy has none to
    import), and a color map passed by the caller. *)
Inductive colormap : Type :=
| cmap_divergent
| cmap_divergent_r
| cmap_sequential
| cmap_sequential_r
| caller_colormap (name : string).

(** [Image.CMAP[key]]. *)
Definition CMAP (key : string) : result colormap :=
  if String.eqb key "divergent" then Ok cmap_divergent
  else if String.eqb key "divergent_r" then Ok cmap_divergent_r
  else if String.eqb key "sequential" then Ok cmap_sequential
  else if String.eqb key "sequential_r" then Ok cmap_sequential_r
  else Raise KeyError.

(** The objects of matplotlib that [Patch.plot] holds: the figure and the
    axes that [plt.subplots()] creates, the axes of the caller, the
    colorbar. *)
Inductive mpl_object : Type :=
| new_figure
| new_axes
| caller_axes (name : string)
| new_colorbar.

(** The calls of matplotlib that [Patch.plot] makes, with the arguments
    that the method computes.  The calls are taken to return. *)
Inductive mpl_call : Type :=
| plt_subplots
| set_aspect
| imshow (data : option ndarray)
    (extent : option (float * float * float * float))
    (vmin vmax : option float) (cmap : colormap)
| scatter (key : string) (x y : list string)
| set_path_effects
| set_xlim (x0 x1 : float)
| set_ylim (y0 y1 : float)
| invert_yaxis
| append_axes
| plt_colorbar (extend : string) (label : string)
| cax_invert_yaxis
| set_xlabel (label : string)
| set_ylabel (label : string)
| suptitle (filename : option string) (plane : string)
    (coordinate : option float) (time : float).

(** A function with effects: the calls made, of type [E], and how it
    ends. *)
Definition Trace (E A : Type) : Type := list E * outcome A.

(** A method that draws: the calls of matplotlib. *)
Definition Plot (A : Type) : Type := Trace mpl_call A.

Definition pret {E A : Type} (a : A) : Trace E A := ([], Returns a).

Definition praise {E A : Type} (r : raised) : Trace E A := ([], Raises r).

Definition pbind {E A B : Type} (m : Trace E A) (k : A -> Trace E B)
  : Trace E B :=
  match m with
  | (calls, Returns a) => let '(calls', r) := k a in (calls ++ calls', r)
  | (calls, Raises r) => (calls, Raises r)
  end.

Notation "x <-- m ;; k" := (pbind m (fun x => k))
  (at level 100, m at next level, right associativity).
Notation "m ;;;; k" := (pbind m (fun _ => k))
  (at level 100, right associativity).

Definition call {E : Type} (c : E) : Trace E unit := ([c], Returns tt).

Definition plift {E A : Type} (o : outcome A) : Trace E A := ([], o).

(** Python's [max(a, b)] on floats: [b] when [b > a], else [a]. *)
Definition py_max (a b : float) : float :=
  if PrimFloat.ltb a b then b else a.

(** [limit is not None and value < limit]. *)
Definition below (value : float) (limit : option float) : bool :=
  match limit with
  | Some l => PrimFloat.ltb value l
  | None => false
  end.

(** [limit is not None and value > limit]. *)
Definition above (value : float) (limit : option float) : bool :=
  match limit with
  | Some l => PrimFloat.ltb l value
  | None => false
  end.

(** The limits that [Patch.plot] hands to [imshow]: those of the caller,
    or, for a divergent quantity and no limit given, the largest
    magnitude of the data on both sides of zero. *)
Definition color_limits (divergent : bool) (self_min self_max : float)
    (vmin vmax : option float) : option float * option float :=
  if divergent then
    match vmin, vmax with
    | None, None =>
        let abs_max :=
          py_max (PrimFloat.abs self_min) (PrimFloat.abs self_max) in
        (Some (PrimFloat.opp abs_max), Some abs_max)
    | _, _ => (vmin, vmax)
    end
  else (vmin, vmax).

(** The [extend] of the colorbar. *)
Definition extend_of (self_min self_max : float) (vmin vmax : option float)
  : string :=
  if below self_min vmin && above self_max vmax then "both"%string
  else if below self_min vmin then "min"%string
  else if above self_max vmax then "max"%string
  else "neither"%string.

(** [self.patches[i]]: a negative index counts from the end. *)
Definition list_index {A : Type} (l : list A) (i : Z) : outcome A :=
  let n := Z.of_nat (length l) in
  let k := if i <? 0 then i + n else i in
  if (0 <=? k) && (k <? n) then
    match nth_error l (Z.to_nat k) with
    | Some a => Returns a
    | None => Raises (Exception IndexError)
    end
  else Raises (Exception IndexError).

(** [for patch in ps: patch.plot(...)], [plot_patch] being that call. *)
Fixpoint plot_each {A : Type} (plot_patch : Patch.t -> Plot A)
    (ps : list Patch.t) : Plot unit :=
  match ps with
  | [] => pret tt
  | patch :: rest => plot_patch patch ;;;; plot_each plot_patch rest
  end.

(** [for i in patches: self.patches[i].plot(...)]. *)
Fixpoint plot_indexed {A : Type} (plot_patch : Patch.t -> Plot A)
    (all : list Patch.t) (indices : list Z) : Plot unit :=
  match indices with
  | [] => pret tt
  | i :: rest =>
      patch <-- plift (list_index all i) ;;
      plot_patch patch ;;;; plot_indexed plot_patch all rest
  end.

(** [Image.plot(self, patches, ...)], [plot_patch] being
    the call of [patch.plot] with the remaining arguments. *)
Definition Image_plot {A : Type} (plot_patch : Patch.t -> Plot A)
    (self : Image.t) (patches : option (list Z)) : Plot unit :=
  match patches with
  | None => plot_each plot_patch (Image.patches self)
  | Some indices => plot_indexed plot_patch (Image.patches self) indices
  end.

Section Plotting.

(** The content of the two mode tables of [seispy.header], the table
    [SW4_IMAGE_PLANE], and the keys of [Image.MPL_SCATTER_PROPERTIES] in
    the order in which [items()] gives them. *)
Variable mode_entries : mode_dict -> Z -> option ModeEntry.t.
Variable SW4_IMAGE_PLANE : Z -> option string.
Variable MPL_SCATTER_PROPERTIES : list string.

(** [self._mode_dict[self._mode]]. *)
Definition mode_entry (self : Image.t) : result ModeEntry.t :=
  match Image._mode self with
  | Some mode =>
      match mode_entries (Image._mode_dict self) mode with
      | Some entry => Ok entry
      | None => Raise KeyError
      end
  | None => Raise KeyError
  end.

(** [Image._cmap_type]. *)
Definition _cmap_type (self : Image.t) : result string :=
  match mode_entry self with
  | Ok entry => Ok (ModeEntry.cmap_type entry)
  | Raise e => Raise e
  end.

(** [Image.quantity_name]. *)
Definition quantity_name (self : Image.t) : result string :=
  match mode_entry self with
  | Ok entry => Ok (ModeEntry.name entry)
  | Raise e => Raise e
  end.

(** [Image.quantity_symbol]. *)
Definition quantity_symbol (self : Image.t) : result string :=
  match mode_entry self with
  | Ok entry => Ok (ModeEntry.symbol entry)
  | Raise e => Raise e
  end.

(** [Image.quantity_unit]. *)
Definition quantity_unit (self : Image.t) : result string :=
  match mode_entry self with
  | Ok entry => Ok (ModeEntry.unit entry)
  | Raise e => Raise e
  end.

(** [Image.is_divergent]. *)
Definition is_divergent (self : Image.t) : result bool :=
  match _cmap_type self with
  | Ok t => Ok (String.eqb t "divergent" || String.eqb t "divergent_r")
  | Raise e => Raise e
  end.

(** [Image.plane]: [SW4_IMAGE_PLANE[self._plane]]. *)
Definition plane (self : Image.t) : result string :=
  match Image._plane self with
  | Some code =>
      match SW4_IMAGE_PLANE code with
      | Some label => Ok label
      | None => Raise KeyError
      end
  | None => Raise KeyError
  end.

(** The scatter plots of [Patch.plot] for the keys that are left. *)
Fixpoint scatter_each (image : Image.t) (keys : list string) : Plot unit :=
  match keys with
  | [] => pret tt
  | key :: rest =>
      coordinates <-- plift (_get_plot_coordinates_from_config image key) ;;
      match coordinates with
      | None => scatter_each image rest
      | Some (x, y) =>
          call (scatter key x y) ;;;; call set_path_effects ;;;;
          scatter_each image rest
      end
  end.

(** The axis labels of a plane code; no branch assigns them for a plane
    code that is none of 0, 1 and 2. *)
Definition axis_labels (plane : option Z) : option (string * string) :=
  match plane with
  | Some 0 => Some ("Y"%string, "Z"%string)
  | Some 1 => Some ("X"%string, "Z"%string)
  | Some 2 => Some ("Y"%string, "X"%string)
  | _ => None
  end.

(** [self._image._mode in (4, 7, 8)]. *)
Definition depth_quantity (mode : option Z) : bool :=
  match mode with
  | Some m => (m =? 4) || (m =? 7) || (m =? 8)
  | None => false
  end.

(** [self._image.attribute]: a patch that was built without image (the
    patch of [_create_random_SW4_patch]) has [None] there. *)
Definition the_image (image : option Image.t) : Plot Image.t :=
  match image with
  | Some im => pret im
  | None => praise (Exception AttributeError)
  end.

(** [Patch.plot(self, ax, vmin, vmax, colorbar, colorbar_label, cmap)],
    [image] being the image that [self._image] is at the call and
    [self_min], [self_max] the statistics [self.min] and [self.max].  The
    result is the tuple [(fig, ax, cb)]; [cb] is [None] without a
    colorbar. *)
Definition Patch_plot (image : option Image.t) (self : Patch.t)
    (self_min self_max : float) (ax : option string)
    (vmin vmax : option float) (colorbar : bool)
    (colorbar_label : option string) (cmap : option string)
  : Plot (mpl_object * mpl_object * option mpl_object) :=
  (* if ax is None: fig, ax = plt.subplots() *)
  fig_ax <-- match ax with
             | None => call plt_subplots ;;;; pret (Some new_figure, new_axes)
             | Some a => pret (None, caller_axes a)
             end ;;
  let '(fig, ax) := fig_ax in
  (* if cmap is None: cmap = self._image.CMAP[self._image._cmap_type] *)
  cmap <-- match cmap with
           | Some c => pret (caller_colormap c)
           | None =>
               image <-- the_image image ;;
               t <-- plift (outcome_of (_cmap_type image)) ;;
               plift (outcome_of (CMAP t))
           end ;;
  call set_aspect ;;;;
  image <-- the_image image ;;
  divergent <-- plift (outcome_of (is_divergent image)) ;;
  let '(vmin, vmax) := color_limits divergent self_min self_max vmin vmax in
  let extend := extend_of self_min self_max vmin vmax in
  call (imshow (Patch.data self) (Patch.extent self) vmin vmax cmap) ;;;;
  (* if self._image._config: scatter plots, then the limits of the data *)
  (if config_given (Image._config image) then
     scatter_each image MPL_SCATTER_PROPERTIES ;;;;
     match Patch.extent self with
     | Some (x0, x1, y0, y1) =>
         call (set_xlim x0 x1) ;;;; call (set_ylim y0 y1)
     | None => praise (Exception TypeError)
     end
   else pret tt) ;;;;
  (if truthy (is_cross_section image) then call invert_yaxis
   else pret tt) ;;;;
  cb <-- (if colorbar then
            call append_axes ;;;;
            label <-- match colorbar_label with
                      | Some (String a l) => pret (String a l)
                      | _ =>
                          n <-- plift (outcome_of (quantity_name image)) ;;
                          u <-- plift (outcome_of (quantity_unit image)) ;;
                          pret (n ++ " [" ++ u ++ "]")%string
                      end ;;
            call (plt_colorbar extend label) ;;;;
            (if truthy (is_cross_section image)
                && depth_quantity (Image._mode image)
             then call cax_invert_yaxis else pret tt) ;;;;
            pret (Some new_colorbar)
          else pret None) ;;
  labels <-- match axis_labels (Image._plane image) with
             | Some labels => pret labels
             | None => praise (UnboundLocalError "xlabel")
             end ;;
  call (set_xlabel (fst labels)) ;;;;
  call (set_ylabel (snd labels)) ;;;;
  (* fig.suptitle(...): [fig] is looked up before the title is built *)
  fig <-- match fig with
          | Some f => pret f
          | None => praise (UnboundLocalError "fig")
          end ;;
  label <-- plift (outcome_of (plane image)) ;;
  time <-- match Image.time image with
           | Some t => pret t
           | None => praise FormatError
           end ;;
  call (suptitle (Image.filename image) label (Image.coordinate image)
          time) ;;;;
  pret (fig, ax, cb).

End Plotting.

(** ** The order of binary64 values *)

(** The place of a binary64 value in the order of [<]: none for NaN. *)
Definition float_key (f : spec_float) : option (Z * Z * Z) :=
  match f with
  | S754_zero _ => Some (0, 0, 0)
  | S754_infinity s => Some (if s then -2 else 2, 0, 0)
  | S754_nan => None
  | S754_finite s m e =>
      Some (if s then (-1, - e, Z.neg m) else (1, e, Z.pos m))
  end.

Definition key_lt (a b : Z * Z * Z) : Prop :=
  let '(a1, a2, a3) := a in
  let '(b1, b2, b3) := b in
  a1 < b1 \/ (a1 = b1 /\ (a2 < b2 \/ (a2 = b2 /\ a3 < b3))).

(** ** [image_files_to_movie] *)

(** Python's [min(a, b)] on floats: [b] when [b < a], else [a]. *)
Definition py_min (a b : float) : float :=
  if PrimFloat.ltb b a then b else a.

(** The keyword arguments [plot_kwargs] that [Patch.plot] names. *)
Record plot_kwargs : Type := {
  kw_ax : option string;
  kw_vmin : option float;
  kw_vmax : option float;
  kw_colorbar : bool;
  kw_colorbar_label : option string;
  kw_cmap : option string
}.

(** [plot_kwargs["vmin"] = lo; plot_kwargs["vmax"] = hi]. *)
Definition with_limits (kwargs : plot_kwargs) (lo hi : float)
  : plot_kwargs :=
  {| kw_ax := kw_ax kwargs;
     kw_vmin := Some lo;
     kw_vmax := Some hi;
     kw_colorbar := kw_colorbar kwargs;
     kw_colorbar_label := kw_colorbar_label kwargs;
     kw_cmap := kw_cmap kwargs |}.

(** What one [fig.savefig(string_io, format='png')] writes: the picture
    of the figure, given here by the figure and by the calls of the
    [patch.plot] that has just drawn on it. *)
Record png : Type := {
  png_figure : mpl_object;
  png_drawn : list mpl_call
}.

(** What [image_files_to_movie] does to its environment: the removal of
    the output file, the switches of the backend of matplotlib, for each
    frame the calls of [patch.plot], [fig.savefig] and [plt.close], and
    the run of [ffmpeg] on [png_data], the pictures that [string_io]
    holds when the loop is over.  The warnings and the files that
    [read_SW4_image] opens are not recorded here, nor what [debug]
    prints. *)
Inductive movie_call : Type :=
| os_remove (path : string)
| switch_backend (name : string)
| patch_plot (calls : list mpl_call)
| savefig
| plt_close
| run_ffmpeg (output : string) (frames_per_second : Z)
    (png_data : list png).

(** The calls that make a frame. *)
Definition is_frame_call (c : movie_call) : bool :=
  match c with
  | patch_plot _ | savefig | plt_close => true
  | _ => false
  end.

(** A call of [patch.plot] inside the movie. *)
Definition lift_plot {A : Type} (m : Plot A) : Trace movie_call A :=
  ([patch_plot (fst m)], snd m).

(** [fig.savefig(string_io, format='png')]: the picture is written after
    what [string_io] holds. *)
Definition fig_savefig (picture : png) (string_io : list png)
  : Trace movie_call (list png) :=
  ([savefig], Returns (string_io ++ [picture])).

(** The calls of [patch.plot] of a movie, in order. *)
Definition plotted (calls : list movie_call) : list (list mpl_call) :=
  flat_map (fun c => match c with
                     | patch_plot drawn => [drawn]
                     | _ => []
                     end) calls.

(** [try: body finally: cleanup], the cleanup being one call that
    returns. *)
Definition try_finally {E A : Type} (body : Trace E A) (cleanup : E)
  : Trace E A :=
  (fst body ++ [cleanup], snd body).

(** The name of the output file: [output_filename += ".mp4"] unless it
    ends so. *)
Definition output_path (output_filename : string) : string :=
  if endswith output_filename ".mp4" then output_filename
  else (output_filename ++ ".mp4")%string.

Section Movie.

Variable SW4_IMAGE_HEADER_DTYPE : dtype ImageHeader.
Variable SW4_PATCH_HEADER_DTYPE : dtype PatchHeader.
Variable SW4_IMAGE_PRECISION : Z -> option positive.
Variable SW4_SOURCE_TIME_FUNCTION_TYPE : string -> option Z.
Variable read_input_file : string -> result Config.
Variable random_samples : list item.
Variable mode_entries : mode_dict -> Z -> option ModeEntry.t.
Variable SW4_IMAGE_PLANE : Z -> option string.
Variable MPL_SCATTER_PROPERTIES : list string.

(** The environment of a call: the statistics [(patch.min, patch.max)]
    of a patch, the files that can be read, the paths that exist, those
    among them that [os.remove] removes (it raises [OSError] on the
    others), the backend of matplotlib, and whether [ffmpeg] can be
    started. *)
Variable statistics : Patch.t -> float * float.
Variable fs : string -> option (list byte).
Variable path_exists : string -> bool.
Variable removable : string -> bool.
Variable backend : string.
Variable ffmpeg_available : bool.

(** The first lines: the output file must not exist, or is removed when
    [overwrite] is set; a file that has been removed exists no more. *)
Definition check_output (overwrite : bool) (output_filename : string)
  : Trace movie_call string :=
  let path := output_path output_filename in
  if path_exists path then
    if overwrite then
      if removable path then call (os_remove path) ;;;; pret path
      else praise OSError
    else praise (Exception IOError)
  else pret path.

(** [image = read_SW4_image(file_, ...); patch = image.patches[n]], with
    the image that [patch._image] is: none for the patch of a random
    image, which is built only when [file_] is the literal 'random'. *)
Definition read_frame (config : option config_arg) (stf : option string)
    (patch_number : Z) (file_ : str)
  : outcome (Image.t * Patch.t * option Image.t) :=
  match snd (read_SW4_image SW4_IMAGE_HEADER_DTYPE SW4_PATCH_HEADER_DTYPE
               SW4_IMAGE_PRECISION SW4_SOURCE_TIME_FUNCTION_TYPE
               read_input_file random_samples fs (Some file_) config stf)
  with
  | Raise e => Raises (Exception e)
  | Ok image =>
      match list_index (Image.patches image) patch_number with
      | Raises r => Raises r
      | Returns patch =>
          Returns (image, patch,
                   if is_random file_ then None else Some image)
      end
  end.

(** The first loop over the files: the extrema so far, and the [image]
    that the last turn has bound, if any. *)
Fixpoint limits_loop (config : option config_arg) (stf : option string)
    (patch_number : Z) (files : list str)
    (global_min global_max : float) (image : option Image.t)
  : outcome (float * float * option Image.t) :=
  match files with
  | [] => Returns (global_min, global_max, image)
  | file_ :: rest =>
      match read_frame config stf patch_number file_ with
      | Raises r => Raises r
      | Returns (image, patch, _) =>
          limits_loop config stf patch_number rest
            (py_min global_min (fst (statistics patch)))
            (py_max global_max (snd (statistics patch)))
            (Some image)
      end
  end.

(** The block [if global_colorlimits:]; after a loop over no file,
    [image] is unbound. *)
Definition global_limits (config : option config_arg)
    (stf : option string) (patch_number : Z) (files : list str)
  : outcome (float * float) :=
  match limits_loop config stf patch_number files infinity neg_infinity
          None with
  | Raises r => Raises r
  | Returns (_, _, None) => Raises (UnboundLocalError "image")
  | Returns (global_min, global_max, Some image) =>
      match is_divergent mode_entries image with
      | Raise e => Raises (Exception e)
      | Ok true =>
          let abs_max :=
            py_max (PrimFloat.abs global_min) (PrimFloat.abs global_max) in
          Returns (PrimFloat.opp abs_max, abs_max)
      | Ok false => Returns (global_min, global_max)
      end
  end.

(** [patch.plot] with the keyword arguments [plot_kwargs] on the patch of
    a frame. *)
Definition plot_frame (kwargs : plot_kwargs) (image : option Image.t)
    (patch : Patch.t)
  : Plot (mpl_object * mpl_object * option mpl_object) :=
  Patch_plot mode_entries SW4_IMAGE_PLANE MPL_SCATTER_PROPERTIES
    image patch (fst (statistics patch)) (snd (statistics patch))
    (kw_ax kwargs) (kw_vmin kwargs) (kw_vmax kwargs)
    (kw_colorbar kwargs) (kw_colorbar_label kwargs) (kw_cmap kwargs).

(** The second loop over the files: each frame is read again, plotted
    and saved into [string_io]; the loop returns what [string_io] holds
    at its end. *)
Fixpoint frames_loop (config : option config_arg) (stf : option string)
    (patch_number : Z) (kwargs : plot_kwargs) (files : list str)
    (string_io : list png)
  : Trace movie_call (list png) :=
  match files with
  | [] => pret string_io
  | file_ :: rest =>
      frame <-- plift (read_frame config stf patch_number file_) ;;
      let '(_, patch, image) := frame in
      let drawing := plot_frame kwargs image patch in
      result <-- lift_plot drawing ;;
      let '(fig, _, _) := result in
      string_io <-- fig_savefig
                      {| png_figure := fig; png_drawn := fst drawing |}
                      string_io ;;
      call plt_close ;;;;
      frames_loop config stf patch_number kwargs rest string_io
  end.

(** [image_files_to_movie(input_files, output_filename, config,
    source_time_function_type, patch_number, frames_per_second,
    overwrite, global_colorlimits, **plot_kwargs)], [files] being the
    list that [input_files] is or that [glob] gives for it (the strings
    of [glob] are built at run time: none of them is the literal
    'random').  [string_io] is empty when the loop starts, and what it
    holds when the loop is over is what [ffmpeg] is given. *)
Definition image_files_to_movie (files : list str)
    (output_filename : string) (config : option config_arg)
    (stf : option string) (patch_number frames_per_second : Z)
    (overwrite global_colorlimits : bool) (kwargs : plot_kwargs)
  : Trace movie_call unit :=
  output <-- check_output overwrite output_filename ;;
  kwargs <-- (if global_colorlimits then
                limits <-- plift (global_limits config stf patch_number
                                    files) ;;
                pret (with_limits kwargs (fst limits) (snd limits))
              else pret kwargs) ;;
  try_finally
    (call (switch_backend "AGG") ;;;;
     png_data <-- frames_loop config stf patch_number kwargs files [] ;;
     (if ffmpeg_available
      then call (run_ffmpeg output frames_per_second png_data)
      else praise OSError))
    (switch_backend backend).

End Movie.

(** ** Examples for the rest of the module *)

Module Demo.

(** A cross-section file of two patches, record by record: a patch of
    3 by 2 samples and a patch of one sample, in float32. *)
Definition header : item := SW4.image_header 4 2 0 1.

Definition patch_headers : list item :=
  [SW4.patch_header 3 2; SW4.patch_header 1 1].

Definition blocks : list (list item) :=
  [map (SW4.le 4) [1; 2; 3; 4; 5; 6]; [SW4.le 4 7]].

Definition two_patch_file : list byte :=
  encode_file header patch_headers blocks.

(** The same file without the sample of the second patch. *)
Definition second_block_missing : list byte :=
  encode_file header patch_headers [map (SW4.le 4) [1; 2; 3; 4; 5; 6]].

(** The first twenty bytes of an image header. *)
Definition short_file : list byte := firstn 20 header.

(** Modelled from the spec: [seispy.header.SW4_IMAGE_PLANE], which is not
    among the sources: the axis held constant, by plane code. *)
Definition SW4_IMAGE_PLANE (code : Z) : option string :=
  if code =? 0 then Some "X"%string
  else if code =? 1 then Some "Y"%string
  else if code =? 2 then Some "Z"%string
  else None.

(** An example of mode tables, with the keys that the accessors read:
    the mode code 1 is a component of the motion, divergent, in both
    tables; the mode code 4 is a density, sequential.  The tables of
    [seispy.header] are not among the sources. *)
Definition mode_entries (table : mode_dict) (mode : Z)
  : option ModeEntry.t :=
  if mode =? 1 then
    Some match table with
         | SW4_IMAGE_MODE_DISPLACEMENT =>
             {| ModeEntry.name := "X Displacement";
                ModeEntry.symbol := "ux";
                ModeEntry.unit := "m";
                ModeEntry.cmap_type := "divergent" |}
         | SW4_IMAGE_MODE_VELOCITY =>
             {| ModeEntry.name := "X Velocity";
                ModeEntry.symbol := "vx";
                ModeEntry.unit := "m/s";
                ModeEntry.cmap_type := "divergent" |}
         end
  else if mode =? 4 then
    Some {| ModeEntry.name := "Density";
            ModeEntry.symbol := "rho";
            ModeEntry.unit := "kg/m^3";
            ModeEntry.cmap_type := "sequential" |}
  else None.

(** The keys of [Image.MPL_SCATTER_PROPERTIES]. *)
Definition MPL_SCATTER_PROPERTIES : list string :=
  ["source"%string; "rec"%string].

(** A configuration with two sources and a receiver, and their
    coordinates. *)
Definition located_config : Config :=
  [("source"%string,
    [[("type", "Gaussian"); ("x", "1000"); ("y", "2000"); ("z", "300")];
     [("type", "Gaussian"); ("x", "4000"); ("y", "5000"); ("z", "600")]]
    %string);
   ("rec"%string, [[("x", "10"); ("y", "20"); ("z", "0")]]%string)].

(** An image with that configuration, by its plane code. *)
Definition located_image (plane : Z) : Image.t :=
  {| Image.patches := [];
     Image._config := Some located_config;
     Image._mode_dict := SW4_IMAGE_MODE_VELOCITY;
     Image.filename := None;
     Image._precision := Some 4;
     Image._number_of_patches := Some 0;
     Image.time := Some 0%float;
     Image._plane := Some plane;
     Image.coordinate := Some 0%float;
     Image._mode := Some 1;
     Image.gridinfo := Some 0;
     Image.creation_time := Some [] |}.

(** What [SW4.read] returns for the file of one patch of
    [SW4.cross_section_file], without configuration, and the image. *)
Definition read_result : list event * result Image.t :=
  SW4.read (SW4.single_file "a.sw4img" SW4.cross_section_file)
    (Some (Str "a.sw4img")) None (Some "displacement"%string).

Definition read_image : Image.t :=
  match read_result with
  | (_, Ok image) => image
  | (_, Raise _) => SW4.blank_image
  end.

(** The image that the constructor returns. *)
Definition constructed (config : option config_arg) (stf : option string)
  : Image.t :=
  match Image_init SW4.SW4_SOURCE_TIME_FUNCTION_TYPE SW4.read_input_file
          config stf with
  | (_, Ok image) => image
  | (_, Raise _) => SW4.blank_image
  end.

(** What [SW4.read] returns for a random image, and the image. *)
Definition random_result : list event * result Image.t :=
  SW4.read (fun _ => None) (Some the_literal_random)
    (Some (ConfigDict SW4.gaussian_config)) (Some "displacement"%string).

Definition random_image : Image.t :=
  match random_result with
  | (_, Ok image) => image
  | (_, Raise _) => SW4.blank_image
  end.

(** [patch.plot(...)] on a patch, with the tables of the examples; the
    statistics of the patch are taken as [-1.0] and [2.0]. *)
Definition plot (image : option Image.t) (patch : Patch.t)
    (ax : option string)
  : Plot (mpl_object * mpl_object * option mpl_object) :=
  Patch_plot mode_entries SW4_IMAGE_PLANE MPL_SCATTER_PROPERTIES image patch
    (-1)%float 2%float ax None None true None None.

(** A call of [image_files_to_movie] on a list of files, where the
    file [a.sw4img] is the cross-section file of one patch, no path
    exists but that one, the statistics of a patch are taken as [-1.0]
    and [2.0], and [ffmpeg] can be started. *)
Definition no_kwargs : plot_kwargs :=
  {| kw_ax := None; kw_vmin := None; kw_vmax := None;
     kw_colorbar := true; kw_colorbar_label := None; kw_cmap := None |}.

Definition movie (files : list str) (config : option config_arg)
    (stf : option string) (global_colorlimits : bool)
  : Trace movie_call unit :=
  image_files_to_movie SW4.SW4_IMAGE_HEADER_DTYPE
    SW4.SW4_PATCH_HEADER_DTYPE SW4.SW4_IMAGE_PRECISION
    SW4.SW4_SOURCE_TIME_FUNCTION_TYPE SW4.read_input_file []
    mode_entries SW4_IMAGE_PLANE MPL_SCATTER_PROPERTIES
    (fun _ => ((-1)%float, 2%float))
    (SW4.single_file "a.sw4img" SW4.cross_section_file)
    (fun path => String.eqb path "a.sw4img") (fun _ => true)
    "TkAgg" true files "movie" config stf 0 5 false global_colorlimits
    no_kwargs.

(** The calls of [patch.plot] for the first frame of a movie. *)
Definition first_frame (m : Trace movie_call unit) : list mpl_call :=
  match fst m with
  | _ :: patch_plot calls :: _ => calls
  | _ => []
  end.








End Demo.

(** * Properties *)

(** ** numpy: [fromfile], [reshape], [T] *)

Lemma chunks_length (size k : nat) (s : list byte) :
  length (chunks size k s) = k.
Proof.
  revert s; induction k as [|k IH]; intros s; simpl; [reflexivity|].
  now rewrite IH.
Qed.

Lemma fromfile_nil (dt : positive) (count : Z) :
  fromfile dt count [] = ([], []).
Proof.
  unfold fromfile. simpl length.
  assert (E : (0 / Pos.to_nat dt = 0)%nat).
  { apply Nat.div_small. apply Pos2Nat.is_pos. }
  rewrite E. destruct (count <? 0); [reflexivity|].
  destruct (Z.to_nat count); reflexivity.
Qed.

(** A read of [count >= 0] items returns at most [count] of them. *)
Lemma fromfile_length_le (dt : positive) (count : Z) (f : stream) :
  0 <= count ->
  (length (fst (fromfile dt count f)) <= Z.to_nat count)%nat.
Proof.
  intros Hc. unfold fromfile.
  destruct (count <? 0) eqn:E; [apply Z.ltb_lt in E; lia|].
  destruct (_ <? _)%nat eqn:E'; simpl; rewrite chunks_length.
  - apply Nat.ltb_lt in E'. lia.
  - lia.
Qed.

(** A read that returns the [count >= 0] items it was asked for leaves the
    file right after them. *)
Lemma fromfile_full (dt : positive) (count : Z) (f : stream) :
  0 <= count ->
  length (fst (fromfile dt count f)) = Z.to_nat count ->
  fromfile dt count f =
    (chunks (Pos.to_nat dt) (Z.to_nat count) f,
     skipn (Z.to_nat count * Pos.to_nat dt) f).
Proof.
  intros Hc. unfold fromfile.
  destruct (count <? 0) eqn:E; [apply Z.ltb_lt in E; lia|].
  destruct (_ <? _)%nat eqn:E'; simpl; rewrite chunks_length; intros HL.
  - apply Nat.ltb_lt in E'. lia.
  - reflexivity.
Qed.

(** A read that returns fewer items than the [count >= 0] asked for has
    run into the end of the file. *)
Lemma fromfile_short (dt : positive) (count : Z) (f : stream) :
  0 <= count ->
  (length (fst (fromfile dt count f)) < Z.to_nat count)%nat ->
  snd (fromfile dt count f) = [].
Proof.
  intros Hc. unfold fromfile.
  destruct (count <? 0) eqn:E; [apply Z.ltb_lt in E; lia|].
  destruct (_ <? _)%nat eqn:E'; simpl; rewrite chunks_length; intros HL.
  - reflexivity.
  - lia.
Qed.

(** The number of items a read returns. *)
Lemma fromfile_length (dt : positive) (count : Z) (f : stream) :
  length (fst (fromfile dt count f)) =
    if count <? 0 then (length f / Pos.to_nat dt)%nat
    else Nat.min (Z.to_nat count) (length f / Pos.to_nat dt).
Proof.
  unfold fromfile. destruct (count <? 0); simpl.
  - apply chunks_length.
  - destruct (_ <? _)%nat eqn:E'; simpl; rewrite chunks_length.
    + apply Nat.ltb_lt in E'. lia.
    + apply Nat.ltb_ge in E'. lia.
Qed.

(** A product that an [int32] holds is not changed by the wrap. *)
Lemma int32_mul_small (a b : Z) :
  -2147483648 <= a * b < 2147483648 -> int32_mul a b = a * b.
Proof. intros H. unfold int32_mul. rewrite Z.mod_small; lia. Qed.

Lemma int32_mul_zero (a b : Z) : a * b = 0 -> int32_mul a b = 0.
Proof. intros H. unfold int32_mul. now rewrite H. Qed.

(** The wrap never adds to a product that is not negative. *)
Lemma int32_mul_le (a b : Z) : 0 <= a * b -> int32_mul a b <= a * b.
Proof.
  intros H. unfold int32_mul.
  pose proof (Z.mod_le (a * b + 2147483648) 4294967296
                ltac:(lia) ltac:(lia)).
  lia.
Qed.

(** A read that returns [count] items, asked for [count] or for less (a
    negative number asks for all that remains), leaves the file right
    after them. *)
Lemma fromfile_wrapped (dt : positive) (count asked : Z) (f : stream) :
  0 <= count -> asked <= count ->
  length (fst (fromfile dt asked f)) = Z.to_nat count ->
  fromfile dt asked f =
    (chunks (Pos.to_nat dt) (Z.to_nat count) f,
     skipn (Z.to_nat count * Pos.to_nat dt) f).
Proof.
  intros Hc Ha. unfold fromfile.
  destruct (asked <? 0) eqn:E.
  - simpl. rewrite chunks_length. intros HL. now rewrite HL.
  - apply Z.ltb_ge in E.
    destruct (_ <? _)%nat eqn:E'; simpl; rewrite chunks_length; intros HL.
    + apply Nat.ltb_lt in E'. lia.
    + now rewrite HL.
Qed.

(** Reshaping to non-negative dimensions succeeds exactly when the sizes
    agree, and gives those dimensions. *)
Lemma reshape_known (raw : list item) (d0 d1 : Z) :
  0 <= d0 -> 0 <= d1 ->
  reshape raw d0 d1 =
    if Z.of_nat (length raw) =? d0 * d1
    then Ok {| shape := (Z.to_nat d0, Z.to_nat d1); elems := raw |}
    else Raise (ValueError Reshape_size_mismatch).
Proof.
  intros H0 H1. unfold reshape.
  destruct (d0 <? 0) eqn:E0; [apply Z.ltb_lt in E0; lia|].
  destruct (d1 <? 0) eqn:E1; [apply Z.ltb_lt in E1; lia|].
  reflexivity.
Qed.

(** [reshape] only raises [ValueError] and keeps the items as they are. *)
Lemma reshape_cases (raw : list item) (d0 d1 : Z) :
  (exists why, reshape raw d0 d1 = Raise (ValueError why)) \/
  (exists g, reshape raw d0 d1 = Ok g /\ elems g = raw).
Proof.
  unfold reshape.
  destruct (d0 <? 0), (d1 <? 0);
    repeat match goal with
           | |- context [if ?b then _ else _] => destruct b
           end; eauto.
Qed.




(** What a successful [reshape] says about its arguments. *)
Lemma reshape_ok (raw : list item) (d0 d1 : Z) (g : ndarray) :
  reshape raw d0 d1 = Ok g ->
  elems g = raw /\
  ~ (d0 < 0 /\ d1 < 0) /\
  (0 <= d0 -> 0 <= d1 -> Z.of_nat (length raw) = d0 * d1).
Proof.
  unfold reshape.
  destruct (d0 <? 0) eqn:E0, (d1 <? 0) eqn:E1;
    try apply Z.ltb_lt in E0; try apply Z.ltb_lt in E1;
    try apply Z.ltb_ge in E0; try apply Z.ltb_ge in E1;
    try discriminate.
  - destruct (_ || _)%bool; [discriminate|].
    intros H; inversion H; subst; simpl. repeat split; lia.
  - destruct (_ || _)%bool; [discriminate|].
    intros H; inversion H; subst; simpl. repeat split; lia.
  - destruct (_ =? _) eqn:E; [|discriminate].
    apply Z.eqb_eq in E.
    intros H; inversion H; subst; simpl. repeat split; lia.
Qed.

(** A dimension left to [reshape] goes with one that is a count. *)
Lemma reshape_negative_dimension (raw : list item) (d0 d1 : Z)
    (g : ndarray) :
  reshape raw d0 d1 = Ok g ->
  (d0 < 0 -> 0 < d1) /\ (d1 < 0 -> 0 < d0).
Proof.
  unfold reshape.
  destruct (d0 <? 0) eqn:E0, (d1 <? 0) eqn:E1;
    try apply Z.ltb_lt in E0; try apply Z.ltb_lt in E1;
    try apply Z.ltb_ge in E0; try apply Z.ltb_ge in E1;
    try discriminate.
  - destruct (Z.to_nat d1 =? 0)%nat eqn:E; [discriminate|].
    apply Nat.eqb_neq in E. intros _. split; lia.
  - destruct (Z.to_nat d0 =? 0)%nat eqn:E; [discriminate|].
    apply Nat.eqb_neq in E. intros _. split; lia.
  - intros _. split; lia.
Qed.

(** ** The reader *)

Lemma add_patches_nil (img : Image.t) : add_patches [] img = img.
Proof. destruct img. unfold add_patches. simpl. now rewrite app_nil_r. Qed.

Lemma add_patches_app (ps qs : list Patch.t) (img : Image.t) :
  add_patches qs (add_patches ps img) = add_patches (ps ++ qs) img.
Proof. unfold add_patches. simpl. now rewrite app_assoc. Qed.

Lemma header_of_cross_section_patch i header g :
  header_of_patch (cross_section_patch i header g) = Some header.
Proof. now destruct header. Qed.

Lemma header_of_map_patch i header g :
  header_of_patch (map_patch i header g) = Some header.
Proof. now destruct header. Qed.

Section Reader.

Variable SW4_IMAGE_HEADER_DTYPE : dtype ImageHeader.
Variable SW4_PATCH_HEADER_DTYPE : dtype PatchHeader.
Variable SW4_IMAGE_PRECISION : Z -> option positive.

Local Abbreviation precision := (precision SW4_IMAGE_PRECISION).
Local Abbreviation read_patch := (read_patch SW4_IMAGE_PRECISION).
Local Abbreviation for_patch_info := (for_patch_info SW4_IMAGE_PRECISION).
Local Abbreviation _read_patches :=
  (_read_patches SW4_PATCH_HEADER_DTYPE SW4_IMAGE_PRECISION).
Local Abbreviation _read_header := (_read_header SW4_IMAGE_HEADER_DTYPE).
Local Abbreviation decode :=
  (decode SW4_IMAGE_HEADER_DTYPE SW4_PATCH_HEADER_DTYPE SW4_IMAGE_PRECISION).
Local Abbreviation file_header := (file_header SW4_IMAGE_HEADER_DTYPE).
Local Abbreviation after_header := (after_header SW4_IMAGE_HEADER_DTYPE).
Local Abbreviation file_patch_info :=
  (file_patch_info SW4_IMAGE_HEADER_DTYPE SW4_PATCH_HEADER_DTYPE).
Local Abbreviation file_samples :=
  (file_samples SW4_IMAGE_HEADER_DTYPE SW4_PATCH_HEADER_DTYPE).
Local Abbreviation header_size :=
  (Pos.to_nat (itemsize SW4_IMAGE_HEADER_DTYPE)).

Lemma precision_add (ps : list Patch.t) (img : Image.t) :
  precision (add_patches ps img) = precision img.
Proof. reflexivity. Qed.

(** One turn of the loop of [_read_patches], step by step. *)
Lemma read_patch_eq (i : nat) (header : PatchHeader) (img : Image.t)
    (f : stream) :
  read_patch i header {| st_image := img; st_file := f |} =
    match precision img with
    | Raise e => (Raise e, {| st_image := img; st_file := f |})
    | Ok dt =>
        let rd := fromfile dt (int32_mul (ph_ni header) (ph_nj header)) f in
        match reshape (fst rd) (ph_nj header) (ph_ni header) with
        | Raise e => (Raise e, {| st_image := img; st_file := snd rd |})
        | Ok g =>
            if (size g =? 0)%nat
            then (Raise (ValueError Zero_size_reduction),
                  {| st_image := img; st_file := snd rd |})
            else (Ok tt,
                  {| st_image := add_patches [view_of img i header g] img;
                     st_file := snd rd |})
        end
    end.
Proof.
  unfold read_patch, bind, get_image, lift, attr,
    np_fromfile, ret, update_image, view_of. simpl.
  destruct (precision img) as [dt|e]; [|reflexivity].
  simpl. destruct (fromfile dt _ f) as [raw f']. simpl.
  destruct (reshape raw _ _) as [g|e]; [|reflexivity].
  unfold _set_data. simpl.
  destruct (size g =? 0)%nat; [reflexivity|].
  destruct (truthy (is_cross_section img)); reflexivity.
Qed.

(** At the end of the file no sample is left: the turn raises. *)
Lemma read_patch_at_eof (i : nat) (header : PatchHeader) (img : Image.t)
    (dt : positive) :
  precision img = Ok dt ->
  exists why,
    read_patch i header {| st_image := img; st_file := [] |} =
      (Raise (ValueError why), {| st_image := img; st_file := [] |}).
Proof.
  intros Hp. rewrite read_patch_eq, Hp. cbv zeta. rewrite fromfile_nil.
  simpl fst. simpl snd.
  destruct (reshape_cases [] (ph_nj header) (ph_ni header))
    as [[why E]|[g [E Hg]]]; rewrite E.
  - eauto.
  - unfold size. rewrite Hg. simpl. eauto.
Qed.

(** A loop that ends has appended one patch per header, numbered in
    order and carrying that header. *)
Lemma for_patch_info_ok (headers : list PatchHeader) :
  forall i img f s,
  for_patch_info i headers {| st_image := img; st_file := f |} = (Ok tt, s) ->
  exists ps,
    st_image s = add_patches ps img /\
    map Patch.number ps = map Some (seq i (length headers)) /\
    map header_of_patch ps = map Some headers.
Proof.
  induction headers as [|header rest IH]; intros i img f s H.
  - inversion H; subst. exists []. simpl. now rewrite add_patches_nil.
  - simpl in H. unfold bind in H. rewrite read_patch_eq in H.
    destruct (precision img) as [dt|e]; [|discriminate].
    cbv zeta in H.
    destruct (reshape _ _ _) as [g|e]; [|discriminate].
    destruct (size g =? 0)%nat; [discriminate|].
    apply IH in H. destruct H as [ps [Hps [Hn Hh]]].
    exists (view_of img i header g :: ps). split; [|split].
    + rewrite Hps. now rewrite add_patches_app.
    + simpl. rewrite Hn. f_equal.
      unfold view_of. now destruct (truthy _).
    + simpl. rewrite Hh. f_equal.
      unfold view_of. destruct (truthy _);
        [apply header_of_cross_section_patch|apply header_of_map_patch].
Qed.

(** With the file at its end, a loop over at least one header raises. *)
Lemma for_patch_info_at_eof (header : PatchHeader)
    (rest : list PatchHeader) (i : nat) (img : Image.t) (dt : positive) :
  precision img = Ok dt ->
  exists why,
    for_patch_info i (header :: rest) {| st_image := img; st_file := [] |}
    = (Raise (ValueError why), {| st_image := img; st_file := [] |}).
Proof.
  intros Hp. destruct (read_patch_at_eof i header img Hp) as [why E].
  exists why. simpl. unfold bind. now rewrite E.
Qed.

(** [decode] on a file that holds a whole image header. *)
Lemma decode_eq (image : Image.t) (content : list byte) :
  (header_size <= length content)%nat ->
  decode image content =
    for_patch_info 0 (file_patch_info content)
      {| st_image := set_header_fields (file_header content) image;
         st_file := file_samples content |}.
Proof.
  intros Hlen.
  unfold decode, _read_header,
    _read_patches, bind, np_fromfile, get_image,
    attr, update_image, ret. simpl.
  unfold fromfile at 1. simpl (1 <? 0). cbv iota.
  assert (Hav : (length content / header_size <? Z.to_nat 1)%nat = false).
  { apply Nat.ltb_ge. change (Z.to_nat 1) with 1%nat.
    apply Nat.div_le_lower_bound; lia. }
  rewrite Hav. change (Z.to_nat 1) with 1%nat. simpl chunks.
  cbv beta iota zeta. simpl.
  rewrite Nat.add_0_r.
  unfold file_patch_info, file_samples, file_header,
    after_header.
  destruct (fromfile _ _ _) as [items rest]. reflexivity.
Qed.

(** [decode] on a file too short for an image header. *)
Lemma decode_short_header (image : Image.t) (content : list byte) :
  (length content < header_size)%nat ->
  decode image content =
    (Raise IndexError, {| st_image := image; st_file := [] |}).
Proof.
  intros Hlen.
  unfold decode, _read_header,
    bind, np_fromfile. simpl.
  unfold fromfile. simpl (1 <? 0). cbv iota.
  rewrite (Nat.div_small _ _ Hlen). reflexivity.
Qed.

(** With the file at its end, a loop over at least one header raises,
    whatever the precision code. *)
Lemma for_patch_info_at_eof_raises (header : PatchHeader)
    (rest : list PatchHeader) (i : nat) (img : Image.t) :
  exists e,
    for_patch_info i (header :: rest) {| st_image := img; st_file := [] |}
    = (Raise e, {| st_image := img; st_file := [] |}).
Proof.
  destruct (precision img) as [dt|e] eqn:Hp.
  - destruct (for_patch_info_at_eof header rest i img Hp) as [why E].
    eauto.
  - exists e. simpl. unfold bind. now rewrite read_patch_eq, Hp.
Qed.

(** A [decode] that ends has read a whole image header. *)
Lemma decode_ok_header (image : Image.t) (content : list byte) (s : state) :
  decode image content = (Ok tt, s) ->
  (header_size <= length content)%nat.
Proof.
  intros H. destruct (le_lt_dec header_size (length content)) as [L|L];
    [exact L|].
  rewrite (decode_short_header image content L) in H. discriminate.
Qed.

(** C4 (as amended).  After a [decode] that ends, the patches of the image
    are, in read order, one per patch header that was read: patch [i] has
    number [i] and carries the [i]-th header.  Their number is that of the
    headers read; for a patch count [count >= 0] it is [count] or zero,
    and it is [count] when the file holds [count] whole patch headers. *)
Theorem patches_follow_patch_headers (image : Image.t)
    (content : list byte) (s : state) :
  Image.patches image = [] ->
  decode image content = (Ok tt, s) ->
  let count := hd_number_of_patches (file_header content) in
  let info := file_patch_info content in
  let read := Image.patches (st_image s) in
  Image._number_of_patches (st_image s) = Some count /\
  map Patch.number read = map Some (seq 0 (length info)) /\
  map header_of_patch read = map Some info /\
  number_of_patches (st_image s) = length info /\
  (0 <= count ->
   Z.of_nat (number_of_patches (st_image s)) = count \/
   number_of_patches (st_image s) = 0%nat) /\
  (0 <= count ->
   (Z.to_nat count * Pos.to_nat (itemsize SW4_PATCH_HEADER_DTYPE)
    <= length (after_header content))%nat ->
   Z.of_nat (number_of_patches (st_image s)) = count).
Proof.
  intros Hnil H count info read.
  pose proof (decode_ok_header _ _ H) as Hlen.
  rewrite (decode_eq image content Hlen) in H.
  pose proof H as H'.
  apply for_patch_info_ok in H'. destruct H' as [ps [Hs [Hn Hh]]].
  assert (Hread : read = ps).
  { unfold read. rewrite Hs. simpl. now rewrite Hnil. }
  assert (Hlenps : length ps = length info).
  { rewrite <- (length_map Patch.number ps), Hn, length_map.
    apply length_seq. }
  assert (Hnum : number_of_patches (st_image s) = length info).
  { unfold number_of_patches. fold read. now rewrite Hread. }
  assert (Hinfo : length info =
                  length (fst (fromfile (itemsize SW4_PATCH_HEADER_DTYPE)
                                 count (after_header content)))).
  { unfold info, file_patch_info.
    now rewrite length_map. }
  repeat split.
  - rewrite Hs. reflexivity.
  - now rewrite Hread.
  - now rewrite Hread.
  - exact Hnum.
  - intros Hc. rewrite Hnum.
    pose proof (fromfile_length_le (itemsize SW4_PATCH_HEADER_DTYPE)
                  (after_header content) Hc) as Hle.
    fold count in Hle. rewrite <- Hinfo in Hle.
    destruct (Nat.eq_dec (length info) (Z.to_nat count)) as [E|E];
      [left; lia|right].
    assert (Hshort : file_samples content = []).
    { unfold file_samples.
      apply fromfile_short; [exact Hc|].
      fold count. rewrite <- Hinfo. lia. }
    rewrite Hshort in H.
    destruct info as [|header rest] eqn:Einfo; [reflexivity|].
    fold info in H. rewrite Einfo in H.
    destruct (for_patch_info_at_eof_raises header rest 0
                (set_header_fields (file_header content) image)) as [e E'].
    rewrite E' in H. discriminate.
  - intros Hc Hroom. rewrite Hnum, Hinfo, fromfile_length.
    destruct (count <? 0) eqn:E; [apply Z.ltb_lt in E; lia|].
    assert ((Z.to_nat count <=
             length (after_header content)
             / Pos.to_nat (itemsize SW4_PATCH_HEADER_DTYPE))%nat).
    { apply Nat.div_le_lower_bound; [|lia].
      pose proof (Pos2Nat.is_pos (itemsize SW4_PATCH_HEADER_DTYPE)). lia. }
    lia.
Qed.

Lemma view_of_add (ps : list Patch.t) (img : Image.t) :
  view_of (add_patches ps img) = view_of img.
Proof. reflexivity. Qed.


(** With dimensions that are counts and every sample block whole, the
    loop ends. *)
Lemma for_patch_info_whole (dt : positive) (headers : list PatchHeader) :
  Forall positive_dimensions headers ->
  forall i img f,
  precision img = Ok dt ->
  whole_blocks dt headers f ->
  exists s,
    for_patch_info i headers {| st_image := img; st_file := f |} = (Ok tt, s).
Proof.
  induction 1 as [|header rest [Hni Hnj] Hrest IH]; intros i img f Hp Hw.
  - eexists. reflexivity.
  - destruct Hw as [Hsmall [Hroom Hw]].
    simpl. unfold bind. rewrite read_patch_eq, Hp. cbv zeta.
    rewrite int32_mul_small by nia.
    pose proof (fromfile_length dt (ph_ni header * ph_nj header) f) as HL.
    destruct (_ <? 0) eqn:E0; [apply Z.ltb_lt in E0; nia|].
    assert (Hfull : fromfile dt (ph_ni header * ph_nj header) f =
                    (chunks (Pos.to_nat dt)
                       (Z.to_nat (ph_ni header * ph_nj header)) f,
                     skipn (Z.to_nat (ph_ni header * ph_nj header)
                            * Pos.to_nat dt) f)).
    { apply fromfile_full; [nia|]. rewrite HL. lia. }
    rewrite Hfull. simpl fst. simpl snd.
    rewrite reshape_known by lia. rewrite chunks_length.
    assert (E : (Z.of_nat (Z.to_nat (ph_ni header * ph_nj header)) =?
                 ph_nj header * ph_ni header) = true)
      by (apply Z.eqb_eq; nia).
    rewrite E. unfold size. simpl elems. rewrite chunks_length.
    destruct (Z.to_nat (ph_ni header * ph_nj header) =? 0)%nat eqn:Ez;
      [apply Nat.eqb_eq in Ez; nia|].
    apply IH; [now rewrite precision_add|exact Hw].
Qed.








(** A file with a whole image header, a known precision code, dimensions
    that are counts and every sample block whole decodes. *)
Lemma decode_whole_file (image : Image.t) (content : list byte)
    (dt : positive) :
  (header_size <= length content)%nat ->
  SW4_IMAGE_PRECISION (hd_precision (file_header content)) = Some dt ->
  Forall positive_dimensions (file_patch_info content) ->
  whole_blocks dt (file_patch_info content) (file_samples content) ->
  exists s, decode image content = (Ok tt, s).
Proof.
  intros Hlen Hdt Hpos Hw. rewrite (decode_eq image content Hlen).
  apply (for_patch_info_whole (dt := dt)); trivial.
  unfold precision. simpl. now rewrite Hdt.
Qed.



(** One turn of the loop, under a known precision code: it raises a
    [ValueError] and appends nothing, or it appends the patch of a grid
    that is not empty. *)
Lemma read_patch_outcome (i : nat) (header : PatchHeader) (img : Image.t)
    (f : stream) (dt : positive) :
  precision img = Ok dt ->
  let rd := fromfile dt (int32_mul (ph_ni header) (ph_nj header)) f in
  (exists why,
     read_patch i header {| st_image := img; st_file := f |} =
       (Raise (ValueError why), {| st_image := img; st_file := snd rd |}))
  \/
  (exists g,
     reshape (fst rd) (ph_nj header) (ph_ni header) = Ok g /\
     size g <> 0%nat /\
     read_patch i header {| st_image := img; st_file := f |} =
       (Ok tt, {| st_image := add_patches [view_of img i header g] img;
                  st_file := snd rd |})).
Proof.
  intros Hp rd. rewrite read_patch_eq, Hp. cbv zeta. fold rd.
  destruct (reshape_cases (fst rd) (ph_nj header) (ph_ni header))
    as [[why E]|[g [E Hg]]]; rewrite E.
  - left. eauto.
  - destruct (size g =? 0)%nat eqn:Es.
    + left. eauto.
    + right. exists g. apply Nat.eqb_neq in Es. auto.
Qed.

(** A file that ends inside a sample block makes the loop raise
    [ValueError]; with dimensions that are counts it is the one of
    [reshape] on the block that is short. *)
Lemma for_patch_info_truncated (dt : positive)
    (headers : list PatchHeader) :
  forall i img f,
  precision img = Ok dt ->
  ends_mid_block dt headers f ->
  exists why s,
    for_patch_info i headers {| st_image := img; st_file := f |} =
      (Raise (ValueError why), s) /\
    (Forall positive_dimensions headers -> why = Reshape_size_mismatch).
Proof.
  induction headers as [|header rest IH]; intros i img f Hp Hend;
    [destruct Hend|].
  simpl in Hend. simpl. unfold bind. rewrite read_patch_eq, Hp. cbv zeta.
  pose proof (fromfile_length dt (int32_mul (ph_ni header) (ph_nj header))
                f) as HL.
  destruct (reshape _ (ph_nj header) (ph_ni header)) as [g|e] eqn:Er.
  - pose proof (reshape_ok _ _ _ Er) as [Hel [Hneg Hknown]].
    destruct (size g =? 0)%nat eqn:Es.
    + exists Zero_size_reduction. eexists. split; [reflexivity|].
      intros Hpos. inversion Hpos as [|? ? [Hni Hnj] _]; subst.
      exfalso. apply Nat.eqb_eq in Es. unfold size in Es.
      rewrite Hel in Es. specialize (Hknown ltac:(lia) ltac:(lia)).
      rewrite Es in Hknown. simpl in Hknown. nia.
    + destruct Hend as [Hshort|[Hwhole Hrest]].
      * exfalso.
        assert (0 <= ph_nj header /\ 0 <= ph_ni header) as [Hj Hi] by nia.
        specialize (Hknown Hj Hi).
        rewrite HL in Hknown. destruct (_ <? 0); lia.
      * assert (0 <= ph_nj header /\ 0 <= ph_ni header) as [Hj Hi].
        { destruct (reshape_negative_dimension _ _ _ Er) as [Hnj Hni].
          destruct (Z.lt_ge_cases (ph_nj header) 0) as [Lj|Lj];
            [specialize (Hnj Lj); nia|].
          destruct (Z.lt_ge_cases (ph_ni header) 0) as [Li|Li];
            [specialize (Hni Li); nia|].
          lia. }
        specialize (Hknown Hj Hi).
        assert (Hfull : fromfile dt
                          (int32_mul (ph_ni header) (ph_nj header)) f =
                        (chunks (Pos.to_nat dt)
                           (Z.to_nat (ph_ni header * ph_nj header)) f,
                         skipn (Z.to_nat (ph_ni header * ph_nj header)
                                * Pos.to_nat dt) f)).
        { apply fromfile_wrapped; [lia|apply int32_mul_le; lia|nia]. }
        rewrite Hfull. simpl snd.
        destruct (IH (S i)
                    (add_patches [view_of img i header g] img)
                    (skipn (Z.to_nat (ph_ni header * ph_nj header)
                            * Pos.to_nat dt) f))
          as (why & s & E & Hwhy); [now rewrite precision_add|exact Hrest|].
        exists why, s. split; [exact E|].
        intros Hpos. inversion Hpos; subst. auto.
  - destruct (reshape_cases
                (fst (fromfile dt (int32_mul (ph_ni header) (ph_nj header))
                        f))
                (ph_nj header) (ph_ni header))
      as [[why E]|[g [E _]]]; rewrite E in Er; [|discriminate].
    inversion Er; subst. exists why. eexists. split; [reflexivity|].
    intros Hpos. inversion Hpos as [|? ? [Hni Hnj] _]; subst.
    rewrite reshape_known in E by lia.
    destruct (_ =? _); [discriminate|]. now inversion E.
Qed.

(** A patch header with [ni = 0] or [nj = 0] makes the loop raise. *)
Lemma for_patch_info_zero_dimension (dt : positive)
    (headers : list PatchHeader) :
  Exists (fun header => ph_ni header = 0 \/ ph_nj header = 0) headers ->
  forall i img f,
  precision img = Ok dt ->
  exists why s,
    for_patch_info i headers {| st_image := img; st_file := f |} =
      (Raise (ValueError why), s).
Proof.
  induction 1 as [header rest Hzero|header rest Hex IH]; intros i img f Hp;
    simpl; unfold bind;
    destruct (@read_patch_outcome i header img f dt Hp)
      as [[why E]|[g [Hg [Hsize E]]]]; rewrite E; eauto.
  exfalso. apply Hsize.
    apply reshape_ok in Hg. destruct Hg as [Hel _].
    unfold size. rewrite Hel.
    pose proof (fromfile_length dt (int32_mul (ph_ni header) (ph_nj header))
                  f) as HL.
    assert (Hc : int32_mul (ph_ni header) (ph_nj header) = 0)
      by (apply int32_mul_zero; nia).
    rewrite Hc in HL. simpl in HL. rewrite Hc. exact HL.
Qed.

(** C6 (as amended).  A precision code that is not in the table is not
    looked at while the image header and the patch headers are read.  The
    lookup of the first turn of the loop raises [KeyError]: the patch
    headers have been consumed, no sample block has; when no patch header
    was read, [decode] ends without raising. *)
Theorem unknown_precision_code (image : Image.t) (content : list byte) :
  (header_size <= length content)%nat ->
  SW4_IMAGE_PRECISION (hd_precision (file_header content)) = None ->
  decode image content =
    (match file_patch_info content with
     | [] => Ok tt
     | _ :: _ => Raise KeyError
     end,
     {| st_image := set_header_fields (file_header content) image;
        st_file := file_samples content |}).
Proof.
  intros Hlen Hcode. rewrite (decode_eq image content Hlen).
  destruct (file_patch_info content) as [|header rest]; [reflexivity|].
  simpl. unfold bind. rewrite read_patch_eq.
  unfold precision. simpl. now rewrite Hcode.
Qed.

(** C7 (as amended).  Reading the patch headers validates nothing and
    raises nothing: a short read returns the whole patch headers that the
    file holds, and a negative patch count returns all the whole patch
    headers that remain.  After a short read (fewer whole patch headers
    than the patch count) [decode] ends with no patch when no header was
    read, and otherwise raises at the first sample block, the file being
    at its end: [ValueError] when the precision code is in the table,
    [KeyError] when it is not.  A patch header with [ni = 0] or [nj = 0]
    makes [decode] raise: [ValueError] when the precision code is in the
    table, and otherwise the [KeyError] of the first patch, before any
    sample is read. *)
Theorem patch_headers_not_validated (image : Image.t)
    (content : list byte) :
  (header_size <= length content)%nat ->
  let count := hd_number_of_patches (file_header content) in
  let info := file_patch_info content in
  let image' := set_header_fields (file_header content) image in
  let whole :=
    (length (after_header content)
     / Pos.to_nat (itemsize SW4_PATCH_HEADER_DTYPE))%nat in
  let known :=
    SW4_IMAGE_PRECISION (hd_precision (file_header content)) in
  (0 <= count -> length info = Nat.min (Z.to_nat count) whole) /\
  (count < 0 -> length info = whole) /\
  (0 <= count -> (length info < Z.to_nat count)%nat ->
   match info, known with
   | [], _ =>
       decode image content =
         (Ok tt, {| st_image := image'; st_file := [] |})
   | _ :: _, Some _ =>
       exists why,
         decode image content =
           (Raise (ValueError why), {| st_image := image'; st_file := [] |})
   | _ :: _, None =>
       decode image content =
         (Raise KeyError, {| st_image := image'; st_file := [] |})
   end)
  /\
  (Exists (fun header => ph_ni header = 0 \/ ph_nj header = 0) info ->
   match known with
   | Some _ =>
       exists why s, decode image content = (Raise (ValueError why), s)
   | None =>
       decode image content =
         (Raise KeyError,
          {| st_image := image'; st_file := file_samples content |})
   end).
Proof.
  intros Hlen count info image' whole known.
  assert (Hp : forall dt, known = Some dt -> precision image' = Ok dt).
  { intros dt Hcode. unfold precision. simpl. fold known. now rewrite Hcode. }
  assert (Hunknown : forall header rest f,
            known = None ->
            for_patch_info 0 (header :: rest)
              {| st_image := image'; st_file := f |} =
              (Raise KeyError, {| st_image := image'; st_file := f |})).
  { intros header rest f Hcode. simpl. unfold bind. rewrite read_patch_eq.
    unfold precision. simpl. fold known. now rewrite Hcode. }
  assert (Hinfo : length info =
                  if count <? 0 then whole
                  else Nat.min (Z.to_nat count) whole).
  { unfold info, file_patch_info. rewrite length_map.
    apply fromfile_length. }
  rewrite (decode_eq image content Hlen). fold info image'.
  split; [|split; [|split]].
  - intros Hc. rewrite Hinfo.
    destruct (count <? 0) eqn:E; [apply Z.ltb_lt in E; lia|reflexivity].
  - intros Hc. rewrite Hinfo. apply Z.ltb_lt in Hc. now rewrite Hc.
  - intros Hc Hshort.
    assert (Heof : file_samples content = []).
    { unfold file_samples.
      apply fromfile_short; [exact Hc|].
      unfold info, file_patch_info in Hshort.
      now rewrite length_map in Hshort. }
    rewrite Heof. destruct info as [|header rest]; [reflexivity|].
    destruct known as [dt|] eqn:Hcode.
    + apply (for_patch_info_at_eof header rest 0 image' (Hp dt eq_refl)).
    + now apply Hunknown.
  - intros Hex. destruct known as [dt|] eqn:Hcode.
    + now apply (for_patch_info_zero_dimension (dt := dt)); [|apply Hp].
    + destruct info as [|header rest]; [inversion Hex|].
      now apply Hunknown.
Qed.

(** ** Construction and [read_SW4_image] *)

Variable SW4_SOURCE_TIME_FUNCTION_TYPE : string -> option Z.
Variable read_input_file : string -> result Config.
Variable random_samples : list item.

Local Abbreviation source_time_function_type :=
  (source_time_function_type SW4_SOURCE_TIME_FUNCTION_TYPE).
Local Abbreviation parse_config := (parse_config read_input_file).
Local Abbreviation Image_init :=
  (Image_init SW4_SOURCE_TIME_FUNCTION_TYPE read_input_file).
Local Abbreviation read_SW4_image :=
  (read_SW4_image SW4_IMAGE_HEADER_DTYPE SW4_PATCH_HEADER_DTYPE
     SW4_IMAGE_PRECISION SW4_SOURCE_TIME_FUNCTION_TYPE read_input_file
     random_samples).

(** The kind found in a configuration is one that the constructor
    accepts; looking for it raises no [ValueError]. *)
Lemma source_time_function_type_cases (c : option Config) :
  source_time_function_type c = Ok (Some "displacement"%string) \/
  source_time_function_type c = Ok (Some "velocity"%string) \/
  source_time_function_type c = Ok None \/
  (exists e, source_time_function_type c = Raise e /\
             forall why, e <> ValueError why).
Proof.
  unfold source_time_function_type.
  destruct c as [[|entry c]|]; auto.
  destruct (getattr _ _) as [[|source0 sources]|];
    try (right; right; right; eexists; split; [reflexivity|discriminate]).
  destruct (getattr source0 _) as [ty|];
    try (right; right; right; eexists; split; [reflexivity|discriminate]).
  destruct (SW4_SOURCE_TIME_FUNCTION_TYPE ty) as [code|];
    try (right; right; right; eexists; split; [reflexivity|discriminate]).
  destruct (code =? 0); auto. destruct (code =? 1); auto.
Qed.

(** What [finish_init] returns. *)
Lemma finish_init_cases (c : option Config) (stf : option string) :
  match finish_init c stf with
  | Ok image =>
      valid_kind stf = true /\
      Image.patches image = [] /\ Image._config image = c /\
      Image.filename image = None /\ Image._precision image = None /\
      Image._number_of_patches image = None /\ Image.time image = None /\
      Image._plane image = None /\ Image.coordinate image = None /\
      Image._mode image = None /\
      (stf = Some "displacement"%string /\
       Image._mode_dict image = SW4_IMAGE_MODE_DISPLACEMENT
       \/
       stf = Some "velocity"%string /\
       Image._mode_dict image = SW4_IMAGE_MODE_VELOCITY)
  | Raise e =>
      valid_kind stf = false /\
      e = ValueError (Unrecognized_source_time_function_type stf)
  end.
Proof.
  unfold finish_init, valid_kind. destruct stf as [k|]; [|auto].
  destruct (String.eqb k "displacement") eqn:Ed.
  - apply String.eqb_eq in Ed. subst. simpl. repeat split; auto.
  - destruct (String.eqb k "velocity") eqn:Ev.
    + apply String.eqb_eq in Ev. subst. simpl. repeat split; auto.
    + simpl. auto.
Qed.

(** With a configuration in which a kind is found, the constructor takes
    that kind, whatever the explicit one. *)
Lemma Image_init_found (config : option config_arg) (c : option Config)
    (stf : option string) (found : string) :
  parse_config config = Ok c ->
  config_given c = true ->
  source_time_function_type c = Ok (Some found) ->
  exists image,
    Image_init config stf =
      (match stf with
       | Some user =>
           if nonempty stf && negb (String.eqb user found)
           then [Warn (Overriding_source_time_function_type user found)]
           else []
       | None => []
       end, Ok image) /\
    (found = "displacement"%string /\
     Image._mode_dict image = SW4_IMAGE_MODE_DISPLACEMENT
     \/
     found = "velocity"%string /\
     Image._mode_dict image = SW4_IMAGE_MODE_VELOCITY).
Proof.
  intros Hparse Hgiven Hfound.
  unfold Image_init. rewrite Hparse, Hgiven, Hfound.
  assert (Hvalid : found = "displacement"%string \/
                   found = "velocity"%string).
  { destruct (source_time_function_type_cases c)
      as [E|[E|[E|[e [E _]]]]]; rewrite E in Hfound; inversion Hfound; auto. }
  assert (Hf : nonempty (Some found) = true)
    by (destruct Hvalid; subst; reflexivity).
  rewrite Hf, andb_true_r.
  pose proof (finish_init_cases c (Some found)) as HF.
  destruct (finish_init c (Some found)) as [image|e].
  - exists image. split.
    + destruct stf as [user|]; reflexivity.
    + destruct HF as (_ & _ & _ & _ & _ & _ & _ & _ & _ & _ & HF).
      destruct HF as [[E ?]|[E ?]]; inversion E; auto.
  - exfalso. destruct HF as [HF _].
    destruct Hvalid; subst; discriminate.
Qed.

(** C1 (as amended).  When a configuration is given (not [None], not
    empty) and a kind is found in it, that kind selects the mode table;
    a warning is issued when a non-empty explicit kind differs from it,
    and none otherwise.  When looking for the kind in the configuration
    raises, the constructor raises that exception.  When no configuration
    is given, the constructor raises its [ValueError] exactly when the
    explicit kind is not "displacement" or "velocity", and an explicit
    valid kind selects the mode table. *)
Theorem Image_init_kind (config : option config_arg) (c : option Config)
    (stf : option string) :
  parse_config config = Ok c ->
  (forall user found : string,
     stf = Some user -> user <> ""%string -> user <> found ->
     config_given c = true ->
     source_time_function_type c = Ok (Some found) ->
     exists image,
       Image_init config stf =
         ([Warn (Overriding_source_time_function_type user found)],
          Ok image) /\
       (found = "displacement"%string /\
        Image._mode_dict image = SW4_IMAGE_MODE_DISPLACEMENT
        \/
        found = "velocity"%string /\
        Image._mode_dict image = SW4_IMAGE_MODE_VELOCITY))
  /\
  (forall found : string,
     stf = None \/ stf = Some ""%string \/ stf = Some found ->
     config_given c = true ->
     source_time_function_type c = Ok (Some found) ->
     exists image,
       Image_init config stf = ([], Ok image) /\
       (found = "displacement"%string /\
        Image._mode_dict image = SW4_IMAGE_MODE_DISPLACEMENT
        \/
        found = "velocity"%string /\
        Image._mode_dict image = SW4_IMAGE_MODE_VELOCITY))
  /\
  (forall e,
     config_given c = true ->
     source_time_function_type c = Raise e ->
     Image_init config stf = ([], Raise e))
  /\
  (config_given c = false ->
   ((exists ev given,
       Image_init config stf =
         (ev, Raise (ValueError
                       (Unrecognized_source_time_function_type given))))
    <-> valid_kind stf = false)
   /\
   (valid_kind stf = true ->
    exists image,
      Image_init config stf = ([], Ok image) /\
      (stf = Some "displacement"%string /\
       Image._mode_dict image = SW4_IMAGE_MODE_DISPLACEMENT
       \/
       stf = Some "velocity"%string /\
       Image._mode_dict image = SW4_IMAGE_MODE_VELOCITY))).
Proof.
  intros Hparse. split; [|split; [|split]].
  - intros user found Hstf Hne Hdiff Hgiven Hfound.
    destruct (Image_init_found config stf Hparse Hgiven Hfound)
      as [image [Hinit Hmode]].
    exists image. split; [|exact Hmode].
    rewrite Hinit, Hstf.
    assert (Hn : nonempty (Some user) = true)
      by (destruct user; [congruence|reflexivity]).
    apply String.eqb_neq in Hdiff. now rewrite Hn, Hdiff.
  - intros found Hstf Hgiven Hfound.
    destruct (Image_init_found config stf Hparse Hgiven Hfound)
      as [image [Hinit Hmode]].
    exists image. split; [|exact Hmode].
    rewrite Hinit. destruct Hstf as [->|[->| ->]]; [reflexivity..|].
    now rewrite String.eqb_refl, andb_false_r.
  - intros e Hgiven Hraise.
    unfold Image_init. now rewrite Hparse, Hgiven, Hraise.
  - intros Hgiven. unfold Image_init. rewrite Hparse, Hgiven.
    pose proof (finish_init_cases c stf) as HF.
    destruct (finish_init c stf) as [image|e].
    + destruct HF as (Hvalid & _ & _ & _ & _ & _ & _ & _ & _ & _ & Hmode).
      split.
      * split; [intros (ev & given & H); discriminate|congruence].
      * intros _. eauto.
    + destruct HF as [Hvalid ->]. split.
      * split; [auto|]. intros _. eauto.
      * congruence.
Qed.

(** What the constructor leaves in a new image, and that it only
    warns. *)
Lemma Image_init_ok (config : option config_arg) (stf : option string)
    (ev : list event) (image : Image.t) :
  Image_init config stf = (ev, Ok image) ->
  Image.patches image = [] /\ Image.filename image = None /\
  Image._precision image = None /\
  Image._number_of_patches image = None /\ Image.time image = None /\
  Image._plane image = None /\ Image.coordinate image = None /\
  Image._mode image = None /\
  Forall (fun e => exists w, e = Warn w) ev.
Proof.
  unfold Image_init.
  destruct (parse_config config) as [c|e]; [|discriminate].
  destruct (config_given c).
  - destruct (source_time_function_type c) as [stf_|e]; [|discriminate].
    pose proof (finish_init_cases c stf_) as HF.
    destruct (finish_init c stf_) as [image'|e]; [|discriminate].
    intros H; inversion H; subst.
    destruct HF as (_ & ? & _ & ? & ? & ? & ? & ? & ? & ? & _).
    repeat split; auto.
    destruct stf as [user|], stf_ as [found|]; try constructor.
    destruct (_ && _)%bool; repeat constructor. eauto.
  - pose proof (finish_init_cases c stf) as HF.
    destruct (finish_init c stf) as [image'|e]; [|discriminate].
    intros H; inversion H; subst.
    destruct HF as (_ & ? & _ & ? & ? & ? & ? & ? & ? & ? & _).
    repeat split; auto.
Qed.

(** C10.  When the constructor accepts the kind and the configuration,
    [read_SW4_image] with [filename=None] returns the new image as it is,
    whatever the files are: no patch, the fields of the header unset; the
    only events are the warnings of the constructor, no file is opened. *)
Theorem read_SW4_image_no_file (fs : string -> option (list byte))
    (config : option config_arg) (stf : option string) (ev : list event)
    (image : Image.t) :
  Image_init config stf = (ev, Ok image) ->
  let image' := set_filename None image in
  read_SW4_image fs None config stf = (ev, Ok image') /\
  Image.patches image' = [] /\ number_of_patches image' = 0%nat /\
  Image.filename image' = None /\
  Image.time image' = None /\ Image.coordinate image' = None /\
  Image._mode image' = None /\ Image._precision image' = None /\
  Image._plane image' = None /\
  Forall (fun e => exists w, e = Warn w) ev.
Proof.
  intros H image'.
  unfold read_SW4_image. rewrite H.
  apply Image_init_ok in H.
  destruct H as (Hp & _ & ? & _ & ? & ? & ? & ? & ?).
  unfold number_of_patches, image'. simpl. rewrite Hp. repeat split; auto.
Qed.

(** [read_SW4_image] on a file that [open] can read. *)
Lemma read_SW4_image_file (fs : string -> option (list byte))
    (name : string) (config : option config_arg) (stf : option string)
    (ev : list event) (image : Image.t) (content : list byte) :
  Image_init config stf = (ev, Ok image) ->
  fs name = Some content ->
  exists ev',
    read_SW4_image fs (Some (Str name)) config stf =
      (ev',
       match decode (set_filename (Some name) image) content with
       | (Ok _, s) => Ok (st_image s)
       | (Raise e, _) => Raise e
       end).
Proof.
  intros Hinit Hfs.
  unfold read_SW4_image.
  rewrite Hinit, Hfs. cbn [option_map chars].
  destruct (decode _ content) as [[u|e] s]; eauto.
Qed.

(** C5.  A file that ends inside the sample block of a patch, at the
    precision its header declares: [read_SW4_image] raises and returns no
    image.  The exception is the [ValueError] of the read of a sample
    block; when the dimensions are counts it is the one [reshape] raises
    on the block that is short.  The file name is any string object that
    goes to the branch that opens a file, whatever its characters. *)
Theorem truncated_sample_block_raises (fs : string -> option (list byte))
    (name : string) (config : option config_arg) (stf : option string)
    (ev : list event) (image : Image.t) (content : list byte)
    (dt : positive) :
  Image_init config stf = (ev, Ok image) ->
  fs name = Some content ->
  (header_size <= length content)%nat ->
  SW4_IMAGE_PRECISION (hd_precision (file_header content)) = Some dt ->
  ends_mid_block dt (file_patch_info content) (file_samples content) ->
  exists ev' why,
    read_SW4_image fs (Some (Str name)) config stf =
      (ev', Raise (ValueError why)) /\
    (Forall positive_dimensions (file_patch_info content) ->
     why = Reshape_size_mismatch).
Proof.
  intros Hinit Hfs Hlen Hcode Hend.
  destruct (read_SW4_image_file fs name config stf Hinit Hfs)
    as [ev' E].
  exists ev'. rewrite E.
  rewrite (decode_eq (set_filename (Some name) image) content Hlen).
  destruct (@for_patch_info_truncated dt (file_patch_info content) 0
              (set_header_fields (file_header content)
                 (set_filename (Some name) image))
              (file_samples content)) as (why & s & E' & Hwhy).
  - unfold precision. simpl. now rewrite Hcode.
  - exact Hend.
  - exists why. rewrite E'. split; [reflexivity|exact Hwhy].
Qed.

(** C9 (as amended).  [is_cross_section] is [True] for the plane codes 0
    and 1, [False] for the plane code 2, and for any other plane code, or
    none, it returns [None] without raising; [type] is "cross-section"
    when [is_cross_section] is [True] and "map" in every other case. *)
Theorem is_cross_section_by_plane (self : Image.t) :
  (is_cross_section self = Some true <->
   Image._plane self = Some 0 \/ Image._plane self = Some 1) /\
  (is_cross_section self = Some false <-> Image._plane self = Some 2) /\
  (is_cross_section self = None <->
   Image._plane self <> Some 0 /\ Image._plane self <> Some 1 /\
   Image._plane self <> Some 2) /\
  (type self = "cross-section"%string <->
   is_cross_section self = Some true) /\
  (type self = "map"%string <-> is_cross_section self <> Some true).
Proof.
  unfold type, is_cross_section.
  destruct (Image._plane self) as [plane|]; simpl.
  - destruct (plane =? 0) eqn:E0, (plane =? 1) eqn:E1, (plane =? 2) eqn:E2;
      simpl;
      repeat match goal with
             | H : (_ =? _) = true |- _ => apply Z.eqb_eq in H
             | H : (_ =? _) = false |- _ => apply Z.eqb_neq in H
             end;
      intuition (try discriminate; try congruence).
  - intuition (try discriminate; try congruence).
Qed.

End Reader.

(** ** The theorems on example files *)

Local Open Scope string_scope.

Ltac evaluate := vm_compute; reflexivity.

(** C1, witness: an explicit "displacement" against a configuration that
    declares a velocity. *)
Lemma Image_init_kind_witness :
  parse_config SW4.read_input_file (Some (ConfigDict SW4.gaussian_config))
  = Ok (Some SW4.gaussian_config) /\
  exists image,
    Image_init SW4.SW4_SOURCE_TIME_FUNCTION_TYPE SW4.read_input_file
      (Some (ConfigDict SW4.gaussian_config)) (Some "displacement")
    = ([Warn (Overriding_source_time_function_type
                "displacement" "velocity")], Ok image) /\
    Image._mode_dict image = SW4_IMAGE_MODE_VELOCITY.
Proof.
  split; [reflexivity|].
  destruct (@Image_init_kind SW4.SW4_SOURCE_TIME_FUNCTION_TYPE
              SW4.read_input_file (Some (ConfigDict SW4.gaussian_config))
              (Some SW4.gaussian_config) (Some "displacement") eq_refl)
    as (Hwarn & _).
  destruct (Hwarn "displacement" "velocity" eq_refl
              ltac:(discriminate) ltac:(discriminate) eq_refl eq_refl)
    as [image [Hinit [[Hk _]|[_ Hd]]]]; [discriminate|].
  exists image. split; [exact Hinit|exact Hd].
Defined.

(** C1, counterexample: a valid explicit kind is passed together with a
    configuration.  When the first source of the configuration declares no
    kind, the explicit kind is dropped and the constructor raises its
    [ValueError]; when the configuration has no source at all, the look-up
    raises, with or without an explicit kind, and it is not the
    [ValueError] of an unknown kind. *)
Lemma explicit_kind_discarded :
  valid_kind (Some "displacement") = true /\
  Image_init SW4.SW4_SOURCE_TIME_FUNCTION_TYPE SW4.read_input_file
    (Some (ConfigDict SW4.dirac_config)) (Some "displacement")
  = ([], Raise (ValueError (Unrecognized_source_time_function_type None)))
  /\
  Image_init SW4.SW4_SOURCE_TIME_FUNCTION_TYPE SW4.read_input_file
    (Some (ConfigDict SW4.no_source_config)) (Some "displacement")
  = ([], Raise AttributeError) /\
  Image_init SW4.SW4_SOURCE_TIME_FUNCTION_TYPE SW4.read_input_file
    (Some (ConfigDict SW4.no_source_config)) None
  = ([], Raise AttributeError).
Proof. repeat split. Qed.



(** C4, witness: one patch announced, one patch read. *)
Lemma patches_follow_patch_headers_witness :
  let s := snd (SW4.decode SW4.blank_image SW4.cross_section_file) in
  Image.patches SW4.blank_image = [] /\
  SW4.decode SW4.blank_image SW4.cross_section_file = (Ok tt, s) /\
  Image._number_of_patches (st_image s) = Some 1%Z /\
  map Patch.number (Image.patches (st_image s)) = [Some 0%nat] /\
  number_of_patches (st_image s) = 1%nat.
Proof.
  cbv zeta.
  assert (H : SW4.decode SW4.blank_image SW4.cross_section_file =
              (Ok tt, snd (SW4.decode SW4.blank_image
                             SW4.cross_section_file))) by evaluate.
  split; [reflexivity|]. split; [exact H|].
  destruct (@patches_follow_patch_headers SW4.SW4_IMAGE_HEADER_DTYPE
              SW4.SW4_PATCH_HEADER_DTYPE SW4.SW4_IMAGE_PRECISION
              SW4.blank_image SW4.cross_section_file _ eq_refl H)
    as (Hcount & Hnumbers & _ & Hlength & _).
  split; [exact Hcount|]. split; [exact Hnumbers|exact Hlength].
Defined.

(** C4, counterexample: the image header announces one patch and the file
    ends there.  The read of the patch headers returns none, the loop has
    nothing to do, and the image comes back with no patch. *)
Lemma header_only_file_decodes :
  exists image,
    SW4.read (SW4.single_file "a.sw4img" SW4.header_only_file)
      (Some (Str "a.sw4img")) None (Some "displacement")
    = ([Open "a.sw4img"; Close "a.sw4img"], Ok image) /\
    Image._number_of_patches image = Some 1%Z /\
    number_of_patches image = 0%nat.
Proof. eexists. split; [evaluate|]. split; reflexivity. Qed.

(** C5, witness: four samples where the patch header announces six. *)
Lemma truncated_sample_block_raises_witness :
  Image_init SW4.SW4_SOURCE_TIME_FUNCTION_TYPE SW4.read_input_file None
    (Some "displacement") = ([], Ok SW4.blank_image) /\
  ends_mid_block 4
    (file_patch_info SW4.SW4_IMAGE_HEADER_DTYPE SW4.SW4_PATCH_HEADER_DTYPE
       SW4.truncated_file)
    (file_samples SW4.SW4_IMAGE_HEADER_DTYPE SW4.SW4_PATCH_HEADER_DTYPE
       SW4.truncated_file) /\
  exists ev why,
    SW4.read (SW4.single_file "a.sw4img" SW4.truncated_file)
      (Some (Str "a.sw4img")) None (Some "displacement")
    = (ev, Raise (ValueError why)) /\
    (Forall positive_dimensions
       (file_patch_info SW4.SW4_IMAGE_HEADER_DTYPE
          SW4.SW4_PATCH_HEADER_DTYPE SW4.truncated_file) ->
     why = Reshape_size_mismatch).
Proof.
  assert (Hend : ends_mid_block 4
            (file_patch_info SW4.SW4_IMAGE_HEADER_DTYPE
               SW4.SW4_PATCH_HEADER_DTYPE SW4.truncated_file)
            (file_samples SW4.SW4_IMAGE_HEADER_DTYPE
               SW4.SW4_PATCH_HEADER_DTYPE SW4.truncated_file))
    by (vm_compute; left; reflexivity).
  split; [reflexivity|]. split; [exact Hend|].
  apply (@truncated_sample_block_raises SW4.SW4_IMAGE_HEADER_DTYPE
           SW4.SW4_PATCH_HEADER_DTYPE SW4.SW4_IMAGE_PRECISION
           SW4.SW4_SOURCE_TIME_FUNCTION_TYPE SW4.read_input_file []
           (SW4.single_file "a.sw4img" SW4.truncated_file) "a.sw4img"
           None (Some "displacement") [] SW4.blank_image
           SW4.truncated_file 4%positive
           eq_refl eq_refl).
  - apply Nat.leb_le. evaluate.
  - evaluate.
  - exact Hend.
Defined.

(** C6, witness: the precision code 7 and one patch.  [KeyError] is
    raised with the file after the patch header, before the samples. *)
Lemma unknown_precision_code_witness :
  SW4.SW4_IMAGE_PRECISION
    (hd_precision (file_header SW4.SW4_IMAGE_HEADER_DTYPE
                     SW4.unknown_precision_patch_file)) = None /\
  SW4.decode SW4.blank_image SW4.unknown_precision_patch_file =
    (Raise KeyError,
     {| st_image :=
          set_header_fields
            (file_header SW4.SW4_IMAGE_HEADER_DTYPE
               SW4.unknown_precision_patch_file) SW4.blank_image;
        st_file := SW4.samples32 [1; 2; 3; 4; 5; 6]%Z |}).
Proof.
  assert (Hcode : SW4.SW4_IMAGE_PRECISION
            (hd_precision (file_header SW4.SW4_IMAGE_HEADER_DTYPE
                             SW4.unknown_precision_patch_file)) = None)
    by evaluate.
  split; [exact Hcode|].
  unfold SW4.decode.
  rewrite (@unknown_precision_code SW4.SW4_IMAGE_HEADER_DTYPE
             SW4.SW4_PATCH_HEADER_DTYPE SW4.SW4_IMAGE_PRECISION
             SW4.blank_image SW4.unknown_precision_patch_file
             ltac:(apply Nat.leb_le; evaluate) Hcode).
  evaluate.
Defined.

(** C6, counterexample: the precision code 7 and no patch.  The reader
    never looks the code up and returns the image; with one patch (the
    witness above) the patch header is consumed before the raise. *)
Lemma unknown_precision_file_decodes :
  SW4.SW4_IMAGE_PRECISION 7 = None /\
  exists image,
    SW4.read (SW4.single_file "a.sw4img" SW4.unknown_precision_file)
      (Some (Str "a.sw4img")) None (Some "displacement")
    = ([Open "a.sw4img"; Close "a.sw4img"], Ok image) /\
    Image._precision image = Some 7%Z /\
    Image.patches image = [].
Proof.
  split; [reflexivity|]. eexists. split; [evaluate|]. split; reflexivity.
Qed.

(** C7, witness: two patches announced, one patch header in the file and
    no sample; a patch header with [ni = 0]; the same with a precision
    code that is not in the table. *)
Lemma patch_headers_not_validated_witness :
  (exists why,
     SW4.decode SW4.blank_image SW4.short_patch_headers_file =
       (Raise (ValueError why),
        {| st_image :=
             set_header_fields
               (file_header SW4.SW4_IMAGE_HEADER_DTYPE
                  SW4.short_patch_headers_file) SW4.blank_image;
           st_file := [] |})) /\
  (exists why s,
     SW4.decode SW4.blank_image SW4.zero_dimension_file =
       (Raise (ValueError why), s)) /\
  SW4.decode SW4.blank_image SW4.zero_dimension_unknown_precision_file =
    (Raise KeyError,
     {| st_image :=
          set_header_fields
            (file_header SW4.SW4_IMAGE_HEADER_DTYPE
               SW4.zero_dimension_unknown_precision_file) SW4.blank_image;
        st_file := [] |}).
Proof.
  split; [|split].
  - destruct (@patch_headers_not_validated SW4.SW4_IMAGE_HEADER_DTYPE
                SW4.SW4_PATCH_HEADER_DTYPE SW4.SW4_IMAGE_PRECISION
                SW4.blank_image SW4.short_patch_headers_file
                ltac:(apply Nat.leb_le; evaluate))
      as (_ & _ & Hshort & _).
    apply Hshort.
    + apply Z.leb_le. evaluate.
    + apply Nat.ltb_lt. evaluate.
  - destruct (@patch_headers_not_validated SW4.SW4_IMAGE_HEADER_DTYPE
                SW4.SW4_PATCH_HEADER_DTYPE SW4.SW4_IMAGE_PRECISION
                SW4.blank_image SW4.zero_dimension_file
                ltac:(apply Nat.leb_le; evaluate))
      as (_ & _ & _ & Hzero).
    apply Hzero. vm_compute. constructor. left. reflexivity.
  - destruct (@patch_headers_not_validated SW4.SW4_IMAGE_HEADER_DTYPE
                SW4.SW4_PATCH_HEADER_DTYPE SW4.SW4_IMAGE_PRECISION
                SW4.blank_image SW4.zero_dimension_unknown_precision_file
                ltac:(apply Nat.leb_le; evaluate))
      as (_ & _ & _ & Hzero).
    apply Hzero. vm_compute. constructor. left. reflexivity.
Defined.

(** C7, counterexample: the image header has the patch count [-1] and the
    file ends there.  A negative count asks [numpy.fromfile] for all the
    records that remain; there is none, nothing is raised, and the image
    comes back with no patch.  Nor is a negative dimension refused: with
    [ni = -1] and [nj = 1] the count of samples asked for is negative,
    all the samples that remain are read, [reshape] takes [ni] as the
    dimension to infer, and the image comes back with the patch. *)
Lemma negative_patch_count_decodes :
  (exists image,
     SW4.read (SW4.single_file "a.sw4img" SW4.negative_count_file)
       (Some (Str "a.sw4img")) None (Some "displacement")
     = ([Open "a.sw4img"; Close "a.sw4img"], Ok image) /\
     Image._number_of_patches image = Some (-1)%Z /\
     Image.patches image = []) /\
  (exists image patch grid,
     SW4.read (SW4.single_file "a.sw4img" SW4.negative_dimension_file)
       (Some (Str "a.sw4img")) None (Some "displacement")
     = ([Open "a.sw4img"; Close "a.sw4img"], Ok image) /\
     Image.patches image = [patch] /\
     Patch.ni patch = Some (-1)%Z /\ Patch.nj patch = Some 1%Z /\
     Patch.data patch = Some grid /\ shape grid = (1%nat, 1%nat)).
Proof.
  split.
  - eexists. split; [evaluate|]. split; reflexivity.
  - do 3 eexists. split; [evaluate|]. repeat split; reflexivity.
Qed.

(** C9, counterexample: with the plane code 3, [is_cross_section] returns
    [None] instead of failing, and [type] is "map". *)
Lemma plane_3_is_silently_a_map :
  Image._plane SW4.plane_3_image = Some 3%Z /\
  is_cross_section SW4.plane_3_image = None /\
  type SW4.plane_3_image = "map".
Proof. repeat split; evaluate. Qed.

(** C10, witness: [read_SW4_image(None)] with the default kind. *)
Lemma read_SW4_image_no_file_witness :
  Image_init SW4.SW4_SOURCE_TIME_FUNCTION_TYPE SW4.read_input_file None
    (Some "displacement") = ([], Ok SW4.blank_image) /\
  SW4.read (SW4.single_file "a.sw4img" SW4.cross_section_file) None None
    (Some "displacement") = ([], Ok SW4.blank_image) /\
  number_of_patches SW4.blank_image = 0%nat.
Proof.
  split; [reflexivity|].
  destruct (@read_SW4_image_no_file SW4.SW4_IMAGE_HEADER_DTYPE
              SW4.SW4_PATCH_HEADER_DTYPE SW4.SW4_IMAGE_PRECISION
              SW4.SW4_SOURCE_TIME_FUNCTION_TYPE SW4.read_input_file []
              (SW4.single_file "a.sw4img" SW4.cross_section_file) None
              (Some "displacement") [] SW4.blank_image eq_refl)
    as (Hread & _ & Hnone & _).
  split; [exact Hread|exact Hnone].
Defined.

(** * More on the reader *)

Local Open Scope Z_scope.
Local Open Scope list_scope.

(** ** Files laid out record by record *)

Lemma concat_fixed_length (size : nat) (items : list item) :
  Forall (fun it => length it = size) items ->
  length (concat items) = (length items * size)%nat.
Proof.
  induction 1 as [|it items Hit _ IH]; simpl; [reflexivity|].
  rewrite length_app, IH, Hit. reflexivity.
Qed.

Lemma chunks_concat (size : nat) (items : list item) (rest : list byte) :
  Forall (fun it => length it = size) items ->
  chunks size (length items) (concat items ++ rest) = items.
Proof.
  induction 1 as [|it items Hit _ IH]; simpl; [reflexivity|].
  rewrite <- app_assoc.
  rewrite firstn_app, <- Hit, firstn_all, Nat.sub_diag. simpl.
  rewrite app_nil_r. f_equal.
  rewrite skipn_app, skipn_all, Nat.sub_diag. simpl.
  rewrite Hit. exact IH.
Qed.

Lemma skipn_concat (size : nat) (items : list item) (rest : list byte) :
  Forall (fun it => length it = size) items ->
  skipn (length items * size) (concat items ++ rest) = rest.
Proof.
  intros H. rewrite <- (concat_fixed_length H).
  rewrite skipn_app, skipn_all, Nat.sub_diag. reflexivity.
Qed.

(** A read of as many items as were written gives them back and leaves
    what follows. *)
Lemma fromfile_concat (dt : positive) (items : list item)
    (rest : list byte) (count : Z) :
  Forall (fun it => length it = Pos.to_nat dt) items ->
  count = Z.of_nat (length items) ->
  fromfile dt count (concat items ++ rest) = (items, rest).
Proof.
  intros H ->. unfold fromfile.
  destruct (_ <? 0) eqn:E; [apply Z.ltb_lt in E; lia|].
  rewrite Nat2Z.id.
  assert (Hav : (length (concat items ++ rest) / Pos.to_nat dt
                 <? length items)%nat = false).
  { apply Nat.ltb_ge. apply Nat.div_le_lower_bound.
    - pose proof (Pos2Nat.is_pos dt). lia.
    - rewrite length_app, (concat_fixed_length H). lia. }
  rewrite Hav. now rewrite chunks_concat, skipn_concat.
Qed.

(** The product of the dimensions wraps: for [ni = nj = 65536] no sample
    is asked for, none is read, and [reshape] raises. *)
Lemma sample_count_wraps :
  int32_mul 65536 65536 = 0 /\
  SW4.decode SW4.blank_image SW4.wrapping_dimensions_file =
    (Raise (ValueError Reshape_size_mismatch),
     {| st_image :=
          set_header_fields
            (file_header SW4.SW4_IMAGE_HEADER_DTYPE
               SW4.wrapping_dimensions_file) SW4.blank_image;
        st_file := SW4.samples32 [1; 2; 3] |}).
Proof. split; vm_compute; reflexivity. Qed.

Section ReaderMore.

Variable SW4_IMAGE_HEADER_DTYPE : dtype ImageHeader.
Variable SW4_PATCH_HEADER_DTYPE : dtype PatchHeader.
Variable SW4_IMAGE_PRECISION : Z -> option positive.
Variable SW4_SOURCE_TIME_FUNCTION_TYPE : string -> option Z.
Variable read_input_file : string -> result Config.
Variable random_samples : list item.

Local Abbreviation precision := (precision SW4_IMAGE_PRECISION).
Local Abbreviation for_patch_info := (for_patch_info SW4_IMAGE_PRECISION).
Local Abbreviation decode :=
  (decode SW4_IMAGE_HEADER_DTYPE SW4_PATCH_HEADER_DTYPE SW4_IMAGE_PRECISION).
Local Abbreviation file_header := (file_header SW4_IMAGE_HEADER_DTYPE).
Local Abbreviation file_patch_info :=
  (file_patch_info SW4_IMAGE_HEADER_DTYPE SW4_PATCH_HEADER_DTYPE).
Local Abbreviation file_samples :=
  (file_samples SW4_IMAGE_HEADER_DTYPE SW4_PATCH_HEADER_DTYPE).
Local Abbreviation header_size :=
  (Pos.to_nat (itemsize SW4_IMAGE_HEADER_DTYPE)).
Local Abbreviation Image_init :=
  (Image_init SW4_SOURCE_TIME_FUNCTION_TYPE read_input_file).
Local Abbreviation read_SW4_image :=
  (read_SW4_image SW4_IMAGE_HEADER_DTYPE SW4_PATCH_HEADER_DTYPE
     SW4_IMAGE_PRECISION SW4_SOURCE_TIME_FUNCTION_TYPE read_input_file
     random_samples).

(** The loop over blocks that fit their headers reads them all. *)
Lemma for_patch_info_blocks (dt : positive) (headers : list PatchHeader)
    (blocks : list (list item)) :
  Forall2 (block_fits dt) headers blocks ->
  forall i img rest,
  precision img = Ok dt ->
  for_patch_info i headers
    {| st_image := img;
       st_file := concat (map (@concat byte) blocks) ++ rest |} =
    (Ok tt,
     {| st_image :=
          add_patches
            (build_patches (view_of img) i headers (grids_of headers blocks))
            img;
        st_file := rest |}).
Proof.
  induction 1 as [|header block headers blocks Hfit _ IH];
    intros i img rest Hp.
  - simpl. now rewrite add_patches_nil.
  - destruct Hfit as ([Hni Hnj] & Hsmall & Hlen & Hsamples).
    simpl. unfold bind. rewrite read_patch_eq, Hp. cbv zeta.
    rewrite int32_mul_small by nia.
    rewrite <- app_assoc.
    rewrite (@fromfile_concat dt block _ (ph_ni header * ph_nj header)
               Hsamples) by (symmetry; exact Hlen).
    simpl fst. simpl snd.
    rewrite reshape_known by lia.
    assert (E : (Z.of_nat (length block) =? ph_nj header * ph_ni header)
                = true) by (apply Z.eqb_eq; lia).
    rewrite E. unfold size. simpl elems.
    destruct (length block =? 0)%nat eqn:Ez;
      [apply Nat.eqb_eq in Ez; nia|].
    rewrite IH by (now rewrite precision_add).
    now rewrite add_patches_app, view_of_add.
Qed.

(** The patches that the loop has appended when it stops, whether it
    returns or raises. *)
Lemma for_patch_info_partial (headers : list PatchHeader) :
  forall i img f r s,
  for_patch_info i headers {| st_image := img; st_file := f |} = (r, s) ->
  exists ps,
    st_image s = add_patches ps img /\
    map header_of_patch ps = map Some (firstn (length ps) headers) /\
    map Patch.number ps = map Some (seq i (length ps)) /\
    (r = Ok tt -> length ps = length headers) /\
    (forall e, r = Raise e -> (length ps < length headers)%nat).
Proof.
  induction headers as [|header rest IH]; intros i img f r s H.
  - inversion H; subst. exists []. simpl. rewrite add_patches_nil.
    repeat split; auto. intros e He. discriminate.
  - simpl in H. unfold bind in H. rewrite read_patch_eq in H.
    assert (Hstop : forall e f',
              (r, s) = (Raise e, {| st_image := img; st_file := f' |}) ->
              exists ps,
                st_image s = add_patches ps img /\
                map header_of_patch ps =
                  map Some (firstn (length ps) (header :: rest)) /\
                map Patch.number ps = map Some (seq i (length ps)) /\
                (r = Ok tt -> length ps = length (header :: rest)) /\
                (forall e, r = Raise e ->
                 (length ps < length (header :: rest))%nat)).
    { intros e f' E. inversion E; subst. exists []. simpl.
      rewrite add_patches_nil. repeat split; auto; try discriminate.
      intros. lia. }
    destruct (precision img) as [dt|e]; [|symmetry in H; eauto].
    cbv zeta in H.
    destruct (reshape _ _ _) as [g|e]; [|symmetry in H; eauto].
    destruct (size g =? 0)%nat; [symmetry in H; eauto|].
    apply IH in H. destruct H as (ps & Hs & Hh & Hn & Hok & Hraise).
    exists (view_of img i header g :: ps). simpl. repeat split.
    + now rewrite Hs, add_patches_app.
    + rewrite Hh. f_equal. unfold view_of.
      destruct (truthy _);
        [apply header_of_cross_section_patch|apply header_of_map_patch].
    + rewrite Hn. f_equal. unfold view_of. now destruct (truthy _).
    + intros E. now rewrite (Hok E).
    + intros e E. specialize (Hraise e E). lia.
Qed.

(** X1.  Whether [decode] returns or raises on a file with a whole image
    header, the image it leaves has the header fields of the file and the
    file name, configuration and mode table it had; its patches are those
    it had followed by the patches of the first patch headers, in order
    and numbered from 0: of all the headers read when [decode] returns,
    of fewer when it raises. *)
Theorem decode_frame (image : Image.t) (content : list byte)
    (r : result unit) (s : state) :
  (header_size <= length content)%nat ->
  decode image content = (r, s) ->
  exists ps,
    st_image s =
      add_patches ps (set_header_fields (file_header content) image) /\
    map header_of_patch ps =
      map Some (firstn (length ps) (file_patch_info content)) /\
    map Patch.number ps = map Some (seq 0 (length ps)) /\
    (r = Ok tt -> length ps = length (file_patch_info content)) /\
    (forall e, r = Raise e ->
     (length ps < length (file_patch_info content))%nat).
Proof.
  intros Hlen H. rewrite (decode_eq _ _ _ image content Hlen) in H.
  now apply for_patch_info_partial in H.
Qed.

(** X2.  A file that is shorter than one image header record, the empty
    file among them: [read_SW4_image] raises [IndexError]. *)
Theorem short_file_raises_IndexError (fs : string -> option (list byte))
    (name : string) (config : option config_arg) (stf : option string)
    (ev : list event) (image : Image.t) (content : list byte) :
  Image_init config stf = (ev, Ok image) ->
  fs name = Some content ->
  (length content < header_size)%nat ->
  exists ev',
    read_SW4_image fs (Some (Str name)) config stf =
      (ev', Raise IndexError).
Proof.
  intros Hinit Hfs Hshort.
  destruct (@read_SW4_image_file SW4_IMAGE_HEADER_DTYPE
              SW4_PATCH_HEADER_DTYPE SW4_IMAGE_PRECISION
              SW4_SOURCE_TIME_FUNCTION_TYPE read_input_file random_samples
              fs name config stf ev image content Hinit Hfs)
    as [ev' E].
  exists ev'. rewrite E.
  now rewrite (decode_short_header _ _ _ _ content Hshort).
Qed.

(** [decode] on a file laid out record by record, with bytes after it. *)
Lemma decode_encode_file_then (image : Image.t) (header : item)
    (patch_headers : list item) (blocks : list (list item))
    (extra : list byte) (dt : positive) :
  length header = header_size ->
  Forall (fun record =>
            length record = Pos.to_nat (itemsize SW4_PATCH_HEADER_DTYPE))
    patch_headers ->
  hd_number_of_patches (unpack SW4_IMAGE_HEADER_DTYPE header) =
    Z.of_nat (length patch_headers) ->
  SW4_IMAGE_PRECISION (hd_precision (unpack SW4_IMAGE_HEADER_DTYPE header))
    = Some dt ->
  Forall2 (block_fits dt)
    (map (unpack SW4_PATCH_HEADER_DTYPE) patch_headers) blocks ->
  let image' :=
    set_header_fields (unpack SW4_IMAGE_HEADER_DTYPE header) image in
  let headers := map (unpack SW4_PATCH_HEADER_DTYPE) patch_headers in
  decode image (encode_file header patch_headers blocks ++ extra) =
    (Ok tt,
     {| st_image :=
          add_patches
            (build_patches (view_of image') 0 headers
               (grids_of headers blocks))
            image';
        st_file := extra |}).
Proof.
  intros Hh Hph Hcount Hdt Hfit image' headers.
  unfold encode_file.
  assert (Hfh : file_header
                  ((header ++ concat patch_headers
                    ++ concat (map (@concat byte) blocks)) ++ extra)
                = unpack SW4_IMAGE_HEADER_DTYPE header).
  { unfold file_header. rewrite <- !app_assoc.
    rewrite firstn_app, <- Hh, firstn_all, Nat.sub_diag. simpl.
    now rewrite app_nil_r. }
  assert (Hrest : after_header SW4_IMAGE_HEADER_DTYPE
                    ((header ++ concat patch_headers
                      ++ concat (map (@concat byte) blocks)) ++ extra)
                  = concat patch_headers
                    ++ (concat (map (@concat byte) blocks) ++ extra)).
  { unfold after_header. rewrite <- !app_assoc.
    rewrite skipn_app, <- Hh, skipn_all, Nat.sub_diag. reflexivity. }
  rewrite decode_eq by (rewrite !length_app; lia).
  unfold file_patch_info, file_samples. fold (file_header
    ((header ++ concat patch_headers
      ++ concat (map (@concat byte) blocks)) ++ extra)).
  rewrite Hfh, Hrest.
  rewrite (@fromfile_concat _ patch_headers _ _ Hph Hcount).
  simpl fst. simpl snd. fold headers image'.
  apply (@for_patch_info_blocks dt); [exact Hfit|].
  unfold precision, image'. simpl. now rewrite Hdt.
Qed.

(** X3.  Round trip.  A file made of an image header record, of as many
    patch header records as it announces and, for each of them, of a
    block of [ni * nj] samples of the declared precision ([ni, nj > 0]
    and [ni * nj < 2^31], so that the 32-bit product does not wrap)
    decodes without raising: the image has the fields of the header
    record and one patch per patch header, in order, whose grid holds the
    samples of its block ([nj] rows of [ni] columns, transposed in a
    map); the file has been read to its end. *)
Theorem decode_encode_file (image : Image.t) (header : item)
    (patch_headers : list item) (blocks : list (list item))
    (dt : positive) :
  length header = header_size ->
  Forall (fun record =>
            length record = Pos.to_nat (itemsize SW4_PATCH_HEADER_DTYPE))
    patch_headers ->
  hd_number_of_patches (unpack SW4_IMAGE_HEADER_DTYPE header) =
    Z.of_nat (length patch_headers) ->
  SW4_IMAGE_PRECISION (hd_precision (unpack SW4_IMAGE_HEADER_DTYPE header))
    = Some dt ->
  Forall2 (block_fits dt)
    (map (unpack SW4_PATCH_HEADER_DTYPE) patch_headers) blocks ->
  let image' :=
    set_header_fields (unpack SW4_IMAGE_HEADER_DTYPE header) image in
  let headers := map (unpack SW4_PATCH_HEADER_DTYPE) patch_headers in
  decode image (encode_file header patch_headers blocks) =
    (Ok tt,
     {| st_image :=
          add_patches
            (build_patches (view_of image') 0 headers
               (grids_of headers blocks))
            image';
        st_file := [] |}).
Proof.
  intros Hh Hph Hcount Hdt Hfit.
  pose proof (@decode_encode_file_then image header patch_headers
                blocks [] dt Hh Hph Hcount Hdt Hfit) as H.
  now rewrite app_nil_r in H.
Qed.

(** X4.  When every patch has fewer than [2^31] samples ([ni, nj > 0],
    the 32-bit product [ni * nj] does not wrap), bytes after the last
    sample block are not read and change nothing: the file with the bytes
    appended decodes to the same image, and the file is left at those
    bytes. *)
Theorem trailing_bytes_ignored (image : Image.t) (header : item)
    (patch_headers : list item) (blocks : list (list item))
    (extra : list byte) (dt : positive) :
  length header = header_size ->
  Forall (fun record =>
            length record = Pos.to_nat (itemsize SW4_PATCH_HEADER_DTYPE))
    patch_headers ->
  hd_number_of_patches (unpack SW4_IMAGE_HEADER_DTYPE header) =
    Z.of_nat (length patch_headers) ->
  SW4_IMAGE_PRECISION (hd_precision (unpack SW4_IMAGE_HEADER_DTYPE header))
    = Some dt ->
  Forall2 (block_fits dt)
    (map (unpack SW4_PATCH_HEADER_DTYPE) patch_headers) blocks ->
  exists s s',
    decode image (encode_file header patch_headers blocks) = (Ok tt, s) /\
    decode image (encode_file header patch_headers blocks ++ extra)
    = (Ok tt, s') /\
    st_image s' = st_image s /\ st_file s = [] /\ st_file s' = extra.
Proof.
  intros Hh Hph Hcount Hdt Hfit.
  pose proof (@decode_encode_file_then image header patch_headers
                blocks [] dt Hh Hph Hcount Hdt Hfit) as H.
  pose proof (@decode_encode_file_then image header patch_headers
                blocks extra dt Hh Hph Hcount Hdt Hfit) as H'.
  rewrite app_nil_r in H. cbv zeta in H, H'.
  eexists. eexists. split; [exact H|]. split; [exact H'|].
  repeat split.
Qed.

End ReaderMore.

(** ** What a call of [read_SW4_image] does *)

Section Calls.

Variable SW4_IMAGE_HEADER_DTYPE : dtype ImageHeader.
Variable SW4_PATCH_HEADER_DTYPE : dtype PatchHeader.
Variable SW4_IMAGE_PRECISION : Z -> option positive.
Variable SW4_SOURCE_TIME_FUNCTION_TYPE : string -> option Z.
Variable read_input_file : string -> result Config.
Variable random_samples : list item.

Local Abbreviation Image_init :=
  (Image_init SW4_SOURCE_TIME_FUNCTION_TYPE read_input_file).
Local Abbreviation _create_random_SW4_image :=
  (_create_random_SW4_image SW4_SOURCE_TIME_FUNCTION_TYPE read_input_file
     random_samples).
Local Abbreviation read_SW4_image :=
  (read_SW4_image SW4_IMAGE_HEADER_DTYPE SW4_PATCH_HEADER_DTYPE
     SW4_IMAGE_PRECISION SW4_SOURCE_TIME_FUNCTION_TYPE read_input_file
     random_samples).

Local Abbreviation warnings_only :=
  (Forall (fun e : event => exists w, e = Warn w)).

(** The constructor issues warnings and nothing else, also when it
    raises. *)
Lemma Image_init_warns (config : option config_arg) (stf : option string) :
  warnings_only (fst (Image_init config stf)).
Proof.
  unfold Image_init.
  destruct (parse_config read_input_file config) as [c|e]; [|constructor].
  destruct (config_given c); [|constructor].
  destruct (source_time_function_type SW4_SOURCE_TIME_FUNCTION_TYPE c)
    as [stf_|e]; [|constructor].
  simpl. destruct stf as [user|]; [|constructor].
  destruct stf_ as [found|]; [|constructor].
  destruct (_ && _); repeat constructor. eauto.
Qed.

Lemma _create_random_SW4_image_warns (stf : option string) :
  warnings_only (fst (_create_random_SW4_image stf)).
Proof.
  unfold _create_random_SW4_image.
  pose proof (Image_init_warns None stf) as H.
  destruct (Image_init None stf) as [ev [image|e]]; exact H.
Qed.

(** The constructor without a configuration. *)
Lemma Image_init_None (stf : option string) :
  Image_init None stf = ([], finish_init None stf).
Proof. reflexivity. Qed.

(** X5.  Whatever its arguments and whatever the outcome, a call of
    [read_SW4_image] issues warnings and then opens at most one file, the
    one it was given; a file that has been opened is closed, also when
    reading it raises.  Nothing is opened for [None] and for the literal
    'random'.  Every other string object is opened as a file, once the
    constructor has returned and when [open] can read it: this includes
    a string that reads "random" and is not the literal. *)
Theorem read_SW4_image_events (fs : string -> option (list byte))
    (filename : option str) (config : option config_arg)
    (stf : option string) :
  exists warnings,
    warnings_only warnings /\
    match filename with
    | None | Some the_literal_random =>
        fst (read_SW4_image fs filename config stf) = warnings
    | Some (Str name) =>
        match fs name, snd (Image_init config stf) with
        | Some _, Ok _ =>
            fst (read_SW4_image fs filename config stf) =
              warnings ++ [Open name; Close name]
        | _, _ => fst (read_SW4_image fs filename config stf) = warnings
        end
    end.
Proof.
  unfold read_SW4_image.
  pose proof (Image_init_warns config stf) as Hinit.
  destruct (Image_init config stf) as [ev [image|e]]; simpl in Hinit.
  2: { exists ev. split; [exact Hinit|].
       destruct filename as [[|name]|]; try reflexivity.
       now destruct (fs name). }
  cbv zeta. destruct filename as [[|name]|];
    [| |exists ev; split; [exact Hinit|reflexivity]].
  - pose proof (_create_random_SW4_image_warns stf) as Hrandom.
    destruct (_create_random_SW4_image stf) as [ev' r]. simpl in *.
    exists (ev ++ ev'). split; [|reflexivity].
    apply Forall_app. now split.
  - assert (Hext : warnings_only
              (if endswith name ".sw4img" then ev
               else ev ++ [Warn (Uncommon_file_extension name)])).
    { destruct (endswith name ".sw4img"); [exact Hinit|].
      apply Forall_app. split; [exact Hinit|]. repeat constructor. eauto. }
    eexists. split; [exact Hext|].
    destruct (fs name) as [content|] eqn:Hfs; [|reflexivity].
    cbn [snd].
    now destruct (decode _ _ _ _ _) as [[[]|e] s].
Qed.

(** X6.  The literal 'random', which is also the default of the
    argument.  Once the constructor has accepted the configuration and
    the kind, the image returned is built from the explicit kind alone:
    when that kind is "displacement" or "velocity" it is an image without
    configuration and without file name, with the mode table of the
    explicit kind (whatever the configuration says) and the one random
    patch; otherwise the call raises [ValueError], although the
    constructor had accepted a kind found in the configuration.  No file
    is opened.  The test is one of identity: a string object that reads
    "random" and is not the literal is taken as the name of a file, with
    the warning on its extension, and [open] raises when there is no
    such file. *)
Theorem random_image_from_explicit_kind
    (fs : string -> option (list byte)) (config : option config_arg)
    (stf : option string) (ev : list event) (image : Image.t) :
  Image_init config stf = (ev, Ok image) ->
  (fs "random"%string = None ->
   read_SW4_image fs (Some (Str "random")) config stf =
     (ev ++ [Warn (Uncommon_file_extension "random")], Raise IOError)) /\
  if valid_kind stf then
    exists random,
      read_SW4_image fs (Some the_literal_random) config stf =
        (ev, Ok random) /\
      Image._config random = None /\ Image.filename random = None /\
      (stf = Some "displacement"%string /\
       Image._mode_dict random = SW4_IMAGE_MODE_DISPLACEMENT
       \/
       stf = Some "velocity"%string /\
       Image._mode_dict random = SW4_IMAGE_MODE_VELOCITY) /\
      Image.patches random = [_create_random_SW4_patch random_samples] /\
      Image._number_of_patches random = Some 1
  else
    read_SW4_image fs (Some the_literal_random) config stf =
      (ev, Raise (ValueError (Unrecognized_source_time_function_type stf))).
Proof.
  intros Hinit. unfold read_SW4_image. rewrite Hinit. cbv zeta.
  split; [intros Hfs; rewrite Hfs; reflexivity|].
  unfold _create_random_SW4_image. rewrite Image_init_None.
  pose proof (finish_init_cases None stf) as H.
  destruct (finish_init None stf) as [image0|e].
  - destruct H as (Hv & _ & Hc & _ & _ & _ & _ & _ & _ & _ & Hmode).
    rewrite Hv. rewrite app_nil_r. eexists. split; [reflexivity|].
    simpl. repeat split; auto.
  - destruct H as [Hv ->]. rewrite Hv. now rewrite app_nil_r.
Qed.

End Calls.

(** * Plotting *)

(** ** The calls and the outcome of a sequence *)

Lemma snd_pbind (E A B : Type) (m : Trace E A) (k : A -> Trace E B) :
  snd (pbind m k) =
    match snd m with
    | Returns a => snd (k a)
    | Raises r => Raises r
    end.
Proof.
  destruct m as [calls [a|r]]; simpl; [|reflexivity].
  now destruct (k a).
Qed.

Lemma fst_pbind (E A B : Type) (m : Trace E A) (k : A -> Trace E B) :
  fst (pbind m k) =
    match snd m with
    | Returns a => fst m ++ fst (k a)
    | Raises r => fst m
    end.
Proof.
  destruct m as [calls [a|r]]; simpl; [|reflexivity].
  now destruct (k a).
Qed.

Lemma axis_labels_planes (plane : option Z) :
  axis_labels plane <> None <->
  exists code, plane = Some code /\ 0 <= code <= 2.
Proof.
  unfold axis_labels. split.
  - destruct plane as [code|]; [|congruence].
    intros H. exists code. split; [reflexivity|].
    destruct code as [|[[]|[]|]|]; simpl in H; try congruence; lia.
  - intros (code & -> & Hcode).
    assert (H : code = 0 \/ code = 1 \/ code = 2) by lia.
    destruct H as [->|[->| ->]]; discriminate.
Qed.

(** Case analysis along a sequence of calls. *)
Ltac plot_simpl :=
  repeat progress
    (rewrite ?snd_pbind, ?fst_pbind;
     unfold call, pret, praise, plift, the_image;
     cbn [snd fst outcome_of]).

Ltac find_case x :=
  lazymatch x with
  | match ?y with _ => _ end => find_case y
  | snd ?m =>
      lazymatch m with
      | match ?y with _ => _ end => find_case y
      | _ => destruct x eqn:?
      end
  | outcome_of ?y => find_case y
  | _ => destruct x eqn:?
  end.

Ltac plot_case :=
  lazymatch goal with
  | |- match ?x with _ => _ end = _ -> _ => find_case x
  | |- snd (match ?x with _ => _ end) = _ -> _ => find_case x
  | |- match ?x with _ => _ end = _ => find_case x
  | |- snd (match ?x with _ => _ end) = _ => find_case x
  end.

Ltac plot_crack := repeat (plot_simpl; plot_case); plot_simpl.

Section PlottingProperties.

Variable mode_entries : mode_dict -> Z -> option ModeEntry.t.
Variable SW4_IMAGE_PLANE : Z -> option string.
Variable MPL_SCATTER_PROPERTIES : list string.

Local Abbreviation mode_entry := (mode_entry mode_entries).
Local Abbreviation _cmap_type := (_cmap_type mode_entries).
Local Abbreviation is_divergent := (is_divergent mode_entries).
Local Abbreviation quantity_name := (quantity_name mode_entries).
Local Abbreviation quantity_unit := (quantity_unit mode_entries).
Local Abbreviation plane := (plane SW4_IMAGE_PLANE).
Local Abbreviation Patch_plot :=
  (Patch_plot mode_entries SW4_IMAGE_PLANE MPL_SCATTER_PROPERTIES).

(** When [Patch.plot] returns, and what. *)
Lemma Patch_plot_outcome (image : option Image.t) (self : Patch.t)
    (self_min self_max : float) (ax : option string)
    (vmin vmax : option float) (colorbar : bool)
    (colorbar_label : option string) (cmap : option string) :
  let outcome :=
    snd (Patch_plot image self self_min self_max ax vmin vmax colorbar
           colorbar_label cmap) in
  let drawn :=
    Returns (new_figure, new_axes,
             if colorbar then Some new_colorbar else None) in
  (forall result, outcome = Returns result -> outcome = drawn) /\
  (outcome = drawn
   <->
   ax = None /\
   exists im,
     image = Some im /\
     (exists entry,
        mode_entry im = Ok entry /\
        (cmap = None ->
         exists c, CMAP (ModeEntry.cmap_type entry) = Ok c)) /\
     (config_given (Image._config im) = true ->
      snd (scatter_each im MPL_SCATTER_PROPERTIES) = Returns tt /\
      Patch.extent self <> None) /\
     (exists code, Image._plane im = Some code /\ 0 <= code <= 2) /\
     (exists label, plane im = Ok label) /\
     Image.time im <> None).
Proof.
  cbv zeta.
  unfold Patch_plot, is_divergent, _cmap_type, quantity_name, quantity_unit.
  split; [|split].
  - intros result.
    plot_crack; try (intros; discriminate); reflexivity.
  - plot_crack; try (intros; discriminate); intros _;
      (split; [reflexivity|]); eexists; (split; [reflexivity|]);
      repeat match goal with
             | H : Ok _ = Ok _ |- _ => inversion H; subst; clear H
             | |- _ /\ _ => split
             | |- _ -> _ => intro
             | |- exists entry, mode_entry _ = _ /\ _ =>
                 eexists; split; [eassumption|]
             | |- exists c, CMAP _ = _ => eexists; eassumption
             | |- exists label, plane _ = _ => eexists; eassumption
             | |- exists code, _ /\ _ => apply axis_labels_planes
             | u : Datatypes.unit |- _ => destruct u
             end;
      try congruence.
  - intros (-> & im & -> & (entry & He & Hc) & Hcfg & Hplane & (label & Hl)
            & Ht).
    apply axis_labels_planes in Hplane.
    destruct cmap as [c|];
      [clear Hc|destruct (Hc eq_refl) as [c Hc']; clear Hc];
      (destruct (config_given (Image._config im)) eqn:Hgiven;
       [destruct (Hcfg eq_refl) as [Hscatter Hextent]|]; clear Hcfg);
      plot_crack; congruence.
Qed.

(** X7.  [Patch.plot] returns exactly when it is called without axes, on
    a patch that is linked to an image whose mode code has an entry in
    its mode table (with a colour map type that [Image.CMAP] knows, unless
    the caller gives a colour map), whose plane code is 0, 1 or 2 and has
    a label in [SW4_IMAGE_PLANE], and whose time is set; with a
    configuration, the scatter plots must return and the patch must have
    an extent.  What it returns is then the new figure, the new axes and
    the colorbar, [None] without a colorbar.  So it raises whenever the
    caller passes axes, and on the patch of a random image. *)
Theorem Patch_plot_returns_iff (image : option Image.t) (self : Patch.t)
    (self_min self_max : float) (ax : option string)
    (vmin vmax : option float) (colorbar : bool)
    (colorbar_label : option string) (cmap : option string) :
  let outcome :=
    snd (Patch_plot image self self_min self_max ax vmin vmax colorbar
           colorbar_label cmap) in
  let drawn :=
    Returns (new_figure, new_axes,
             if colorbar then Some new_colorbar else None) in
  (forall result, outcome = Returns result -> outcome = drawn) /\
  (outcome = drawn
   <->
   ax = None /\
   exists im,
     image = Some im /\
     (exists entry,
        mode_entry im = Ok entry /\
        (cmap = None ->
         exists c, CMAP (ModeEntry.cmap_type entry) = Ok c)) /\
     (config_given (Image._config im) = true ->
      snd (scatter_each im MPL_SCATTER_PROPERTIES) = Returns tt /\
      Patch.extent self <> None) /\
     (exists code, Image._plane im = Some code /\ 0 <= code <= 2) /\
     (exists label, plane im = Ok label) /\
     Image.time im <> None).
Proof. exact (Patch_plot_outcome _ _ _ _ _ _ _ _ _ _). Qed.


(** X8.  Axes of the caller.  Where [Patch.plot] would return on axes of
    its own, it raises on axes of the caller: it makes the same calls but
    for [plt.subplots()] and the title, so that the patch is drawn, and
    then raises [UnboundLocalError] on [fig], which the [try] around the
    [return] does not cover. *)
Theorem Patch_plot_on_caller_axes (image : option Image.t) (self : Patch.t)
    (self_min self_max : float) (a : string)
    (vmin vmax : option float) (colorbar : bool)
    (colorbar_label : option string) (cmap : option string)
    (result : mpl_object * mpl_object * option mpl_object) :
  snd (Patch_plot image self self_min self_max None vmin vmax colorbar
         colorbar_label cmap) = Returns result ->
  snd (Patch_plot image self self_min self_max (Some a) vmin vmax colorbar
         colorbar_label cmap) = Raises (UnboundLocalError "fig") /\
  exists title,
    fst (Patch_plot image self self_min self_max None vmin vmax colorbar
           colorbar_label cmap) =
      plt_subplots
      :: fst (Patch_plot image self self_min self_max (Some a) vmin vmax
                colorbar colorbar_label cmap)
         ++ [title].
Proof.
  unfold Patch_plot, is_divergent, _cmap_type, quantity_name, quantity_unit.
  plot_crack; try (intros; discriminate); intros _;
    (split; [reflexivity|]); eexists;
    rewrite ?app_nil_r, <- ?app_assoc; cbn [app];
    rewrite <- ?app_assoc; cbn [app]; reflexivity.
Qed.

End PlottingProperties.

(** ** The colour limits *)

Lemma SFltb_max_abs_r (a b : spec_float) :
  SFltb (if SFltb (SFabs a) (SFabs b) then SFabs b else SFabs a) b = false.
Proof.
  destruct a as [sa|sa| |sa ma ea], b as [sb|sb| |sb mb eb];
    try destruct sa; try destruct sb; try reflexivity;
    unfold SFltb, SFabs, SFcompare;
    rewrite ?Z.compare_refl, ?Pos.compare_cont_refl;
    try reflexivity.
  all: destruct (ea ?= eb)%Z eqn:E; try reflexivity;
    rewrite ?Z.compare_refl, ?Pos.compare_cont_refl; try reflexivity.
  all: try (destruct (Pos.compare_cont Eq ma mb) eqn:E'; try reflexivity;
    rewrite ?E, ?E', ?Z.compare_refl, ?Pos.compare_cont_refl;
    try reflexivity).
Qed.

Lemma SFltb_max_abs_l (a b : spec_float) :
  SFltb a (SFopp (if SFltb (SFabs a) (SFabs b) then SFabs b else SFabs a))
  = false.
Proof.
  destruct a as [sa|sa| |sa ma ea], b as [sb|sb| |sb mb eb];
    try destruct sa; try destruct sb; try reflexivity;
    unfold SFltb, SFabs, SFopp, SFcompare;
    rewrite ?Z.compare_refl, ?Pos.compare_cont_refl;
    try reflexivity.
  all: destruct (ea ?= eb)%Z eqn:E; simpl; try reflexivity;
    rewrite ?E, ?Z.compare_refl, ?Pos.compare_cont_refl; try reflexivity.
  all: try (destruct (Pos.compare_cont Eq ma mb) eqn:E'; simpl;
    try reflexivity;
    rewrite ?E, ?E', ?Z.compare_refl, ?Pos.compare_cont_refl;
    try reflexivity).
Qed.

(** X9.  When the caller gives no colour limit, the colorbar is never
    extended: the limits stay [None] for a quantity that is not
    divergent, and for a divergent one they are [-m] and [m], with [m]
    the larger of [abs(self.min)] and [abs(self.max)], which no value of
    the data exceeds, in binary64 comparison, NaN and infinities
    included. *)
Theorem limits_from_data_never_extend (divergent : bool)
    (self_min self_max : float) :
  let limits := color_limits divergent self_min self_max None None in
  extend_of self_min self_max (fst limits) (snd limits) = "neither"%string
  /\
  limits =
    if divergent
    then (Some (- py_max (abs self_min) (abs self_max))%float,
          Some (py_max (abs self_min) (abs self_max)))
    else (None, None).
Proof.
  cbv zeta. split; [|now destruct divergent].
  destruct divergent; [|reflexivity].
  unfold color_limits, extend_of, below, above, py_max. cbn [fst snd].
  pose proof (SFltb_max_abs_l (Prim2SF self_min) (Prim2SF self_max)) as Hl.
  pose proof (SFltb_max_abs_r (Prim2SF self_min) (Prim2SF self_max)) as Hr.
  rewrite (ltb_spec self_min), (ltb_spec _ self_max), opp_spec.
  rewrite (ltb_spec (abs self_min)), !abs_spec.
  destruct (SFltb (SFabs (Prim2SF self_min)) (SFabs (Prim2SF self_max)));
    rewrite abs_spec, Hl, Hr; reflexivity.
Qed.

(** ** [Image.plot] *)

Lemma list_index_nth (A : Type) (l : list A) (k : nat) (a : A) :
  nth_error l k = Some a ->
  list_index l (Z.of_nat k) = Returns a /\
  list_index l (Z.of_nat k - Z.of_nat (length l)) = Returns a.
Proof.
  intros H.
  assert (Hk : (k < length l)%nat) by (apply nth_error_Some; congruence).
  unfold list_index. split.
  - destruct (Z.of_nat k <? 0) eqn:E; [apply Z.ltb_lt in E; lia|].
    destruct (0 <=? Z.of_nat k) eqn:E0; [|apply Z.leb_gt in E0; lia].
    destruct (Z.of_nat k <? Z.of_nat (length l)) eqn:E1;
      [|apply Z.ltb_ge in E1; lia].
    simpl. now rewrite Nat2Z.id, H.
  - destruct (Z.of_nat k - Z.of_nat (length l) <? 0) eqn:E;
      [|apply Z.ltb_ge in E; lia].
    replace (Z.of_nat k - Z.of_nat (length l) + Z.of_nat (length l))
      with (Z.of_nat k) by lia.
    destruct (0 <=? Z.of_nat k) eqn:E0; [|apply Z.leb_gt in E0; lia].
    destruct (Z.of_nat k <? Z.of_nat (length l)) eqn:E1;
      [|apply Z.ltb_ge in E1; lia].
    simpl. now rewrite Nat2Z.id, H.
Qed.

Lemma list_index_out_of_range (A : Type) (l : list A) (i : Z) :
  i < - Z.of_nat (length l) \/ Z.of_nat (length l) <= i ->
  list_index l i = Raises (Exception IndexError).
Proof.
  intros H. unfold list_index.
  destruct (i <? 0) eqn:E;
    [apply Z.ltb_lt in E|apply Z.ltb_ge in E].
  - destruct (0 <=? i + Z.of_nat (length l)) eqn:E0;
      [apply Z.leb_le in E0; lia|reflexivity].
  - destruct (i <? Z.of_nat (length l)) eqn:E1;
      [apply Z.ltb_lt in E1; lia|].
    now rewrite andb_false_r.
Qed.

Lemma pbind_returns (E A B : Type) (a : A) (k : A -> Trace E B) :
  pbind (plift (Returns a)) k = k a.
Proof. unfold pbind, plift. now destruct (k a). Qed.

Lemma pbind_calls (E A B : Type) (calls : list E) (a : A)
    (k : A -> Trace E B) :
  pbind (calls, Returns a) k = (calls ++ fst (k a), snd (k a)).
Proof. unfold pbind. now destruct (k a). Qed.

(** Indices that select the patches [ps], one after the other. *)
Lemma plot_indexed_each (A : Type) (plot_patch : Patch.t -> Plot A)
    (all : list Patch.t) (indices : list Z) (ps : list Patch.t) :
  Forall2 (fun i patch => list_index all i = Returns patch) indices ps ->
  plot_indexed plot_patch all indices = plot_each plot_patch ps.
Proof.
  induction 1 as [|i patch indices ps Hi _ IH]; [reflexivity|].
  cbn [plot_indexed plot_each]. now rewrite Hi, IH, pbind_returns.
Qed.

Lemma range_selects_all (A : Type) (g : nat -> Z) (all : list A) :
  (forall k a, nth_error all k = Some a -> list_index all (g k) = Returns a) ->
  forall post pre,
  all = pre ++ post ->
  Forall2 (fun i a => list_index all i = Returns a)
    (map g (seq (length pre) (length post))) post.
Proof.
  intros Hg. induction post as [|a post IH]; intros pre Hall;
    [constructor|].
  simpl. constructor.
  - apply Hg. rewrite Hall, nth_error_app2, Nat.sub_diag by lia.
    reflexivity.
  - specialize (IH (pre ++ [a])). rewrite length_app in IH. simpl in IH.
    rewrite Nat.add_1_r in IH. apply IH. now rewrite <- app_assoc.
Qed.

(** X10.  [image.plot()] makes the calls and has the outcome of
    [image.plot(patches=range(n))], [n] being the number of patches of
    the image, and of [image.plot(patches=range(-n, 0))]: the patches in
    their order, each once. *)
Theorem Image_plot_all_patches (A : Type) (plot_patch : Patch.t -> Plot A)
    (self : Image.t) :
  let n := length (Image.patches self) in
  Image_plot plot_patch self (Some (map Z.of_nat (seq 0 n))) =
    Image_plot plot_patch self None /\
  Image_plot plot_patch self
    (Some (map (fun k => Z.of_nat k - Z.of_nat n) (seq 0 n))) =
    Image_plot plot_patch self None.
Proof.
  cbv zeta. unfold Image_plot. split; apply plot_indexed_each.
  - apply (@range_selects_all _ Z.of_nat (Image.patches self)
             (fun k a H => proj1 (list_index_nth _ k H))
             (Image.patches self) []).
    reflexivity.
  - apply (@range_selects_all _
             (fun k => Z.of_nat k - Z.of_nat (length (Image.patches self)))
             (Image.patches self)
             (fun k a H => proj2 (list_index_nth _ k H))
             (Image.patches self) []).
    reflexivity.
Qed.

(** X11.  An index that is no index of a patch (not in [-n, n)) ends
    [image.plot(patches=...)] with an exception: [IndexError] when the
    patches before it were plotted, after the calls that plotted them. *)
Theorem Image_plot_index_out_of_range (A : Type)
    (plot_patch : Patch.t -> Plot A) (self : Image.t)
    (before after : list Z) (i : Z) :
  let n := Z.of_nat (length (Image.patches self)) in
  i < - n \/ n <= i ->
  (exists r,
     snd (Image_plot plot_patch self (Some (before ++ i :: after)))
     = Raises r) /\
  (snd (Image_plot plot_patch self (Some before)) = Returns tt ->
   Image_plot plot_patch self (Some (before ++ i :: after)) =
     (fst (Image_plot plot_patch self (Some before)),
      Raises (Exception IndexError))).
Proof.
  cbv zeta. intros Hi. unfold Image_plot.
  apply list_index_out_of_range in Hi.
  induction before as [|j before [[r IHr] IH]]; cbn [plot_indexed app].
  - rewrite Hi. unfold plift, pbind, pret. simpl. eauto.
  - destruct (list_index (Image.patches self) j) as [patch|r'];
      [rewrite !pbind_returns
      |unfold plift, pbind; simpl; split; [eauto|discriminate]].
    destruct (plot_patch patch) as [calls [a|r']];
      [rewrite !pbind_calls
      |unfold pbind; simpl; split; [eauto|discriminate]].
    cbn [fst snd]. split; [eauto|].
    intros H. rewrite (IH H). reflexivity.
Qed.

(** * Coordinates of the configuration *)

(** The attribute plotted along each axis of a plane. *)
Lemma plot_coordinates_of_item_plane (code : Z) (item : ConfigItem) :
  0 <= code <= 2 ->
  plot_coordinates_of_item (Some code) item =
    match getattr item (if code =? 1 then "x"%string else "y"%string) with
    | None => Raises (Exception AttributeError)
    | Some x_ =>
        match getattr item (if code =? 2 then "x"%string else "z"%string) with
        | None => Raises (Exception AttributeError)
        | Some y_ => Returns (x_, y_)
        end
    end.
Proof.
  intros H. assert (E : code = 0 \/ code = 1 \/ code = 2) by lia.
  destruct E as [->|[->| ->]]; unfold plot_coordinates_of_item, item_attr;
    simpl; repeat destruct (getattr _ _); reflexivity.
Qed.

Lemma plot_coordinates_loop_plane (code : Z) (items : list ConfigItem) :
  0 <= code <= 2 ->
  forall x y,
  match plot_coordinates_loop (Some code) items x y with
  | Returns (x', y') =>
      exists xs ys,
        x' = x ++ xs /\ y' = y ++ ys /\
        attr_values (if code =? 1 then "x"%string else "y"%string) items
        = map Some xs /\
        attr_values (if code =? 2 then "x"%string else "z"%string) items
        = map Some ys
  | Raises r =>
      r = Exception AttributeError /\
      exists item,
        In item items /\
        (getattr item (if code =? 1 then "x"%string else "y"%string) = None \/
         getattr item (if code =? 2 then "x"%string else "z"%string) = None)
  end.
Proof.
  intros Hcode. induction items as [|item items IH]; intros x y.
  - simpl. exists [], []. now rewrite !app_nil_r.
  - cbn [plot_coordinates_loop].
    rewrite plot_coordinates_of_item_plane by exact Hcode.
    destruct (getattr item (if code =? 1 then _ else _)) as [x_|] eqn:Ex;
      [|split; [reflexivity|exists item; simpl; auto]].
    destruct (getattr item (if code =? 2 then _ else _)) as [y_|] eqn:Ey;
      [|split; [reflexivity|exists item; simpl; auto]].
    specialize (IH (x ++ [x_]) (y ++ [y_])).
    destruct (plot_coordinates_loop _ _ _ _) as [[x' y']|r].
    + destruct IH as (xs & ys & -> & -> & Hx & Hy).
      exists (x_ :: xs), (y_ :: ys). rewrite <- !app_assoc. simpl.
      now rewrite Ex, Ey, Hx, Hy.
    + destruct IH as (-> & item' & Hin & H). split; [reflexivity|].
      exists item'. simpl. auto.
Qed.

Lemma plot_coordinates_loop_length (plane : option Z)
    (items : list ConfigItem) :
  forall x y x' y',
  plot_coordinates_loop plane items x y = Returns (x', y') ->
  length x' = (length x + length items)%nat.
Proof.
  induction items as [|item items IH]; intros x y x' y' H; simpl in H.
  - inversion H. simpl. lia.
  - destruct (plot_coordinates_of_item plane item) as [[x_ y_]|r];
      [|discriminate].
    apply IH in H. rewrite length_app in H. simpl in *. lia.
Qed.

Lemma plot_coordinates_loop_unbound (plane : option Z)
    (items : list ConfigItem) (x y : list string) :
  axis_labels plane = None -> items <> [] ->
  plot_coordinates_loop plane items x y = Raises (UnboundLocalError "x_").
Proof.
  intros Hplane Hitems. destruct items as [|item items]; [congruence|].
  simpl. unfold plot_coordinates_of_item.
  destruct plane as [[|[[]|[]|]|]|]; try reflexivity; discriminate.
Qed.

(** X12.  In a plane of code 0, 1 or 2, the coordinates found for a key
    of the configuration that has items are, item by item and in the
    order of the items, the attribute named by the label of the
    horizontal axis ([y], or [x] in the plane 1) and the attribute named
    by the label of the vertical axis ([z], or [x] in the plane 2); the
    call raises [AttributeError] exactly when an item has not both, and
    never returns [None]. *)
Theorem plot_coordinates_in_plane (self : Image.t) (key : string)
    (config : Config) (code : Z) :
  Image._config self = Some config ->
  get_items config key <> [] ->
  Image._plane self = Some code ->
  0 <= code <= 2 ->
  let items := get_items config key in
  let horizontal := (if code =? 1 then "x"%string else "y"%string) in
  let vertical := (if code =? 2 then "x"%string else "z"%string) in
  match _get_plot_coordinates_from_config self key with
  | Returns (Some (xs, ys)) =>
      attr_values horizontal items = map Some xs /\
      attr_values vertical items = map Some ys
  | Returns None => False
  | Raises r =>
      r = Exception AttributeError /\
      exists item,
        In item items /\
        (getattr item horizontal = None \/ getattr item vertical = None)
  end.
Proof.
  intros Hconfig Hitems Hplane Hcode. cbv zeta.
  unfold _get_plot_coordinates_from_config. rewrite Hconfig, Hplane.
  destruct config as [|entry config]; [now elim Hitems|].
  destruct (get_items (entry :: config) key) as [|item items] eqn:E;
    [now elim Hitems|].
  pose proof (plot_coordinates_loop_plane (item :: items) Hcode [] []) as H.
  pose proof (@plot_coordinates_loop_length (Some code) (item :: items)
                [] []) as Hlen.
  destruct (plot_coordinates_loop _ _ _ _) as [[x' y']|r]; [|exact H].
  destruct H as (xs & ys & -> & -> & Hx & Hy). simpl in *.
  specialize (Hlen _ _ eq_refl).
  destruct xs as [|x_ xs]; [simpl in Hlen; lia|]. now split.
Qed.

(** X13.  [_get_plot_coordinates_from_config] returns [None] exactly
    when there is no configuration (none, or an empty one) or the
    configuration has nothing under the key, whatever the plane. *)
Theorem no_plot_coordinates_iff (self : Image.t) (key : string) :
  _get_plot_coordinates_from_config self key = Returns None <->
  config_given (Image._config self) = false \/
  exists config,
    Image._config self = Some config /\ get_items config key = [].
Proof.
  unfold _get_plot_coordinates_from_config, config_given.
  destruct (Image._config self) as [[|entry config]|];
    [split; auto| |split; auto].
  destruct (get_items (entry :: config) key) as [|item items] eqn:E.
  - split; [|reflexivity]. intros _. right.
    exists (entry :: config). auto.
  - pose proof (@plot_coordinates_loop_length (Image._plane self)
                  (item :: items) [] []) as Hlen.
    split.
    + destruct (plot_coordinates_loop _ _ _ _) as [[x' y']|r];
        [|discriminate].
      specialize (Hlen _ _ eq_refl).
      destruct x'; [simpl in Hlen; lia|discriminate].
    + intros [H|(config' & Hc & Hi)]; [discriminate|].
      inversion Hc; subst. congruence.
Qed.

(** X14.  Outside the planes 0, 1 and 2 (also before any header has been
    read, when the plane is [None]) a key of the configuration that has
    items cannot be located: the call raises [UnboundLocalError] on
    [x_], whatever the items hold. *)
Theorem plot_coordinates_unbound (self : Image.t) (key : string)
    (config : Config) :
  Image._config self = Some config ->
  get_items config key <> [] ->
  axis_labels (Image._plane self) = None ->
  _get_plot_coordinates_from_config self key =
    Raises (UnboundLocalError "x_").
Proof.
  intros Hconfig Hitems Hplane.
  unfold _get_plot_coordinates_from_config. rewrite Hconfig.
  destruct config as [|entry config]; [now elim Hitems|].
  destruct (get_items (entry :: config) key) as [|item items] eqn:E;
    [now elim Hitems|].
  now rewrite plot_coordinates_loop_unbound.
Qed.

(** * From the file to the plot *)

Section Whole.

Variable SW4_IMAGE_HEADER_DTYPE : dtype ImageHeader.
Variable SW4_PATCH_HEADER_DTYPE : dtype PatchHeader.
Variable SW4_IMAGE_PRECISION : Z -> option positive.
Variable SW4_SOURCE_TIME_FUNCTION_TYPE : string -> option Z.
Variable read_input_file : string -> result Config.
Variable random_samples : list item.
Variable mode_entries : mode_dict -> Z -> option ModeEntry.t.
Variable SW4_IMAGE_PLANE : Z -> option string.
Variable MPL_SCATTER_PROPERTIES : list string.

Local Abbreviation Image_init :=
  (Image_init SW4_SOURCE_TIME_FUNCTION_TYPE read_input_file).
Local Abbreviation decode :=
  (decode SW4_IMAGE_HEADER_DTYPE SW4_PATCH_HEADER_DTYPE SW4_IMAGE_PRECISION).
Local Abbreviation file_header := (file_header SW4_IMAGE_HEADER_DTYPE).
Local Abbreviation read_SW4_image :=
  (read_SW4_image SW4_IMAGE_HEADER_DTYPE SW4_PATCH_HEADER_DTYPE
     SW4_IMAGE_PRECISION SW4_SOURCE_TIME_FUNCTION_TYPE read_input_file
     random_samples).
Local Abbreviation mode_entry := (mode_entry mode_entries).
Local Abbreviation _cmap_type := (_cmap_type mode_entries).
Local Abbreviation is_divergent := (is_divergent mode_entries).
Local Abbreviation quantity_name := (quantity_name mode_entries).
Local Abbreviation quantity_symbol := (quantity_symbol mode_entries).
Local Abbreviation quantity_unit := (quantity_unit mode_entries).
Local Abbreviation plane := (plane SW4_IMAGE_PLANE).
Local Abbreviation Patch_plot :=
  (Patch_plot mode_entries SW4_IMAGE_PLANE MPL_SCATTER_PROPERTIES).

(** What the constructor leaves of the configuration. *)
Lemma Image_init_config (config : option config_arg) (stf : option string)
    (ev : list event) (image : Image.t) :
  Image_init config stf = (ev, Ok image) ->
  Image._plane image = None /\
  (config_given (Image._config image) = true ->
   exists c source0 sources,
     Image._config image = Some c /\
     getattr c "source" = Some (source0 :: sources)) /\
  (config = None -> Image._config image = None).
Proof.
  unfold Image_init.
  destruct (parse_config read_input_file config) as [c|e] eqn:Hparse;
    [|discriminate].
  assert (Hnone : config = None -> c = None).
  { intros ->. simpl in Hparse. congruence. }
  destruct (config_given c) eqn:Hgiven.
  - destruct (source_time_function_type SW4_SOURCE_TIME_FUNCTION_TYPE c)
      as [stf_|e] eqn:Hstf; [|discriminate].
    pose proof (finish_init_cases c stf_) as HF. intros H.
    inversion H as [[Hev Himage]]. rewrite Himage in HF.
    destruct HF as (_ & _ & Hc & _ & _ & _ & _ & Hplane & _).
    rewrite Hc. split; [exact Hplane|]. split; [|exact Hnone].
    intros _. unfold source_time_function_type in Hstf.
    destruct c as [[|entry c]|]; try discriminate.
    destruct (getattr (entry :: c) "source") as [[|source0 sources]|]
      eqn:Hs; try discriminate.
    do 3 eexists. split; [reflexivity|exact Hs].
  - pose proof (finish_init_cases c stf) as HF. intros H.
    inversion H as [[Hev Himage]]. rewrite Himage in HF.
    destruct HF as (_ & _ & Hc & _ & _ & _ & _ & Hplane & _).
    rewrite Hc, Hgiven. split; [exact Hplane|]. split; [discriminate|].
    exact Hnone.
Qed.

(** X15.  An image that has not read a file (from [Image(...)], or from
    [read_SW4_image(None, ...)]) has no plane: [get_source_coordinates]
    returns [None] when it was made without configuration, and raises
    [UnboundLocalError] whenever it was made with one, as the constructor
    only accepts a configuration that has a source. *)
Theorem source_coordinates_before_reading (config : option config_arg)
    (stf : option string) (ev : list event) (image : Image.t) :
  Image_init config stf = (ev, Ok image) ->
  get_source_coordinates image =
    if config_given (Image._config image)
    then Raises (UnboundLocalError "x_")
    else Returns None.
Proof.
  intros H. apply Image_init_config in H.
  destruct H as (Hplane & Hsource & _).
  unfold get_source_coordinates, _get_plot_coordinates_from_config.
  destruct (config_given (Image._config image)) eqn:Hgiven.
  - destruct (Hsource eq_refl) as (c & source0 & sources & Hc & Hs).
    rewrite Hc in *. unfold get_items. rewrite Hs.
    destruct c as [|entry c]; [discriminate|].
    rewrite plot_coordinates_loop_unbound;
      [reflexivity|now rewrite Hplane|discriminate].
  - unfold config_given in Hgiven.
    destruct (Image._config image) as [[|entry c]|];
      [reflexivity|discriminate|reflexivity].
Qed.

(** The image that reading a file returns. *)
Lemma read_SW4_image_result (fs : string -> option (list byte))
    (name : string) (config : option config_arg) (stf : option string)
    (ev : list event) (image : Image.t) :
  read_SW4_image fs (Some (Str name)) config stf = (ev, Ok image) ->
  exists ev0 image0 content ps,
    Image_init config stf = (ev0, Ok image0) /\
    fs name = Some content /\
    image =
      add_patches ps
        (set_header_fields (file_header content)
           (set_filename (Some name) image0)).
Proof.
  intros H. unfold read_SW4_image in H.
  destruct (Image_init config stf) as [ev0 [image0|e]]; [|discriminate].
  cbv zeta in H. cbn [option_map chars] in H.
  destruct (fs name) as [content|]; [|discriminate].
  destruct (decode (set_filename (Some name) image0) content)
    as [[[]|e] s] eqn:Hdecode; [|discriminate].
  inversion H; subst.
  pose proof (decode_ok_header _ _ _ _ _ Hdecode) as Hlen.
  rewrite (decode_eq _ _ _ _ content Hlen) in Hdecode.
  apply for_patch_info_partial in Hdecode.
  destruct Hdecode as (ps & Hs & _).
  exists ev0, image0, content, ps. auto.
Qed.

(** X16.  What an image read from a file says of its quantity and of its
    plane is the entry of the mode code of the file in the mode table
    that the constructor chose, and the label of the plane code of the
    file; the codes are not checked while reading, and a code without
    entry makes the accessors raise [KeyError] afterwards.  The file
    name, the configuration and the mode table are those of the
    constructor. *)
Theorem read_image_metadata (fs : string -> option (list byte))
    (name : string) (config : option config_arg) (stf : option string)
    (ev : list event) (image : Image.t) :
  read_SW4_image fs (Some (Str name)) config stf = (ev, Ok image) ->
  exists ev0 image0 content,
    Image_init config stf = (ev0, Ok image0) /\
    fs name = Some content /\
    Image.filename image = Some name /\
    Image._config image = Image._config image0 /\
    Image._mode_dict image = Image._mode_dict image0 /\
    let header := file_header content in
    let entry := mode_entries (Image._mode_dict image0) (hd_mode header) in
    let field (A : Type) (f : ModeEntry.t -> A) :=
      match entry with
      | Some e => Ok (f e)
      | None => Raise KeyError
      end in
    quantity_name image = field _ ModeEntry.name /\
    quantity_symbol image = field _ ModeEntry.symbol /\
    quantity_unit image = field _ ModeEntry.unit /\
    is_divergent image =
      field _ (fun e =>
                 String.eqb (ModeEntry.cmap_type e) "divergent"
                 || String.eqb (ModeEntry.cmap_type e) "divergent_r") /\
    plane image =
      match SW4_IMAGE_PLANE (hd_plane header) with
      | Some label => Ok label
      | None => Raise KeyError
      end /\
    Image.time image = Some (hd_time header).
Proof.
  intros H.
  destruct (read_SW4_image_result _ _ _ _ H)
    as (ev0 & image0 & content & ps & Hinit & Hfs & ->).
  exists ev0, image0, content. repeat split; auto.
  all: unfold quantity_name, quantity_symbol, quantity_unit, is_divergent,
    _cmap_type, mode_entry; simpl;
    now destruct (mode_entries _ _).
Qed.

(** X17.  After [read_SW4_image] on a file, without configuration,
    [patch.plot()] (with or without colour limits, colorbar, label and
    colour map) returns for a patch of the image exactly when the plane
    code of the file is 0, 1 or 2 and has a label, and its mode code has
    an entry in the mode table, with a colour map type that [Image.CMAP]
    knows unless a colour map is passed. *)
Theorem read_then_plot (fs : string -> option (list byte))
    (name : string) (stf : option string)
    (ev : list event) (image : Image.t) (content : list byte)
    (patch : Patch.t) (self_min self_max : float)
    (vmin vmax : option float) (colorbar : bool)
    (colorbar_label : option string) (cmap : option string) :
  fs name = Some content ->
  read_SW4_image fs (Some (Str name)) None stf = (ev, Ok image) ->
  let header := file_header content in
  snd (Patch_plot (Some image) patch self_min self_max None vmin vmax
         colorbar colorbar_label cmap) =
    Returns (new_figure, new_axes,
             if colorbar then Some new_colorbar else None)
  <->
  0 <= hd_plane header <= 2 /\
  SW4_IMAGE_PLANE (hd_plane header) <> None /\
  exists entry,
    mode_entries (Image._mode_dict image) (hd_mode header) = Some entry /\
    (cmap = None -> exists c, CMAP (ModeEntry.cmap_type entry) = Ok c).
Proof.
  intros Hfs H. cbv zeta.
  destruct (read_SW4_image_result _ _ _ _ H)
    as (ev0 & image0 & content' & ps & Hinit & Hfs' & ->).
  assert (content' = content) by congruence. subst content'.
  apply Image_init_config in Hinit. destruct Hinit as (_ & _ & Hnone).
  specialize (Hnone eq_refl).
  rewrite (proj2 (Patch_plot_outcome mode_entries SW4_IMAGE_PLANE
                    MPL_SCATTER_PROPERTIES _ patch self_min self_max None
                    vmin vmax colorbar colorbar_label cmap)).
  simpl Image._mode_dict. split.
  - intros (_ & im & Him & (entry & He & Hc) & _ & (code & Hp & Hcode)
            & (label & Hl) & _).
    inversion Him; subst im. simpl in Hp. inversion Hp; subst code.
    unfold mode_entry in He. simpl in He.
    unfold plane in Hl. simpl in Hl.
    split; [exact Hcode|].
    split; [destruct (SW4_IMAGE_PLANE _); congruence|].
    destruct (mode_entries _ _) as [e|]; [|discriminate].
    inversion He; subst. eauto.
  - intros (Hcode & Hlabel & entry & He & Hc).
    split; [reflexivity|]. eexists. split; [reflexivity|].
    unfold mode_entry, plane. simpl. rewrite He, Hnone.
    split; [exists entry; split; [reflexivity|exact Hc]|].
    split; [discriminate|].
    split; [exists (hd_plane (file_header content)); auto|].
    split; [|discriminate].
    destruct (SW4_IMAGE_PLANE _) as [label|]; [eauto|congruence].
Qed.

(** The patch of a random image. *)
Lemma read_random_patches (fs : string -> option (list byte))
    (config : option config_arg) (stf : option string)
    (ev : list event) (image : Image.t) :
  read_SW4_image fs (Some the_literal_random) config stf = (ev, Ok image) ->
  Image.patches image = [_create_random_SW4_patch random_samples].
Proof.
  unfold read_SW4_image, _create_random_SW4_image.
  destruct (Image_init config stf) as [ev0 [image0|e]]; [|discriminate].
  cbv zeta.
  destruct (Image_init None stf) as [ev1 [image1|e]]; [|discriminate].
  intros H. inversion H. reflexivity.
Qed.

(** X18.  A random image cannot be plotted: its patch is built without
    the image ([Patch()]), and [image.plot()] raises [AttributeError] on
    the first attribute of [self._image] that [Patch.plot] reads, before
    anything is drawn, whatever the arguments. *)
Theorem random_image_plot_raises (fs : string -> option (list byte))
    (config : option config_arg) (stf : option string)
    (ev : list event) (image : Image.t)
    (statistics : Patch.t -> float * float) (ax : option string)
    (vmin vmax : option float) (colorbar : bool)
    (colorbar_label : option string) (cmap : option string) :
  read_SW4_image fs (Some the_literal_random) config stf = (ev, Ok image) ->
  let plot_patch (patch : Patch.t) :=
    Patch_plot None patch (fst (statistics patch)) (snd (statistics patch))
      ax vmin vmax colorbar colorbar_label cmap in
  snd (Image_plot plot_patch image None) = Raises (Exception AttributeError)
  /\
  forall call,
    In call (fst (Image_plot plot_patch image None)) ->
    call = plt_subplots \/ call = set_aspect.
Proof.
  intros H. apply read_random_patches in H. cbv zeta.
  unfold Image_plot. rewrite H. cbn [plot_each].
  unfold Patch_plot.
  destruct ax, cmap; plot_simpl; (split; [reflexivity|]);
    simpl; intros call Hin; intuition auto.
Qed.

End Whole.

(** ** What is drawn *)

Lemma scatter_each_no_imshow (image : Image.t) (keys : list string)
    (data : option ndarray)
    (extent : option (float * float * float * float))
    (vmin vmax : option float) (cmap : colormap) :
  ~ In (imshow data extent vmin vmax cmap) (fst (scatter_each image keys)).
Proof.
  induction keys as [|key keys IH]; [intros []|].
  cbn [scatter_each]. rewrite fst_pbind. unfold plift. cbn [fst snd].
  destruct (_get_plot_coordinates_from_config image key) as [[[x y]|]|r];
    [|exact IH|intros []].
  rewrite !fst_pbind. unfold call. cbn [fst snd app].
  intros [H|[H|H]]; [discriminate|discriminate|]. now apply IH.
Qed.

Ltac draw_peel :=
  lazymatch goal with
  | |- In _ (_ :: _) -> _ =>
      let H := fresh "H" in
      intros [H|H]; [try discriminate H|revert H]
  | |- In _ [] -> _ => intros []
  | |- In _ (fst (scatter_each _ _) ++ _) -> _ =>
      let H := fresh "H" in
      intros H; apply in_app_or in H; destruct H as [H|H];
      [now apply scatter_each_no_imshow in H|revert H]
  | |- In _ (fst (scatter_each _ _)) -> _ =>
      let H := fresh "H" in
      intros H; now apply scatter_each_no_imshow in H
  end.

Ltac draw_case :=
  lazymatch goal with
  | |- In _ (match ?x with _ => _ end) -> _ => find_case x
  | |- In _ (fst (match ?x with _ => _ end)) -> _ => find_case x
  | |- In _ (fst (match ?x with _ => _ end) ++ _) -> _ => find_case x
  | |- In _ (match ?x with _ => _ end ++ _) -> _ => find_case x
  end.

Ltac draw_simpl :=
  repeat progress
    (rewrite ?snd_pbind, ?fst_pbind, <- ?app_assoc;
     unfold call, pret, praise, plift, the_image;
     cbn [snd fst outcome_of app]).

Ltac draw_crack := repeat (draw_simpl; first [draw_peel|draw_case]).

Section Drawn.

Variable mode_entries : mode_dict -> Z -> option ModeEntry.t.
Variable SW4_IMAGE_PLANE : Z -> option string.
Variable MPL_SCATTER_PROPERTIES : list string.

Local Abbreviation mode_entry := (mode_entry mode_entries).
Local Abbreviation is_divergent := (is_divergent mode_entries).
Local Abbreviation Patch_plot :=
  (Patch_plot mode_entries SW4_IMAGE_PLANE MPL_SCATTER_PROPERTIES).

(** What [Patch.plot] hands to [imshow]. *)
Lemma Patch_plot_imshow (image : option Image.t) (self : Patch.t)
    (self_min self_max : float) (ax : option string)
    (vmin vmax : option float) (colorbar : bool)
    (colorbar_label : option string) (cmap : option string)
    (data : option ndarray)
    (extent : option (float * float * float * float))
    (lo hi : option float) (colours : colormap) :
  In (imshow data extent lo hi colours)
    (fst (Patch_plot image self self_min self_max ax vmin vmax colorbar
            colorbar_label cmap)) ->
  data = Patch.data self /\ extent = Patch.extent self /\
  exists im divergent,
    image = Some im /\ is_divergent im = Ok divergent /\
    (lo, hi) = color_limits divergent self_min self_max vmin vmax.
Proof.
  unfold Patch_plot, is_divergent, _cmap_type, quantity_name,
    quantity_unit.
  draw_crack;
    match goal with
    | H : imshow _ _ _ _ _ = imshow _ _ _ _ _ |- _ =>
        inversion H; subst; clear H
    end;
    repeat match goal with
           | H : Ok _ = Ok _ |- _ => inversion H; subst; clear H
           end;
    (split; [reflexivity|]); (split; [reflexivity|]);
    eexists; eexists; (split; [reflexivity|]);
    match goal with
    | H : mode_entry _ = Ok _ |- _ => rewrite H
    end;
    (split; [reflexivity|]); symmetry; assumption.
Qed.

(** The limits of the caller pass through [color_limits]. *)
Lemma color_limits_given (divergent : bool) (self_min self_max : float)
    (vmin vmax : option float) :
  vmin <> None \/ vmax <> None ->
  color_limits divergent self_min self_max vmin vmax = (vmin, vmax).
Proof.
  intros H. unfold color_limits.
  destruct divergent, vmin, vmax; try reflexivity.
  destruct H; congruence.
Qed.

(** X23.  What [Patch.plot] draws.  Every call of [imshow] that it makes
    is on the data and the extent of the patch; a colour limit that the
    caller passes is handed over as it is, together with the other one,
    also for a divergent quantity; without any, the limits are [None] or
    opposite to each other. *)
Theorem Patch_plot_draws_the_patch (image : option Image.t)
    (self : Patch.t) (self_min self_max : float) (ax : option string)
    (vmin vmax : option float) (colorbar : bool)
    (colorbar_label : option string) (cmap : option string)
    (data : option ndarray)
    (extent : option (float * float * float * float))
    (lo hi : option float) (colours : colormap) :
  In (imshow data extent lo hi colours)
    (fst (Patch_plot image self self_min self_max ax vmin vmax colorbar
            colorbar_label cmap)) ->
  data = Patch.data self /\ extent = Patch.extent self /\
  (vmin <> None \/ vmax <> None -> lo = vmin /\ hi = vmax) /\
  (vmin = None -> vmax = None ->
   (lo = None /\ hi = None) \/
   exists m, lo = Some (- m)%float /\ hi = Some m).
Proof.
  intros H. apply Patch_plot_imshow in H.
  destruct H as (Hdata & Hextent & im & divergent & _ & _ & Hlimits).
  split; [exact Hdata|]. split; [exact Hextent|]. split.
  - intros Hgiven. rewrite color_limits_given in Hlimits by exact Hgiven.
    now inversion Hlimits.
  - intros -> ->. unfold color_limits in Hlimits.
    destruct divergent; inversion Hlimits; eauto.
Qed.

End Drawn.

(** * The movie *)

Lemma substring_whole (s : string) :
  String.substring 0 (String.length s) s = s.
Proof. induction s as [|a s IH]; simpl; [reflexivity|now rewrite IH]. Qed.

Lemma substring_suffix (s t : string) :
  String.substring (String.length s) (String.length t) (s ++ t)%string = t.
Proof.
  induction s as [|a s IH]; simpl; [apply substring_whole|exact IH].
Qed.

Lemma length_append (s t : string) :
  String.length (s ++ t)%string = (String.length s + String.length t)%nat.
Proof. induction s as [|a s IH]; simpl; [reflexivity|now rewrite IH]. Qed.

Lemma endswith_append (s t : string) : endswith (s ++ t)%string t = true.
Proof.
  unfold endswith. rewrite length_append.
  replace (String.length s + String.length t - String.length t)%nat
    with (String.length s) by lia.
  rewrite substring_suffix, String.eqb_refl.
  apply andb_true_iff. split; [apply Nat.leb_le; lia|reflexivity].
Qed.

Lemma endswith_output_path (name : string) :
  endswith (output_path name) ".mp4" = true.
Proof.
  unfold output_path. destruct (endswith name ".mp4") eqn:E; [exact E|].
  apply endswith_append.
Qed.

Lemma pbind_pret (E A B : Type) (a : A) (k : A -> Trace E B) :
  pbind (pret a) k = k a.
Proof. unfold pbind, pret. now destruct (k a). Qed.

Section MovieProperties.

Variable SW4_IMAGE_HEADER_DTYPE : dtype ImageHeader.
Variable SW4_PATCH_HEADER_DTYPE : dtype PatchHeader.
Variable SW4_IMAGE_PRECISION : Z -> option positive.
Variable SW4_SOURCE_TIME_FUNCTION_TYPE : string -> option Z.
Variable read_input_file : string -> result Config.
Variable random_samples : list item.
Variable mode_entries : mode_dict -> Z -> option ModeEntry.t.
Variable SW4_IMAGE_PLANE : Z -> option string.
Variable MPL_SCATTER_PROPERTIES : list string.
Variable statistics : Patch.t -> float * float.
Variable fs : string -> option (list byte).
Variable path_exists : string -> bool.
Variable removable : string -> bool.
Variable backend : string.
Variable ffmpeg_available : bool.

Local Abbreviation read_frame :=
  (read_frame SW4_IMAGE_HEADER_DTYPE SW4_PATCH_HEADER_DTYPE
     SW4_IMAGE_PRECISION SW4_SOURCE_TIME_FUNCTION_TYPE read_input_file
     random_samples fs).
Local Abbreviation limits_loop :=
  (limits_loop SW4_IMAGE_HEADER_DTYPE SW4_PATCH_HEADER_DTYPE
     SW4_IMAGE_PRECISION SW4_SOURCE_TIME_FUNCTION_TYPE read_input_file
     random_samples statistics fs).
Local Abbreviation global_limits :=
  (global_limits SW4_IMAGE_HEADER_DTYPE SW4_PATCH_HEADER_DTYPE
     SW4_IMAGE_PRECISION SW4_SOURCE_TIME_FUNCTION_TYPE read_input_file
     random_samples mode_entries statistics fs).
Local Abbreviation frames_loop :=
  (frames_loop SW4_IMAGE_HEADER_DTYPE SW4_PATCH_HEADER_DTYPE
     SW4_IMAGE_PRECISION SW4_SOURCE_TIME_FUNCTION_TYPE read_input_file
     random_samples mode_entries SW4_IMAGE_PLANE MPL_SCATTER_PROPERTIES
     statistics fs).
Local Abbreviation plot_frame :=
  (plot_frame mode_entries SW4_IMAGE_PLANE MPL_SCATTER_PROPERTIES
     statistics).
Local Abbreviation check_output := (check_output path_exists removable).
Local Abbreviation image_files_to_movie :=
  (image_files_to_movie SW4_IMAGE_HEADER_DTYPE SW4_PATCH_HEADER_DTYPE
     SW4_IMAGE_PRECISION SW4_SOURCE_TIME_FUNCTION_TYPE read_input_file
     random_samples mode_entries SW4_IMAGE_PLANE MPL_SCATTER_PROPERTIES
     statistics fs path_exists removable backend ffmpeg_available).

(** One turn of the second loop, step by step. *)
Lemma frames_loop_cons (config : option config_arg) (stf : option string)
    (patch_number : Z) (kwargs : plot_kwargs) (file_ : str)
    (files : list str) (string_io : list png) :
  frames_loop config stf patch_number kwargs (file_ :: files) string_io =
    match read_frame config stf patch_number file_ with
    | Raises r => ([], Raises r)
    | Returns (_, patch, link) =>
        let drawing := plot_frame kwargs link patch in
        match snd drawing with
        | Raises r => ([patch_plot (fst drawing)], Raises r)
        | Returns (fig, _, _) =>
            let rest :=
              frames_loop config stf patch_number kwargs files
                (string_io
                 ++ [{| png_figure := fig; png_drawn := fst drawing |}]) in
            (patch_plot (fst drawing) :: savefig :: plt_close :: fst rest,
             snd rest)
        end
    end.
Proof.
  cbn [frames_loop].
  destruct (read_frame config stf patch_number file_)
    as [[[image patch] link]|r]; [|reflexivity].
  rewrite pbind_returns. cbv zeta. unfold lift_plot.
  destruct (snd (plot_frame kwargs link patch)) as [[[fig ax] cb]|r];
    [|reflexivity].
  rewrite pbind_calls. unfold fig_savefig. rewrite pbind_calls.
  unfold call. rewrite pbind_calls. reflexivity.
Qed.

(** The frames loop makes calls of frames only. *)
Lemma frames_loop_calls (config : option config_arg) (stf : option string)
    (patch_number : Z) (kwargs : plot_kwargs) (files : list str) :
  forall string_io,
  Forall (fun c => is_frame_call c = true)
    (fst (frames_loop config stf patch_number kwargs files string_io)).
Proof.
  induction files as [|file_ files IH]; intros string_io; [constructor|].
  rewrite frames_loop_cons.
  destruct (read_frame config stf patch_number file_)
    as [[[image patch] link]|r]; [|constructor].
  cbv zeta.
  destruct (snd (plot_frame kwargs link patch)) as [[[fig ax] cb]|r].
  - repeat constructor. apply IH.
  - repeat constructor.
Qed.

(** What [string_io] holds after the loop: what it held before, followed
    by one picture for each file, in order, each being the picture of
    the call of [patch.plot] of its turn. *)
Lemma frames_loop_string_io (config : option config_arg)
    (stf : option string) (patch_number : Z) (kwargs : plot_kwargs)
    (files : list str) :
  forall string_io png_data,
  snd (frames_loop config stf patch_number kwargs files string_io)
  = Returns png_data ->
  map png_drawn png_data =
    map png_drawn string_io
    ++ plotted (fst (frames_loop config stf patch_number kwargs files
                       string_io)) /\
  length png_data = (length string_io + length files)%nat.
Proof.
  induction files as [|file_ files IH]; intros string_io png_data.
  - cbn. intros H. inversion H; subst. rewrite app_nil_r. split; [auto|lia].
  - rewrite frames_loop_cons.
    destruct (read_frame config stf patch_number file_)
      as [[[image patch] link]|r]; [|discriminate].
    cbv zeta.
    destruct (snd (plot_frame kwargs link patch)) as [[[fig ax] cb]|r];
      [|discriminate].
    cbn [fst snd]. intros H. apply IH in H. destruct H as [Hd Hl].
    rewrite Hd, Hl, map_app, length_app, <- app_assoc. cbn.
    split; [reflexivity|lia].
Qed.

(** The call, step by step. *)
Lemma image_files_to_movie_eq (files : list str)
    (output_filename : string) (config : option config_arg)
    (stf : option string) (patch_number frames_per_second : Z)
    (overwrite global_colorlimits : bool) (kwargs : plot_kwargs) :
  image_files_to_movie files output_filename config stf patch_number
    frames_per_second overwrite global_colorlimits kwargs =
  match check_output overwrite output_filename with
  | (pre, Raises r) => (pre, Raises r)
  | (pre, Returns output) =>
      match
        (if global_colorlimits then
           match global_limits config stf patch_number files with
           | Raises r => Raises r
           | Returns limits =>
               Returns (with_limits kwargs (fst limits) (snd limits))
           end
         else Returns kwargs)
      with
      | Raises r => (pre, Raises r)
      | Returns kwargs' =>
          let frames :=
            frames_loop config stf patch_number kwargs' files [] in
          match snd frames with
          | Raises r =>
              (pre ++ switch_backend "AGG" :: fst frames
               ++ [switch_backend backend], Raises r)
          | Returns png_data =>
              if ffmpeg_available then
                (pre ++ switch_backend "AGG" :: fst frames
                 ++ [run_ffmpeg output frames_per_second png_data;
                     switch_backend backend], Returns tt)
              else
                (pre ++ switch_backend "AGG" :: fst frames
                 ++ [switch_backend backend], Raises OSError)
          end
      end
  end.
Proof.
  unfold image_files_to_movie.
  destruct (check_output overwrite output_filename) as [pre [output|r]];
    [|reflexivity].
  rewrite pbind_calls.
  assert (Hbody : forall kwargs',
    try_finally
      (call (switch_backend "AGG");;;;
       png_data <-- frames_loop config stf patch_number kwargs' files [] ;;
       (if ffmpeg_available
        then call (run_ffmpeg output frames_per_second png_data)
        else praise OSError))
      (switch_backend backend) =
    match snd (frames_loop config stf patch_number kwargs' files []) with
    | Raises r =>
        (switch_backend "AGG"
         :: fst (frames_loop config stf patch_number kwargs' files [])
         ++ [switch_backend backend], Raises r)
    | Returns png_data =>
        if ffmpeg_available then
          (switch_backend "AGG"
           :: fst (frames_loop config stf patch_number kwargs' files [])
           ++ [run_ffmpeg output frames_per_second png_data;
               switch_backend backend], Returns tt)
        else
          (switch_backend "AGG"
           :: fst (frames_loop config stf patch_number kwargs' files [])
           ++ [switch_backend backend], Raises OSError)
    end).
  { intros kwargs'. unfold try_finally.
    rewrite fst_pbind, snd_pbind. unfold call at 1 2 3. cbn [fst snd].
    rewrite fst_pbind, snd_pbind.
    destruct (snd (frames_loop _ _ _ _ _ _)) as [png_data|r];
      [destruct ffmpeg_available|]; cbn [fst snd praise call];
      rewrite ?app_nil_r, <- ?app_assoc; cbn [app]; reflexivity. }
  destruct global_colorlimits;
    [destruct (global_limits config stf patch_number files) as [limits|r]|].
  - rewrite pbind_returns, pbind_pret, Hbody.
    destruct (snd (frames_loop _ _ _ _ _ _)) as [png_data|r];
      [destruct ffmpeg_available|]; reflexivity.
  - unfold plift, pbind. cbn. now rewrite app_nil_r.
  - rewrite pbind_pret, Hbody.
    destruct (snd (frames_loop _ _ _ _ _ _)) as [png_data|r];
      [destruct ffmpeg_available|]; reflexivity.
Qed.

(** What the first lines leave. *)
Lemma check_output_cases (overwrite : bool) (output_filename : string) :
  let path := output_path output_filename in
  check_output overwrite output_filename =
    if path_exists path then
      if overwrite then
        if removable path then ([os_remove path], Returns path)
        else ([], Raises OSError)
      else ([], Raises (Exception IOError))
    else ([], Returns path).
Proof.
  cbv zeta. unfold check_output.
  destruct (path_exists _); [|reflexivity].
  destruct overwrite; [|reflexivity].
  now destruct (removable _).
Qed.

Lemma frame_call_no_switch (calls : list movie_call) (name : string) :
  Forall (fun c => is_frame_call c = true) calls ->
  ~ In (switch_backend name) calls.
Proof.
  intros H Hin. rewrite Forall_forall in H. apply H in Hin. discriminate.
Qed.

(** X19.  The backend of matplotlib.  Whatever the arguments and the
    outcome, a call of [image_files_to_movie] either leaves the backend
    alone (it raises before the [try]) or switches it to AGG once and,
    as its last call, back to the backend it found, also when a frame
    cannot be read or plotted or [ffmpeg] cannot be started. *)
Theorem movie_restores_backend (files : list str)
    (output_filename : string) (config : option config_arg)
    (stf : option string) (patch_number frames_per_second : Z)
    (overwrite global_colorlimits : bool) (kwargs : plot_kwargs) :
  let calls :=
    fst (image_files_to_movie files output_filename config stf
           patch_number frames_per_second overwrite global_colorlimits
           kwargs) in
  (forall name, ~ In (switch_backend name) calls) \/
  exists before between,
    calls =
      before ++ switch_backend "AGG" :: between
      ++ [switch_backend backend] /\
    (forall name, ~ In (switch_backend name) before) /\
    (forall name, ~ In (switch_backend name) between).
Proof.
  cbv zeta. rewrite image_files_to_movie_eq.
  pose proof (check_output_cases overwrite output_filename) as Hc.
  cbv zeta in Hc.
  destruct (check_output overwrite output_filename) as [pre [output|r]].
  - assert (Hpre : forall name, ~ In (switch_backend name) pre).
    { intros name. destruct (path_exists _); [|inversion Hc; auto].
      destruct overwrite; [|discriminate].
      destruct (removable _); [|discriminate].
      inversion Hc. simpl. intros [H|[]]. discriminate. }
    destruct (if global_colorlimits then _ else _) as [kwargs'|r];
      [|left; exact Hpre].
    right. cbv zeta.
    pose proof (frames_loop_calls config stf patch_number kwargs' files [])
      as Hframes.
    destruct (snd (frames_loop _ _ _ _ _ _)) as [png_data|r];
      [destruct ffmpeg_available|]; cbn [fst].
    + exists pre,
        (fst (frames_loop config stf patch_number kwargs' files [])
         ++ [run_ffmpeg output frames_per_second png_data]).
      rewrite <- app_assoc. split; [reflexivity|]. split; [exact Hpre|].
      intros name Hin. apply in_app_or in Hin. destruct Hin as [Hin|Hin].
      * exact (frame_call_no_switch name Hframes Hin).
      * destruct Hin as [H|[]]. discriminate.
    + exists pre,
        (fst (frames_loop config stf patch_number kwargs' files [])).
      split; [reflexivity|]. split; [exact Hpre|].
      intros name. now apply frame_call_no_switch.
    + exists pre,
        (fst (frames_loop config stf patch_number kwargs' files [])).
      split; [reflexivity|]. split; [exact Hpre|].
      intros name. now apply frame_call_no_switch.
  - left. destruct (path_exists _); [|discriminate].
    destruct overwrite; [destruct (removable _)|]; inversion Hc; auto.
Qed.

(** Without configuration and without kind, no file is read. *)
Lemma read_frame_defaults (patch_number : Z) (file_ : str) :
  read_frame None None patch_number file_ =
    Raises (Exception
              (ValueError (Unrecognized_source_time_function_type None))).
Proof. reflexivity. Qed.

(** X20.  The defaults [config=None, source_time_function_type=None] of
    [image_files_to_movie] make no movie: with at least one file and an
    output path that is free, the call raises the [ValueError] of
    [Image.__init__] on the first file, with or without global colour
    limits; nothing is plotted and [ffmpeg] is not run. *)
Theorem movie_defaults_raise (files : list str)
    (output_filename : string) (patch_number frames_per_second : Z)
    (overwrite global_colorlimits : bool) (kwargs : plot_kwargs) :
  files <> [] ->
  path_exists (output_path output_filename) = false ->
  image_files_to_movie files output_filename None None patch_number
    frames_per_second overwrite global_colorlimits kwargs =
    (if global_colorlimits then []
     else [switch_backend "AGG"; switch_backend backend],
     Raises (Exception
               (ValueError (Unrecognized_source_time_function_type None)))).
Proof.
  intros Hfiles Hfree. rewrite image_files_to_movie_eq.
  pose proof (check_output_cases overwrite output_filename) as Hc.
  cbv zeta in Hc. rewrite Hfree in Hc. rewrite Hc.
  destruct files as [|file_ files]; [congruence|].
  destruct global_colorlimits.
  - unfold global_limits. cbn [limits_loop].
    now rewrite read_frame_defaults.
  - cbv zeta. rewrite frames_loop_cons, read_frame_defaults.
    reflexivity.
Qed.

(** X21.  No file (a list that is empty, or a pattern that matches
    nothing), the output path being free: with global colour limits the
    call raises [UnboundLocalError] on [image] before anything is done;
    without them [ffmpeg] is run on no frame at all. *)
Theorem movie_without_files (output_filename : string)
    (config : option config_arg) (stf : option string)
    (patch_number frames_per_second : Z)
    (overwrite global_colorlimits : bool) (kwargs : plot_kwargs) :
  path_exists (output_path output_filename) = false ->
  image_files_to_movie [] output_filename config stf patch_number
    frames_per_second overwrite global_colorlimits kwargs =
    if global_colorlimits then ([], Raises (UnboundLocalError "image"))
    else if ffmpeg_available then
      ([switch_backend "AGG";
        run_ffmpeg (output_path output_filename) frames_per_second [];
        switch_backend backend], Returns tt)
    else ([switch_backend "AGG"; switch_backend backend], Raises OSError).
Proof.
  intros Hfree. rewrite image_files_to_movie_eq.
  pose proof (check_output_cases overwrite output_filename) as Hc.
  cbv zeta in Hc. rewrite Hfree in Hc. rewrite Hc.
  destruct global_colorlimits; [reflexivity|].
  cbv zeta. cbn [frames_loop pret fst snd app length].
  now destruct ffmpeg_available.
Qed.

(** A call of [image_files_to_movie] that runs [ffmpeg]: the first lines
    have returned the output path, the loop has returned the pictures
    that [ffmpeg] is given, and the calls are those of the first lines,
    the switch to AGG, the frames, the run of [ffmpeg] and the switch
    back, in this order. *)
Lemma movie_run (files : list str)
    (output_filename : string) (config : option config_arg)
    (stf : option string) (patch_number frames_per_second : Z)
    (overwrite global_colorlimits : bool) (kwargs : plot_kwargs)
    (output : string) (rate : Z) (png_data : list png) :
  let movie :=
    image_files_to_movie files output_filename config stf patch_number
      frames_per_second overwrite global_colorlimits kwargs in
  let path := output_path output_filename in
  In (run_ffmpeg output rate png_data) (fst movie) ->
  output = path /\ rate = frames_per_second /\ snd movie = Returns tt /\
  snd (check_output overwrite output_filename) = Returns path /\
  exists kwargs',
    let frames :=
      frames_loop config stf patch_number kwargs' files [] in
    snd frames = Returns png_data /\
    fst movie =
      fst (check_output overwrite output_filename)
      ++ switch_backend "AGG" :: fst frames
      ++ [run_ffmpeg path frames_per_second png_data;
          switch_backend backend].
Proof.
  cbv zeta. rewrite image_files_to_movie_eq.
  pose proof (check_output_cases overwrite output_filename) as Hc.
  cbv zeta in Hc.
  assert (Hpre : ~ In (run_ffmpeg output rate png_data)
                     (fst (check_output overwrite output_filename))).
  { rewrite Hc. destruct (path_exists _); [|intros []].
    destruct overwrite; [|intros []].
    destruct (removable _); [|intros []]. intros [H|[]]. discriminate. }
  assert (Hout : forall pre o,
            check_output overwrite output_filename = (pre, Returns o) ->
            o = output_path output_filename).
  { intros pre o E. rewrite E in Hc. destruct (path_exists _).
    - destruct overwrite; [|discriminate].
      destruct (removable _); [|discriminate]. now inversion Hc.
    - now inversion Hc. }
  destruct (check_output overwrite output_filename) as [pre [o|r]] eqn:E;
    [|intros H; elim (Hpre H)].
  specialize (Hout pre o eq_refl). subst o. cbn [fst] in Hpre.
  destruct (if global_colorlimits then _ else _) as [kwargs'|r];
    [|intros H; elim (Hpre H)].
  cbv zeta.
  pose proof (frames_loop_calls config stf patch_number kwargs' files [])
    as Hframes.
  assert (Hno : ~ In (run_ffmpeg output rate png_data)
                    (fst (frames_loop config stf patch_number kwargs'
                            files []))).
  { intros Hin. rewrite Forall_forall in Hframes. apply Hframes in Hin.
    discriminate. }
  destruct (snd (frames_loop _ _ _ _ _ _)) as [data|r] eqn:Hloop;
    [destruct ffmpeg_available|]; cbn [fst snd]; intros Hin;
    apply in_app_or in Hin; destruct Hin as [Hin|[Hin|Hin]];
    try (elim (Hpre Hin)); try discriminate;
    apply in_app_or in Hin; destruct Hin as [Hin|Hin];
    try (elim (Hno Hin)); try (simpl in Hin; intuition discriminate).
  destruct Hin as [Hin|[Hin|[]]]; [|discriminate].
  inversion Hin; subst.
  split; [reflexivity|]. split; [reflexivity|]. split; [reflexivity|].
  split; [reflexivity|].
  exists kwargs'. split; [exact Hloop|reflexivity].
Qed.

(** The calls of [patch.plot] among calls put one after the other. *)
Lemma plotted_app (xs ys : list movie_call) :
  plotted (xs ++ ys) = plotted xs ++ plotted ys.
Proof. unfold plotted. now rewrite flat_map_app. Qed.

(** X22.  The output file and the frames.  [image_files_to_movie]
    returns exactly when it has run [ffmpeg]; [ffmpeg] is run at most on
    the output path, which ends in [.mp4], and at the rate asked for, as
    the call before the last one, the switch back of the backend; the
    pictures it is given are those that the loop has saved before: one
    per file, in the order of the files, each the picture of the call of
    [patch.plot] of its turn.  An output path that exists is removed
    only under [overwrite], and the removal is then the first call;
    without [overwrite] the call raises [IOError] before it reads any
    file; when the output path does not exist nothing is removed. *)
Theorem movie_output (files : list str)
    (output_filename : string) (config : option config_arg)
    (stf : option string) (patch_number frames_per_second : Z)
    (overwrite global_colorlimits : bool) (kwargs : plot_kwargs) :
  let movie :=
    image_files_to_movie files output_filename config stf patch_number
      frames_per_second overwrite global_colorlimits kwargs in
  let path := output_path output_filename in
  endswith path ".mp4" = true /\
  (snd movie = Returns tt <->
   exists png_data,
     In (run_ffmpeg path frames_per_second png_data) (fst movie)) /\
  (forall output rate png_data,
     In (run_ffmpeg output rate png_data) (fst movie) ->
     output = path /\ rate = frames_per_second /\
     (exists before,
        fst movie =
          before ++ [run_ffmpeg path frames_per_second png_data;
                     switch_backend backend] /\
        map png_drawn png_data = plotted before) /\
     length png_data = length files /\
     (path_exists path = true ->
      overwrite = true /\
      exists rest, fst movie = os_remove path :: rest)) /\
  (path_exists path = true -> overwrite = false ->
   movie = ([], Raises (Exception IOError))) /\
  (path_exists path = false ->
   forall removed, ~ In (os_remove removed) (fst movie)).
Proof.
  cbv zeta. split; [apply endswith_output_path|].
  pose proof (check_output_cases overwrite output_filename) as Hc.
  cbv zeta in Hc.
  split; [|split; [|split]].
  - split.
    + rewrite image_files_to_movie_eq.
      destruct (check_output overwrite output_filename)
        as [pre [output|r]] eqn:E; [|discriminate].
      assert (output = output_path output_filename) as ->.
      { destruct (path_exists _).
        - destruct overwrite; [|discriminate].
          destruct (removable _); [|discriminate]. now inversion Hc.
        - now inversion Hc. }
      destruct (if global_colorlimits then _ else _) as [kwargs'|r];
        [|discriminate].
      cbv zeta.
      destruct (snd (frames_loop _ _ _ _ _ _)) as [png_data|r];
        [destruct ffmpeg_available|]; try discriminate.
      intros _. exists png_data. cbn [fst].
      apply in_or_app. right. right. apply in_or_app. right. now left.
    + intros [png_data Hin]. apply movie_run in Hin.
      now destruct Hin as (_ & _ & Hret & _).
  - intros output rate png_data Hin. apply movie_run in Hin.
    destruct Hin as (-> & -> & _ & Hcheck & kwargs' & Hloop & Hcalls).
    cbv zeta in Hloop, Hcalls.
    apply frames_loop_string_io in Hloop. destruct Hloop as [Hdrawn Hlen].
    split; [reflexivity|]. split; [reflexivity|]. split; [|split].
    + exists (fst (check_output overwrite output_filename)
              ++ switch_backend "AGG"
                 :: fst (frames_loop config stf patch_number kwargs'
                           files [])).
      split.
      * rewrite Hcalls, <- app_assoc. reflexivity.
      * rewrite plotted_app. cbn [plotted flat_map app].
        change (flat_map _ ?l) with (plotted l).
        rewrite Hdrawn. cbn [map app].
        rewrite Hc. destruct (path_exists _); [|reflexivity].
        destruct overwrite; [|reflexivity].
        now destruct (removable _).
    + exact Hlen.
    + intros Hexists. rewrite Hcalls. rewrite Hc, Hexists in Hcheck |- *.
      destruct overwrite; [|discriminate].
      destruct (removable _); [|discriminate].
      split; [reflexivity|]. eexists. reflexivity.
  - intros Hexists Hover. rewrite image_files_to_movie_eq, Hc, Hexists, Hover.
    reflexivity.
  - intros Hfree removed. rewrite image_files_to_movie_eq, Hc, Hfree.
    destruct (if global_colorlimits then _ else _) as [kwargs'|r];
      [|intros []].
    cbv zeta.
    pose proof (frames_loop_calls config stf patch_number kwargs' files [])
      as Hframes.
    assert (Hno : ~ In (os_remove removed)
                      (fst (frames_loop config stf patch_number kwargs'
                              files []))).
    { intros Hin. rewrite Forall_forall in Hframes. apply Hframes in Hin.
      discriminate. }
    destruct (snd (frames_loop _ _ _ _ _ _)) as [png_data|r];
      [destruct ffmpeg_available|]; cbn [fst app]; intros [Hin|Hin];
      try discriminate;
      apply in_app_or in Hin; destruct Hin as [Hin|Hin];
      try (elim (Hno Hin)); simpl in Hin; intuition discriminate.
Qed.

(** The limits of the frames are those of the keyword arguments. *)
Lemma frames_loop_limits (config : option config_arg)
    (stf : option string) (patch_number : Z) (kwargs : plot_kwargs)
    (files : list str) (calls : list mpl_call)
    (data : option ndarray)
    (extent : option (float * float * float * float))
    (lo hi : option float) (colours : colormap) :
  kw_vmin kwargs <> None ->
  forall string_io,
  In (patch_plot calls)
    (fst (frames_loop config stf patch_number kwargs files string_io)) ->
  In (imshow data extent lo hi colours) calls ->
  lo = kw_vmin kwargs /\ hi = kw_vmax kwargs.
Proof.
  intros Hgiven. induction files as [|file_ files IH]; [intros ? []|].
  intros string_io. rewrite frames_loop_cons.
  destruct (read_frame config stf patch_number file_)
    as [[[image patch] link]|r]; [|intros []].
  cbv zeta. intros Hin Himshow.
  assert (Hhere :
    patch_plot (fst (plot_frame kwargs link patch)) = patch_plot calls ->
    lo = kw_vmin kwargs /\ hi = kw_vmax kwargs).
  { intros H. inversion H; subst calls. unfold plot_frame in Himshow.
    apply Patch_plot_imshow in Himshow.
    destruct Himshow as (_ & _ & im & divergent & _ & _ & Hlimits).
    rewrite color_limits_given in Hlimits by (left; exact Hgiven).
    now inversion Hlimits. }
  destruct (snd (plot_frame kwargs link patch)) as [[[fig ax] cb]|r];
    cbn [fst] in Hin.
  - destruct Hin as [Hin|[Hin|[Hin|Hin]]];
      [now apply Hhere|discriminate|discriminate|].
    exact (IH _ Hin Himshow).
  - destruct Hin as [Hin|[]]. now apply Hhere.
Qed.

(** X24.  Global colour limits.  With [global_colorlimits], every frame
    of the movie is drawn with the same colour limits, those computed
    over all the files, whatever limits the caller passed and whatever
    the data of the frame. *)
Theorem movie_frames_share_limits (files : list str)
    (output_filename : string) (config : option config_arg)
    (stf : option string) (patch_number frames_per_second : Z)
    (overwrite : bool) (kwargs : plot_kwargs) (calls : list mpl_call)
    (data : option ndarray)
    (extent : option (float * float * float * float))
    (lo hi : option float) (colours : colormap) :
  In (patch_plot calls)
    (fst (image_files_to_movie files output_filename config stf
            patch_number frames_per_second overwrite true kwargs)) ->
  In (imshow data extent lo hi colours) calls ->
  exists global_min global_max,
    global_limits config stf patch_number files
    = Returns (global_min, global_max) /\
    lo = Some global_min /\ hi = Some global_max.
Proof.
  rewrite image_files_to_movie_eq.
  pose proof (check_output_cases overwrite output_filename) as Hc.
  cbv zeta in Hc.
  destruct (check_output overwrite output_filename) as [pre [output|r]].
  - assert (Hpre : ~ In (patch_plot calls) pre).
    { destruct (path_exists _); [|inversion Hc; auto].
      destruct overwrite; [|discriminate].
      destruct (removable _); [|discriminate].
      inversion Hc. intros [H|[]]. discriminate. }
    destruct (global_limits config stf patch_number files)
      as [[global_min global_max]|r]; [|intros H; elim (Hpre H)].
    cbv zeta. intros Hin Himshow. exists global_min, global_max.
    split; [reflexivity|].
    apply (@frames_loop_limits config stf patch_number
             (with_limits kwargs global_min global_max) files calls
             data extent lo hi colours ltac:(discriminate) []);
      [|exact Himshow].
    destruct (snd (frames_loop _ _ _ _ _ _)) as [png_data|r];
      [destruct ffmpeg_available|]; cbn [fst] in Hin;
      apply in_app_or in Hin; destruct Hin as [Hin|[Hin|Hin]];
      try (elim (Hpre Hin)); try discriminate;
      apply in_app_or in Hin; destruct Hin as [Hin|Hin]; try exact Hin;
      simpl in Hin; intuition discriminate.
  - intros Hin. exfalso. destruct (path_exists _); [|discriminate].
    destruct overwrite; [destruct (removable _)|]; inversion Hc; subst;
      destruct Hin.
Qed.

End MovieProperties.

(** * The order of binary64 values *)

Lemma SFltb_key (a b : spec_float) :
  SFltb a b = true <->
  exists ka kb, float_key a = Some ka /\ float_key b = Some kb /\ key_lt ka kb.
Proof.
  unfold SFltb, SFcompare.
  destruct a as [sa|sa| |sa ma ea], b as [sb|sb| |sb mb eb]; simpl;
    try (split; [discriminate|intros (ka & kb & H1 & H2 & H3); discriminate]).
  all: try destruct sa; try destruct sb; simpl.
  all: try (split; [discriminate|
                    intros (ka & kb & H1 & H2 & H3);
                    inversion H1; inversion H2; subst; simpl in H3; lia]).
  all: try (split; [intros _; do 2 eexists; repeat split; simpl; lia|reflexivity]).
  - destruct (Z.compare_spec ea eb) as [E|E|E];
      [pose proof (Pos.compare_spec ma mb) as Hm;
       change (Pos.compare_cont Eq ma mb) with (Pos.compare ma mb);
       destruct Hm as [Hm|Hm|Hm]; simpl|simpl|simpl].
    all: try (split; [discriminate|
                    intros (ka & kb & H1 & H2 & H3);
                    inversion H1; inversion H2; subst; simpl in H3; lia]).
    all: try (split; [intros _; do 2 eexists; repeat split; simpl; lia|reflexivity]).
  - destruct (Z.compare_spec ea eb) as [E|E|E];
      [pose proof (Pos.compare_spec ma mb) as Hm;
       change (Pos.compare_cont Eq ma mb) with (Pos.compare ma mb);
       destruct Hm as [Hm|Hm|Hm]; simpl|simpl|simpl].
    all: try (split; [discriminate|
                    intros (ka & kb & H1 & H2 & H3);
                    inversion H1; inversion H2; subst; simpl in H3; lia]).
    all: try (split; [intros _; do 2 eexists; repeat split; simpl; lia|reflexivity]).
Qed.

Lemma SFltb_false_key (a b : spec_float) (ka kb : Z * Z * Z) :
  float_key a = Some ka -> float_key b = Some kb ->
  SFltb a b = false -> ~ key_lt ka kb.
Proof.
  intros Ha Hb H Hlt.
  assert (E : SFltb a b = true) by (apply SFltb_key; eauto).
  congruence.
Qed.

Lemma SFltb_irrefl (a : spec_float) : SFltb a a = false.
Proof.
  destruct (SFltb a a) eqn:E; [|reflexivity].
  apply SFltb_key in E. destruct E as (ka & kb & Ha & Hb & Hlt).
  rewrite Ha in Hb. inversion Hb; subst.
  destruct kb as [[k1 k2] k3]. simpl in Hlt. lia.
Qed.

(** [x >= g >= l], none being NaN but possibly [x] and [l]. *)
Lemma SFltb_false_trans (x g l : spec_float) :
  float_key g <> None ->
  SFltb x g = false -> SFltb g l = false -> SFltb x l = false.
Proof.
  intros Hg Hxg Hgl.
  destruct (SFltb x l) eqn:E; [|reflexivity].
  apply SFltb_key in E. destruct E as (kx & kl & Hx & Hl & Hlt).
  destruct (float_key g) as [kg|] eqn:Ekg; [|congruence].
  pose proof (@SFltb_false_key x g kx kg Hx Ekg Hxg) as H1.
  pose proof (@SFltb_false_key g l kg kl Ekg Hl Hgl) as H2.
  destruct kx as [[x1 x2] x3], kg as [[g1 g2] g3], kl as [[l1 l2] l3].
  simpl in *. lia.
Qed.

Lemma SFltb_asym (a b : spec_float) :
  SFltb a b = true -> SFltb b a = false.
Proof.
  intros H. destruct (SFltb b a) eqn:E; [|reflexivity].
  apply SFltb_key in H, E.
  destruct H as (ka & kb & Ha & Hb & Hlt).
  destruct E as (kb' & ka' & Hb' & Ha' & Hlt').
  rewrite Ha in Ha'. rewrite Hb in Hb'. inversion Ha'; inversion Hb'; subst.
  destruct ka' as [[x1 x2] x3], kb' as [[g1 g2] g3]. simpl in *. lia.
Qed.

Lemma SFltb_ordered (a b : spec_float) :
  SFltb a b = true -> float_key a <> None /\ float_key b <> None.
Proof.
  intros H. apply SFltb_key in H. destruct H as (ka & kb & Ha & Hb & _).
  split; congruence.
Qed.

Lemma ltb_false_trans (x g l : float) :
  float_key (Prim2SF g) <> None ->
  PrimFloat.ltb x g = false -> PrimFloat.ltb g l = false ->
  PrimFloat.ltb x l = false.
Proof. rewrite !ltb_spec. apply SFltb_false_trans. Qed.

Lemma py_min_ordered (a b : float) :
  float_key (Prim2SF a) <> None -> float_key (Prim2SF (py_min a b)) <> None.
Proof.
  intros Ha. unfold py_min. destruct (PrimFloat.ltb b a) eqn:E; [|exact Ha].
  rewrite ltb_spec in E. now apply SFltb_ordered in E.
Qed.

Lemma py_min_le_l (a b : float) : PrimFloat.ltb a (py_min a b) = false.
Proof.
  unfold py_min. destruct (PrimFloat.ltb b a) eqn:E; rewrite ltb_spec in *.
  - now apply SFltb_asym.
  - apply SFltb_irrefl.
Qed.

Lemma py_min_le_r (a b : float) : PrimFloat.ltb b (py_min a b) = false.
Proof.
  unfold py_min. destruct (PrimFloat.ltb b a) eqn:E; [|exact E].
  rewrite ltb_spec. apply SFltb_irrefl.
Qed.

Lemma py_max_ordered (a b : float) :
  float_key (Prim2SF a) <> None -> float_key (Prim2SF (py_max a b)) <> None.
Proof.
  intros Ha. unfold py_max. destruct (PrimFloat.ltb a b) eqn:E; [|exact Ha].
  rewrite ltb_spec in E. now apply SFltb_ordered in E.
Qed.

Lemma py_max_ge_l (a b : float) : PrimFloat.ltb (py_max a b) a = false.
Proof.
  unfold py_max. destruct (PrimFloat.ltb a b) eqn:E; rewrite ltb_spec in *.
  - now apply SFltb_asym.
  - apply SFltb_irrefl.
Qed.

Lemma py_max_ge_r (a b : float) : PrimFloat.ltb (py_max a b) b = false.
Proof.
  unfold py_max. destruct (PrimFloat.ltb a b) eqn:E; [|exact E].
  rewrite ltb_spec. apply SFltb_irrefl.
Qed.

(** [-m <= a] and [b <= m] for [m = max(abs(a), abs(b))]. *)
Lemma abs_max_bounds (a b : float) :
  PrimFloat.ltb a (- py_max (abs a) (abs b))%float = false /\
  PrimFloat.ltb (py_max (abs a) (abs b)) b = false.
Proof.
  pose proof (SFltb_max_abs_l (Prim2SF a) (Prim2SF b)) as Hl.
  pose proof (SFltb_max_abs_r (Prim2SF a) (Prim2SF b)) as Hr.
  unfold py_max. rewrite (ltb_spec a), (ltb_spec _ b), opp_spec.
  rewrite (ltb_spec (abs a)), !abs_spec.
  destruct (SFltb (SFabs (Prim2SF a)) (SFabs (Prim2SF b)));
    rewrite abs_spec; auto.
Qed.

(** ** The colorbar *)

Lemma scatter_each_no_colorbar (image : Image.t) (keys : list string)
    (extend label : string) :
  ~ In (plt_colorbar extend label) (fst (scatter_each image keys)).
Proof.
  induction keys as [|key keys IH]; [intros []|].
  cbn [scatter_each]. rewrite fst_pbind. unfold plift. cbn [fst snd].
  destruct (_get_plot_coordinates_from_config image key) as [[[x y]|]|r];
    [|exact IH|intros []].
  rewrite !fst_pbind. unfold call. cbn [fst snd app].
  intros [H|[H|H]]; [discriminate|discriminate|]. now apply IH.
Qed.

Ltac bar_peel :=
  lazymatch goal with
  | |- In _ (_ :: _) -> _ =>
      let H := fresh "H" in
      intros [H|H]; [try discriminate H|revert H]
  | |- In _ [] -> _ => intros []
  | |- In _ (fst (scatter_each _ _) ++ _) -> _ =>
      let H := fresh "H" in
      intros H; apply in_app_or in H; destruct H as [H|H];
      [now apply scatter_each_no_colorbar in H|revert H]
  | |- In _ (fst (scatter_each _ _)) -> _ =>
      let H := fresh "H" in
      intros H; now apply scatter_each_no_colorbar in H
  end.

Ltac bar_crack := repeat (draw_simpl; first [bar_peel|draw_case]).

Section Colorbar.

Variable mode_entries : mode_dict -> Z -> option ModeEntry.t.
Variable SW4_IMAGE_PLANE : Z -> option string.
Variable MPL_SCATTER_PROPERTIES : list string.

Local Abbreviation Patch_plot :=
  (Patch_plot mode_entries SW4_IMAGE_PLANE MPL_SCATTER_PROPERTIES).

(** The extension that [Patch.plot] hands to [plt.colorbar]. *)
Lemma Patch_plot_colorbar (image : option Image.t) (self : Patch.t)
    (self_min self_max : float) (ax : option string)
    (vmin vmax : option float) (colorbar : bool)
    (colorbar_label : option string) (cmap : option string)
    (extend label : string) :
  In (plt_colorbar extend label)
    (fst (Patch_plot image self self_min self_max ax vmin vmax colorbar
            colorbar_label cmap)) ->
  exists divergent,
    extend =
      extend_of self_min self_max
        (fst (color_limits divergent self_min self_max vmin vmax))
        (snd (color_limits divergent self_min self_max vmin vmax)).
Proof.
  unfold Patch_plot, is_divergent, _cmap_type, quantity_name,
    quantity_unit.
  bar_crack;
    match goal with
    | H : plt_colorbar _ _ = plt_colorbar _ _ |- _ =>
        inversion H; subst; clear H
    end;
    match goal with
    | H : color_limits ?d _ _ _ _ = _ |- _ => exists d; now rewrite H
    end.
Qed.

End Colorbar.

Section MovieLimits.

Variable SW4_IMAGE_HEADER_DTYPE : dtype ImageHeader.
Variable SW4_PATCH_HEADER_DTYPE : dtype PatchHeader.
Variable SW4_IMAGE_PRECISION : Z -> option positive.
Variable SW4_SOURCE_TIME_FUNCTION_TYPE : string -> option Z.
Variable read_input_file : string -> result Config.
Variable random_samples : list item.
Variable mode_entries : mode_dict -> Z -> option ModeEntry.t.
Variable SW4_IMAGE_PLANE : Z -> option string.
Variable MPL_SCATTER_PROPERTIES : list string.
Variable statistics : Patch.t -> float * float.
Variable fs : string -> option (list byte).
Variable path_exists : string -> bool.
Variable removable : string -> bool.
Variable backend : string.
Variable ffmpeg_available : bool.

Local Abbreviation read_frame :=
  (read_frame SW4_IMAGE_HEADER_DTYPE SW4_PATCH_HEADER_DTYPE
     SW4_IMAGE_PRECISION SW4_SOURCE_TIME_FUNCTION_TYPE read_input_file
     random_samples fs).
Local Abbreviation limits_loop :=
  (limits_loop SW4_IMAGE_HEADER_DTYPE SW4_PATCH_HEADER_DTYPE
     SW4_IMAGE_PRECISION SW4_SOURCE_TIME_FUNCTION_TYPE read_input_file
     random_samples statistics fs).
Local Abbreviation global_limits :=
  (global_limits SW4_IMAGE_HEADER_DTYPE SW4_PATCH_HEADER_DTYPE
     SW4_IMAGE_PRECISION SW4_SOURCE_TIME_FUNCTION_TYPE read_input_file
     random_samples mode_entries statistics fs).
Local Abbreviation frames_loop :=
  (frames_loop SW4_IMAGE_HEADER_DTYPE SW4_PATCH_HEADER_DTYPE
     SW4_IMAGE_PRECISION SW4_SOURCE_TIME_FUNCTION_TYPE read_input_file
     random_samples mode_entries SW4_IMAGE_PLANE MPL_SCATTER_PROPERTIES
     statistics fs).
Local Abbreviation plot_frame :=
  (plot_frame mode_entries SW4_IMAGE_PLANE MPL_SCATTER_PROPERTIES
     statistics).
Local Abbreviation check_output := (check_output path_exists removable).
Local Abbreviation image_files_to_movie :=
  (image_files_to_movie SW4_IMAGE_HEADER_DTYPE SW4_PATCH_HEADER_DTYPE
     SW4_IMAGE_PRECISION SW4_SOURCE_TIME_FUNCTION_TYPE read_input_file
     random_samples mode_entries SW4_IMAGE_PLANE MPL_SCATTER_PROPERTIES
     statistics fs path_exists removable backend ffmpeg_available).

(** The statistics of the patch of every file lie between two limits. *)
Local Abbreviation bounded files patch_number config stf lo hi :=
  (forall file_ image patch link,
     In file_ files ->
     read_frame config stf patch_number file_
     = Returns (image, patch, link) ->
     PrimFloat.ltb (fst (statistics patch)) lo = false /\
     PrimFloat.ltb hi (snd (statistics patch)) = false).

(** The extrema that the first loop computes bound the statistics of
    every file. *)
Lemma limits_loop_bounds (config : option config_arg)
    (stf : option string) (patch_number : Z) (files : list str) :
  forall global_min global_max image global_min' global_max' image',
  float_key (Prim2SF global_min) <> None ->
  float_key (Prim2SF global_max) <> None ->
  limits_loop config stf patch_number files global_min global_max image
  = Returns (global_min', global_max', image') ->
  float_key (Prim2SF global_min') <> None /\
  float_key (Prim2SF global_max') <> None /\
  PrimFloat.ltb global_min global_min' = false /\
  PrimFloat.ltb global_max' global_max = false /\
  bounded files patch_number config stf global_min' global_max'.
Proof.
  induction files as [|file_ files IH];
    intros gmin gmax image gmin' gmax' image' Hmin Hmax H.
  - inversion H; subst. rewrite !ltb_spec, !SFltb_irrefl.
    split; [exact Hmin|]. split; [exact Hmax|].
    split; [reflexivity|]. split; [reflexivity|]. intros ? ? ? ? [].
  - cbn [limits_loop] in H.
    destruct (read_frame config stf patch_number file_)
      as [[[image0 patch0] link0]|r] eqn:Hread; [|discriminate].
    pose proof (@py_min_ordered gmin (fst (statistics patch0)) Hmin)
      as Hmin1.
    pose proof (@py_max_ordered gmax (snd (statistics patch0)) Hmax)
      as Hmax1.
    apply IH in H; [|exact Hmin1|exact Hmax1].
    destruct H as (Hmin' & Hmax' & Hle & Hge & Hbounded).
    split; [exact Hmin'|]. split; [exact Hmax'|].
    split; [|split].
    + exact (@ltb_false_trans gmin _ gmin' Hmin1 (py_min_le_l _ _) Hle).
    + exact (@ltb_false_trans gmax' _ gmax Hmax1 Hge (py_max_ge_l _ _)).
    + intros f image1 patch1 link1 [<-|Hin] Hf.
      * rewrite Hread in Hf. inversion Hf; subst. split.
        -- exact (@ltb_false_trans _ _ gmin' Hmin1 (py_min_le_r _ _) Hle).
        -- exact (@ltb_false_trans gmax' _ _ Hmax1 Hge (py_max_ge_r _ _)).
      * exact (Hbounded f image1 patch1 link1 Hin Hf).
Qed.

(** So do the global limits. *)
Lemma global_limits_bounds (config : option config_arg)
    (stf : option string) (patch_number : Z) (files : list str)
    (lo hi : float) :
  global_limits config stf patch_number files = Returns (lo, hi) ->
  bounded files patch_number config stf lo hi.
Proof.
  unfold global_limits.
  destruct (limits_loop config stf patch_number files infinity
              neg_infinity None) as [[[gmin gmax] [image|]]|r] eqn:Hloop;
    try discriminate.
  apply limits_loop_bounds in Hloop;
    [|vm_compute; discriminate|vm_compute; discriminate].
  destruct Hloop as (Hmin & Hmax & _ & _ & Hbounded).
  destruct (is_divergent mode_entries image) as [[|]|e]; try discriminate.
  - intros H. inversion H; subst.
    intros f image1 patch1 link1 Hin Hf.
    destruct (Hbounded f image1 patch1 link1 Hin Hf) as [Hlo Hhi].
    destruct (abs_max_bounds gmin gmax) as [Hl Hr]. split.
    + exact (@ltb_false_trans _ gmin _ Hmin Hlo Hl).
    + exact (@ltb_false_trans _ gmax _ Hmax Hr Hhi).
  - intros H. inversion H; subst. exact Hbounded.
Qed.

(** Frames drawn between limits that bound their statistics have a
    colorbar that is not extended. *)
Lemma frames_loop_extend (config : option config_arg)
    (stf : option string) (patch_number : Z) (kwargs : plot_kwargs)
    (lo hi : float) (calls : list mpl_call) (extend label : string) :
  kw_vmin kwargs = Some lo -> kw_vmax kwargs = Some hi ->
  forall files string_io,
  bounded files patch_number config stf lo hi ->
  In (patch_plot calls)
    (fst (frames_loop config stf patch_number kwargs files string_io)) ->
  In (plt_colorbar extend label) calls ->
  extend = "neither"%string.
Proof.
  intros Hvmin Hvmax. induction files as [|file_ files IH];
    [intros _ _ []|].
  intros string_io Hbounded.
  rewrite (frames_loop_cons SW4_IMAGE_HEADER_DTYPE SW4_PATCH_HEADER_DTYPE
             SW4_IMAGE_PRECISION SW4_SOURCE_TIME_FUNCTION_TYPE
             read_input_file random_samples mode_entries SW4_IMAGE_PLANE
             MPL_SCATTER_PROPERTIES statistics fs).
  destruct (read_frame config stf patch_number file_)
    as [[[image patch] link]|r] eqn:Hread; [|intros []].
  cbv zeta. intros Hin Hbar.
  assert (Hhere :
    patch_plot (fst (plot_frame kwargs link patch)) = patch_plot calls ->
    extend = "neither"%string).
  { intros H. inversion H; subst calls. unfold plot_frame in Hbar.
    apply Patch_plot_colorbar in Hbar. destruct Hbar as [divergent ->].
    rewrite Hvmin, Hvmax.
    rewrite color_limits_given by (left; discriminate). cbn [fst snd].
    destruct (Hbounded file_ image patch link (or_introl eq_refl) Hread)
      as [Hlo Hhi].
    unfold extend_of, below, above. now rewrite Hlo, Hhi. }
  assert (Hrest : bounded files patch_number config stf lo hi).
  { intros f image1 patch1 link1 Hf. apply Hbounded. now right. }
  destruct (snd (plot_frame kwargs link patch)) as [[[fig ax] cb]|r];
    cbn [fst] in Hin.
  - destruct Hin as [Hin|[Hin|[Hin|Hin]]];
      [now apply Hhere|discriminate|discriminate|].
    exact (IH _ Hrest Hin Hbar).
  - destruct Hin as [Hin|[]]. now apply Hhere.
Qed.

(** X25.  With [global_colorlimits], no frame of the movie has an
    extended colorbar: the limits computed over all the files bound the
    minimum and the maximum of the patch of every file, in binary64
    comparison, for a divergent quantity as for another, also when a
    statistic is NaN or infinite. *)
Theorem movie_colorbars_not_extended (files : list str)
    (output_filename : string) (config : option config_arg)
    (stf : option string) (patch_number frames_per_second : Z)
    (overwrite : bool) (kwargs : plot_kwargs) (calls : list mpl_call)
    (extend label : string) :
  In (patch_plot calls)
    (fst (image_files_to_movie files output_filename config stf
            patch_number frames_per_second overwrite true kwargs)) ->
  In (plt_colorbar extend label) calls ->
  extend = "neither"%string.
Proof.
  rewrite image_files_to_movie_eq.
  pose proof (check_output_cases path_exists removable overwrite
                output_filename) as Hc.
  cbv zeta in Hc.
  destruct (check_output overwrite output_filename) as [pre [output|r]].
  - assert (Hpre : ~ In (patch_plot calls) pre).
    { destruct (path_exists _); [|inversion Hc; auto].
      destruct overwrite; [|discriminate].
      destruct (removable _); [|discriminate].
      inversion Hc. intros [H|[]]. discriminate. }
    destruct (global_limits config stf patch_number files)
      as [[lo hi]|r] eqn:Hlimits; [|intros H; elim (Hpre H)].
    pose proof (@global_limits_bounds config stf patch_number files lo hi
                  Hlimits) as Hbounded.
    clear Hlimits. rename Hbounded into Hlimits.
    cbv zeta. intros Hin Hbar.
    apply (@frames_loop_extend config stf patch_number
             (with_limits kwargs lo hi) lo hi calls extend label
             eq_refl eq_refl files [] Hlimits); [|exact Hbar].
    destruct (snd (frames_loop _ _ _ _ _ _)) as [png_data|r];
      [destruct ffmpeg_available|]; cbn [fst] in Hin;
      apply in_app_or in Hin; destruct Hin as [Hin|[Hin|Hin]];
      try (elim (Hpre Hin)); try discriminate;
      apply in_app_or in Hin; destruct Hin as [Hin|Hin]; try exact Hin;
      simpl in Hin; intuition discriminate.
  - intros Hin. exfalso. destruct (path_exists _); [|discriminate].
    destruct overwrite; [destruct (removable _)|]; inversion Hc; subst;
      destruct Hin.
Qed.

End MovieLimits.

(** * The statistics of a patch *)














(** ** The extrema *)
















(** * The further theorems on examples *)

Local Open Scope string_scope.

(** X1, witness: the file of two patches without the sample of the
    second: [decode] raises, and the image has the first patch. *)
Lemma decode_frame_witness :
  fst (SW4.decode SW4.blank_image Demo.second_block_missing)
  = Raise (ValueError Reshape_size_mismatch) /\
  exists ps,
    st_image (snd (SW4.decode SW4.blank_image Demo.second_block_missing)) =
      add_patches ps
        (set_header_fields
           (file_header SW4.SW4_IMAGE_HEADER_DTYPE
              Demo.second_block_missing)
           SW4.blank_image) /\
    map Patch.number ps = map Some (seq 0 (length ps)) /\
    (length ps <
     length (file_patch_info SW4.SW4_IMAGE_HEADER_DTYPE
               SW4.SW4_PATCH_HEADER_DTYPE Demo.second_block_missing))%nat.
Proof.
  split; [evaluate|].
  destruct (@decode_frame SW4.SW4_IMAGE_HEADER_DTYPE
              SW4.SW4_PATCH_HEADER_DTYPE SW4.SW4_IMAGE_PRECISION
              SW4.blank_image Demo.second_block_missing
              (fst (SW4.decode SW4.blank_image Demo.second_block_missing))
              (snd (SW4.decode SW4.blank_image Demo.second_block_missing)))
    as (ps & Hs & _ & Hn & _ & Hraise).
  - apply Nat.leb_le. evaluate.
  - unfold SW4.decode. now destruct (decode _ _ _ _ _).
  - exists ps. split; [exact Hs|]. split; [exact Hn|].
    apply (Hraise (ValueError Reshape_size_mismatch)). evaluate.
Defined.

(** X2, witness: a file of twenty bytes. *)
Lemma short_file_raises_IndexError_witness :
  exists ev',
    SW4.read (SW4.single_file "a.sw4img" Demo.short_file)
      (Some (Str "a.sw4img")) None (Some "velocity")
    = (ev', Raise IndexError).
Proof.
  apply (@short_file_raises_IndexError SW4.SW4_IMAGE_HEADER_DTYPE
           SW4.SW4_PATCH_HEADER_DTYPE SW4.SW4_IMAGE_PRECISION
           SW4.SW4_SOURCE_TIME_FUNCTION_TYPE SW4.read_input_file []
           (SW4.single_file "a.sw4img" Demo.short_file) "a.sw4img" None
           (Some "velocity") [] (Demo.constructed None (Some "velocity"))
           Demo.short_file).
  - evaluate.
  - evaluate.
  - apply Nat.ltb_lt. evaluate.
Defined.

Ltac fits :=
  repeat (constructor;
          [repeat split; try (vm_compute; reflexivity); repeat constructor|]);
  try constructor.

(** X3, witness: the file of two patches. *)
Lemma decode_encode_file_witness :
  SW4.decode SW4.blank_image Demo.two_patch_file =
    (Ok tt,
     {| st_image :=
          let image' :=
            set_header_fields
              (unpack SW4.SW4_IMAGE_HEADER_DTYPE Demo.header)
              SW4.blank_image in
          let headers :=
            map (unpack SW4.SW4_PATCH_HEADER_DTYPE) Demo.patch_headers in
          add_patches
            (build_patches (view_of image') 0 headers
               (grids_of headers Demo.blocks))
            image';
        st_file := [] |}).
Proof.
  apply (@decode_encode_file SW4.SW4_IMAGE_HEADER_DTYPE
           SW4.SW4_PATCH_HEADER_DTYPE SW4.SW4_IMAGE_PRECISION
           SW4.blank_image Demo.header Demo.patch_headers Demo.blocks
           4%positive).
  - evaluate.
  - repeat constructor.
  - evaluate.
  - evaluate.
  - fits.
Defined.

(** X4, witness: the file of two patches and three more bytes. *)
Lemma trailing_bytes_ignored_witness :
  exists s s',
    SW4.decode SW4.blank_image Demo.two_patch_file = (Ok tt, s) /\
    SW4.decode SW4.blank_image (Demo.two_patch_file ++ SW4.le 3 0)
    = (Ok tt, s') /\
    st_image s' = st_image s /\ st_file s = [] /\ st_file s' = SW4.le 3 0.
Proof.
  apply (@trailing_bytes_ignored SW4.SW4_IMAGE_HEADER_DTYPE
           SW4.SW4_PATCH_HEADER_DTYPE SW4.SW4_IMAGE_PRECISION
           SW4.blank_image Demo.header Demo.patch_headers Demo.blocks
           (SW4.le 3 0) 4%positive).
  - evaluate.
  - repeat constructor.
  - evaluate.
  - evaluate.
  - fits.
Defined.

(** X6, witness: a random image asked for with a configuration that
    declares a velocity and the explicit kind "displacement": the
    constructor warns and takes the velocity, the random image has the
    table of the displacement. *)
Lemma random_image_from_explicit_kind_witness :
  Image._mode_dict
    (Demo.constructed (Some (ConfigDict SW4.gaussian_config))
       (Some "displacement"))
  = SW4_IMAGE_MODE_VELOCITY /\
  SW4.read (fun _ => None) (Some (Str "random"))
    (Some (ConfigDict SW4.gaussian_config)) (Some "displacement")
  = ([Warn (Overriding_source_time_function_type
              "displacement" "velocity");
      Warn (Uncommon_file_extension "random")], Raise IOError) /\
  exists random,
    Demo.random_result =
      ([Warn (Overriding_source_time_function_type
                "displacement" "velocity")], Ok random) /\
    Image._config random = None /\
    Image._mode_dict random = SW4_IMAGE_MODE_DISPLACEMENT.
Proof.
  split; [evaluate|].
  assert (Hinit :
    Image_init SW4.SW4_SOURCE_TIME_FUNCTION_TYPE SW4.read_input_file
      (Some (ConfigDict SW4.gaussian_config)) (Some "displacement")
    = ([Warn (Overriding_source_time_function_type
                "displacement" "velocity")],
       Ok (Demo.constructed (Some (ConfigDict SW4.gaussian_config))
             (Some "displacement")))) by evaluate.
  destruct (@random_image_from_explicit_kind SW4.SW4_IMAGE_HEADER_DTYPE
              SW4.SW4_PATCH_HEADER_DTYPE SW4.SW4_IMAGE_PRECISION
              SW4.SW4_SOURCE_TIME_FUNCTION_TYPE SW4.read_input_file []
              (fun _ => None) (Some (ConfigDict SW4.gaussian_config))
              (Some "displacement") _ _ Hinit)
    as [Hstring
          (random & Hread & Hconfig & _ & [[_ Hmode]|[Hkind _]] & _)];
    [|discriminate].
  split; [exact (Hstring eq_refl)|].
  exists random. split; [exact Hread|]. split; [exact Hconfig|exact Hmode].
Defined.

(** X7, witness: the patch of the image read from the cross-section
    file of one patch is plotted. *)
Lemma Patch_plot_returns_iff_witness :
  snd (Demo.plot (Some Demo.read_image)
         (hd (Patch_init None) (Image.patches Demo.read_image)) None)
  = Returns (new_figure, new_axes, Some new_colorbar).
Proof.
  apply (proj2 (proj2 (@Patch_plot_returns_iff Demo.mode_entries
                         Demo.SW4_IMAGE_PLANE Demo.MPL_SCATTER_PROPERTIES
                         (Some Demo.read_image)
                         (hd (Patch_init None)
                            (Image.patches Demo.read_image))
                         (-1)%float 2%float None None None true None
                         None))).
  split; [reflexivity|]. exists Demo.read_image. split; [reflexivity|].
  split.
  { exists {| ModeEntry.name := "X Displacement";
              ModeEntry.symbol := "ux";
              ModeEntry.unit := "m";
              ModeEntry.cmap_type := "divergent" |}.
    split; [evaluate|]. intros _. exists cmap_divergent. evaluate. }
  split; [intros H; vm_compute in H; discriminate|].
  split; [exists 0; split; [evaluate|lia]|].
  split; [exists "X"; evaluate|]. vm_compute. discriminate.
Defined.

(** X8, witness: the same patch on axes of the caller. *)
Lemma Patch_plot_on_caller_axes_witness :
  snd (Demo.plot (Some Demo.read_image)
         (hd (Patch_init None) (Image.patches Demo.read_image))
         (Some "ax"))
  = Raises (UnboundLocalError "fig") /\
  exists title,
    fst (Demo.plot (Some Demo.read_image)
           (hd (Patch_init None) (Image.patches Demo.read_image)) None)
    = plt_subplots
      :: fst (Demo.plot (Some Demo.read_image)
                (hd (Patch_init None) (Image.patches Demo.read_image))
                (Some "ax"))
         ++ [title].
Proof.
  apply (@Patch_plot_on_caller_axes Demo.mode_entries
           Demo.SW4_IMAGE_PLANE Demo.MPL_SCATTER_PROPERTIES
           (Some Demo.read_image)
           (hd (Patch_init None) (Image.patches Demo.read_image))
           (-1)%float 2%float "ax" None None true None None
           (new_figure, new_axes, Some new_colorbar)).
  evaluate.
Defined.

(** X11, witness: [image.plot(patches=[0, 1])] on an image of one
    patch. *)
Lemma Image_plot_index_out_of_range_witness :
  Image_plot (fun patch => Demo.plot (Some Demo.read_image) patch None)
    Demo.read_image (Some [0; 1]) =
    (fst (Image_plot
            (fun patch => Demo.plot (Some Demo.read_image) patch None)
            Demo.read_image (Some [0])),
     Raises (Exception IndexError)).
Proof.
  assert (H : 1 < - Z.of_nat (length (Image.patches Demo.read_image)) \/
              Z.of_nat (length (Image.patches Demo.read_image)) <= 1)
    by (right; apply Z.leb_le; evaluate).
  apply (proj2 (@Image_plot_index_out_of_range _
                  (fun patch => Demo.plot (Some Demo.read_image) patch None)
                  Demo.read_image [0] [] 1 H)).
  evaluate.
Defined.

(** X12, witness: the sources of the configuration on a map. *)
Lemma plot_coordinates_in_plane_witness :
  _get_plot_coordinates_from_config (Demo.located_image 2) "source"
  = Returns (Some (["2000"; "5000"], ["1000"; "4000"])) /\
  attr_values "y" (get_items Demo.located_config "source")
  = map Some ["2000"; "5000"] /\
  attr_values "x" (get_items Demo.located_config "source")
  = map Some ["1000"; "4000"].
Proof.
  assert (E : _get_plot_coordinates_from_config (Demo.located_image 2)
                "source"
              = Returns (Some (["2000"; "5000"], ["1000"; "4000"])))
    by evaluate.
  pose proof (@plot_coordinates_in_plane (Demo.located_image 2) "source"
                Demo.located_config 2 eq_refl
                ltac:(vm_compute; discriminate) eq_refl
                ltac:(lia)) as H.
  cbv zeta in H. rewrite E in H. exact (conj E H).
Defined.

(** X14, witness: the receivers of the configuration in a plane of
    code 3. *)
Lemma plot_coordinates_unbound_witness :
  _get_plot_coordinates_from_config (Demo.located_image 3) "rec"
  = Raises (UnboundLocalError "x_").
Proof.
  apply (@plot_coordinates_unbound (Demo.located_image 3) "rec"
           Demo.located_config).
  - reflexivity.
  - vm_compute. discriminate.
  - reflexivity.
Defined.

(** X15, witness: an image made with a configuration that declares a
    velocity. *)
Lemma source_coordinates_before_reading_witness :
  get_source_coordinates
    (Demo.constructed (Some (ConfigDict SW4.gaussian_config)) None)
  = Raises (UnboundLocalError "x_").
Proof.
  apply (@source_coordinates_before_reading
           SW4.SW4_SOURCE_TIME_FUNCTION_TYPE SW4.read_input_file
           (Some (ConfigDict SW4.gaussian_config)) None []
           (Demo.constructed (Some (ConfigDict SW4.gaussian_config)) None)).
  evaluate.
Defined.

(** X16, witness: the image read from the cross-section file. *)
Lemma read_image_metadata_witness :
  Image.filename Demo.read_image = Some "a.sw4img" /\
  quantity_name Demo.mode_entries Demo.read_image = Ok "X Displacement" /\
  plane Demo.SW4_IMAGE_PLANE Demo.read_image = Ok "X".
Proof.
  destruct (@read_image_metadata SW4.SW4_IMAGE_HEADER_DTYPE
              SW4.SW4_PATCH_HEADER_DTYPE SW4.SW4_IMAGE_PRECISION
              SW4.SW4_SOURCE_TIME_FUNCTION_TYPE SW4.read_input_file []
              Demo.mode_entries Demo.SW4_IMAGE_PLANE
              (SW4.single_file "a.sw4img" SW4.cross_section_file)
              "a.sw4img" None (Some "displacement")
              [Open "a.sw4img"; Close "a.sw4img"] Demo.read_image
              ltac:(evaluate))
    as (ev0 & image0 & content & _ & _ & Hname & _).
  split; [exact Hname|]. split; evaluate.
Defined.

(** X17, witness: the patch of the image read from the cross-section
    file, plotted without colorbar and with a colour map of the caller. *)
Lemma read_then_plot_witness :
  snd (Patch_plot Demo.mode_entries Demo.SW4_IMAGE_PLANE
         Demo.MPL_SCATTER_PROPERTIES (Some Demo.read_image)
         (hd (Patch_init None) (Image.patches Demo.read_image))
         (-1)%float 2%float None (Some 0%float) None false None
         (Some "viridis"))
  = Returns (new_figure, new_axes, None).
Proof.
  apply (proj2 (@read_then_plot SW4.SW4_IMAGE_HEADER_DTYPE
                  SW4.SW4_PATCH_HEADER_DTYPE SW4.SW4_IMAGE_PRECISION
                  SW4.SW4_SOURCE_TIME_FUNCTION_TYPE SW4.read_input_file []
                  Demo.mode_entries Demo.SW4_IMAGE_PLANE
                  Demo.MPL_SCATTER_PROPERTIES
                  (SW4.single_file "a.sw4img" SW4.cross_section_file)
                  "a.sw4img" (Some "displacement")
                  [Open "a.sw4img"; Close "a.sw4img"] Demo.read_image
                  SW4.cross_section_file
                  (hd (Patch_init None) (Image.patches Demo.read_image))
                  (-1)%float 2%float (Some 0%float) None false None
                  (Some "viridis") eq_refl ltac:(evaluate))).
  split; [split; apply Z.leb_le; evaluate|].
  split; [vm_compute; discriminate|].
  exists {| ModeEntry.name := "X Displacement";
            ModeEntry.symbol := "ux";
            ModeEntry.unit := "m";
            ModeEntry.cmap_type := "divergent" |}.
  split; [evaluate|discriminate].
Defined.

(** X18, witness: the random image of the examples. *)
Lemma random_image_plot_raises_witness :
  snd (Image_plot
         (fun patch =>
            Patch_plot Demo.mode_entries Demo.SW4_IMAGE_PLANE
              Demo.MPL_SCATTER_PROPERTIES None patch 0%float 0%float
              None None None true None None)
         Demo.random_image None)
  = Raises (Exception AttributeError).
Proof.
  apply (@random_image_plot_raises SW4.SW4_IMAGE_HEADER_DTYPE
           SW4.SW4_PATCH_HEADER_DTYPE SW4.SW4_IMAGE_PRECISION
           SW4.SW4_SOURCE_TIME_FUNCTION_TYPE SW4.read_input_file []
           Demo.mode_entries Demo.SW4_IMAGE_PLANE
           Demo.MPL_SCATTER_PROPERTIES (fun _ => None)
           (Some (ConfigDict SW4.gaussian_config)) (Some "displacement")
           [Warn (Overriding_source_time_function_type
                    "displacement" "velocity")]
           Demo.random_image (fun _ => (0%float, 0%float)) None None None
           true None None).
  evaluate.
Defined.

(** X20, witness: a movie of the cross-section file with the defaults
    of [config] and [source_time_function_type]. *)
Lemma movie_defaults_raise_witness :
  Demo.movie [Str "a.sw4img"] None None true =
    ([], Raises (Exception
                   (ValueError
                      (Unrecognized_source_time_function_type None)))).
Proof.
  apply (@movie_defaults_raise SW4.SW4_IMAGE_HEADER_DTYPE
           SW4.SW4_PATCH_HEADER_DTYPE SW4.SW4_IMAGE_PRECISION
           SW4.SW4_SOURCE_TIME_FUNCTION_TYPE SW4.read_input_file []
           Demo.mode_entries Demo.SW4_IMAGE_PLANE
           Demo.MPL_SCATTER_PROPERTIES (fun _ => ((-1)%float, 2%float))
           (SW4.single_file "a.sw4img" SW4.cross_section_file)
           (fun path => String.eqb path "a.sw4img") (fun _ => true)
           "TkAgg" true [Str "a.sw4img"] "movie" 0 5 false true
           Demo.no_kwargs).
  - discriminate.
  - reflexivity.
Defined.

(** X21, witness: a movie of no file, with global colour limits. *)
Lemma movie_without_files_witness :
  Demo.movie [] None (Some "displacement") true =
    ([], Raises (UnboundLocalError "image")).
Proof.
  apply (@movie_without_files SW4.SW4_IMAGE_HEADER_DTYPE
           SW4.SW4_PATCH_HEADER_DTYPE SW4.SW4_IMAGE_PRECISION
           SW4.SW4_SOURCE_TIME_FUNCTION_TYPE SW4.read_input_file []
           Demo.mode_entries Demo.SW4_IMAGE_PLANE
           Demo.MPL_SCATTER_PROPERTIES (fun _ => ((-1)%float, 2%float))
           (SW4.single_file "a.sw4img" SW4.cross_section_file)
           (fun path => String.eqb path "a.sw4img") (fun _ => true)
           "TkAgg" true "movie" None (Some "displacement") 0 5 false true
           Demo.no_kwargs).
  reflexivity.
Defined.

(** X23, witness: the patch of the image read from the cross-section
    file, a divergent quantity, plotted without limits. *)
Lemma Patch_plot_draws_the_patch_witness :
  In (imshow
        (Patch.data (hd (Patch_init None) (Image.patches Demo.read_image)))
        (Patch.extent
           (hd (Patch_init None) (Image.patches Demo.read_image)))
        (Some (-2)%float) (Some 2%float) cmap_divergent)
    (fst (Demo.plot (Some Demo.read_image)
            (hd (Patch_init None) (Image.patches Demo.read_image))
            None)) /\
  exists m, Some (-2)%float = Some (- m)%float /\ Some 2%float = Some m.
Proof.
  assert (Hin :
    In (imshow
          (Patch.data (hd (Patch_init None) (Image.patches Demo.read_image)))
          (Patch.extent
             (hd (Patch_init None) (Image.patches Demo.read_image)))
          (Some (-2)%float) (Some 2%float) cmap_divergent)
      (fst (Demo.plot (Some Demo.read_image)
              (hd (Patch_init None) (Image.patches Demo.read_image))
              None)))
    by (vm_compute; do 2 right; left; reflexivity).
  destruct (@Patch_plot_draws_the_patch Demo.mode_entries
              Demo.SW4_IMAGE_PLANE Demo.MPL_SCATTER_PROPERTIES
              (Some Demo.read_image)
              (hd (Patch_init None) (Image.patches Demo.read_image))
              (-1)%float 2%float None None None true None None _ _ _ _ _
              Hin) as (_ & _ & _ & H).
  split; [exact Hin|].
  destruct (H eq_refl eq_refl) as [[H1 _]|H2]; [discriminate|exact H2].
Defined.

(** X24, witness: a movie of the cross-section file, whose quantity is
    divergent: the frame is drawn between [-2.0] and [2.0]. *)
Lemma movie_frames_share_limits_witness :
  In (imshow
        (Patch.data (hd (Patch_init None) (Image.patches Demo.read_image)))
        (Patch.extent
           (hd (Patch_init None) (Image.patches Demo.read_image)))
        (Some (-2)%float) (Some 2%float) cmap_divergent)
    (Demo.first_frame
       (Demo.movie [Str "a.sw4img"] None (Some "displacement") true)) /\
  exists global_min global_max,
    Some (-2)%float = Some global_min /\ Some 2%float = Some global_max.
Proof.
  assert (Hframe :
    In (patch_plot
          (Demo.first_frame
             (Demo.movie [Str "a.sw4img"] None (Some "displacement") true)))
      (fst (Demo.movie [Str "a.sw4img"] None (Some "displacement") true)))
    by (vm_compute; right; left; reflexivity).
  assert (Hin :
    In (imshow
          (Patch.data (hd (Patch_init None) (Image.patches Demo.read_image)))
          (Patch.extent
             (hd (Patch_init None) (Image.patches Demo.read_image)))
          (Some (-2)%float) (Some 2%float) cmap_divergent)
      (Demo.first_frame
         (Demo.movie [Str "a.sw4img"] None (Some "displacement") true)))
    by (vm_compute; do 2 right; left; reflexivity).
  destruct (@movie_frames_share_limits SW4.SW4_IMAGE_HEADER_DTYPE
              SW4.SW4_PATCH_HEADER_DTYPE SW4.SW4_IMAGE_PRECISION
              SW4.SW4_SOURCE_TIME_FUNCTION_TYPE SW4.read_input_file []
              Demo.mode_entries Demo.SW4_IMAGE_PLANE
              Demo.MPL_SCATTER_PROPERTIES (fun _ => ((-1)%float, 2%float))
              (SW4.single_file "a.sw4img" SW4.cross_section_file)
              (fun path => String.eqb path "a.sw4img") (fun _ => true)
              "TkAgg" true [Str "a.sw4img"] "movie" None
              (Some "displacement") 0 5 false Demo.no_kwargs _ _ _ _ _ _
              Hframe Hin) as (global_min & global_max & _ & Hlo & Hhi).
  split; [exact Hin|].
  exists global_min, global_max. split; [exact Hlo|exact Hhi].
Defined.

(** X25, witness: the frame of the movie of the cross-section file. *)
Lemma movie_colorbars_not_extended_witness :
  In (plt_colorbar "neither" "X Displacement [m]")
    (Demo.first_frame
       (Demo.movie [Str "a.sw4img"] None (Some "displacement") true)) /\
  "neither" = "neither".
Proof.
  assert (Hframe :
    In (patch_plot
          (Demo.first_frame
             (Demo.movie [Str "a.sw4img"] None (Some "displacement") true)))
      (fst (Demo.movie [Str "a.sw4img"] None (Some "displacement") true)))
    by (vm_compute; right; left; reflexivity).
  assert (Hbar :
    In (plt_colorbar "neither" "X Displacement [m]")
      (Demo.first_frame
         (Demo.movie [Str "a.sw4img"] None (Some "displacement") true)))
    by (vm_compute; do 5 right; left; reflexivity).
  split; [exact Hbar|].
  symmetry.
  exact (@movie_colorbars_not_extended SW4.SW4_IMAGE_HEADER_DTYPE
           SW4.SW4_PATCH_HEADER_DTYPE SW4.SW4_IMAGE_PRECISION
           SW4.SW4_SOURCE_TIME_FUNCTION_TYPE SW4.read_input_file []
           Demo.mode_entries Demo.SW4_IMAGE_PLANE
           Demo.MPL_SCATTER_PROPERTIES (fun _ => ((-1)%float, 2%float))
           (SW4.single_file "a.sw4img" SW4.cross_section_file)
           (fun path => String.eqb path "a.sw4img") (fun _ => true)
           "TkAgg" true [Str "a.sw4img"] "movie" None
           (Some "displacement") 0 5 false Demo.no_kwargs _ _ _
           Hframe Hbar).
Defined.


